(** * i2c-gpio-custom: provisioning of up to four GPIO bit-banged I2C buses

    Shallow embedding of [src/i2c-gpio-custom.c] (the branch compiled for
    kernels >= 4.15, the one that builds GPIO descriptor lookup tables) and
    the properties of its provisioning core.

    The driver is C code over module-wide globals that calls into the kernel
    (GPIO lookup tables, platform bus, allocator, log).  The embedding is a
    state-and-fault monad over a record holding the driver's globals together
    with the part of the kernel the driver talks to.  Every call into the
    kernel is appended to an event log, so that orderings can be stated. *)

From Stdlib Require Import ZArith List String Ascii Lia Bool.
From stdpp Require Import base list strings.

Local Open Scope string_scope.
Local Open Scope list_scope.
Local Open Scope Z_scope.

(** ** C integers *)

(** [unsigned int] and [int] are 32 bits wide; [u16] is the width of
    [gpiod_lookup.chip_hwnum]. *)
Definition to_uint (z : Z) : Z := z mod 2 ^ 32.

Definition to_int (z : Z) : Z :=
  let u := z mod 2 ^ 32 in if u <? 2 ^ 31 then u else u - 2 ^ 32.

Definition to_u16 (z : Z) : Z := z mod 2 ^ 16.

Definition EINVAL : Z := 22.
Definition ENOMEM : Z := 12.
Definition ENODEV : Z := 19.

(** ** Constants of the driver *)

Definition BUS_PARAM_ID : nat := 0.
Definition BUS_PARAM_SDA : nat := 1.
Definition BUS_PARAM_SCL : nat := 2.
Definition BUS_PARAM_UDELAY : nat := 3.
Definition BUS_PARAM_TIMEOUT : nat := 4.
Definition BUS_PARAM_SDA_OD : nat := 5.
Definition BUS_PARAM_SCL_OD : nat := 6.
Definition BUS_PARAM_SCL_OO : nat := 7.

Definition BUS_PARAM_REQUIRED : Z := 3.
Definition BUS_PARAM_COUNT : nat := 8.
Definition BUS_COUNT_MAX : nat := 4.
Definition BUS_NAME_MAX : Z := 32.

(** ** Formatting of the identity string: ["i2c-gpio.%d"] *)

Definition digit (d : Z) : ascii := ascii_of_nat (48 + Z.to_nat d).

(** Decimal digits of a non-negative number, most significant first.  The
    fuel bounds the number of digits; ten digits cover every 32-bit value. *)
Fixpoint utoa (fuel : nat) (n : Z) (acc : string) : string :=
  match fuel with
  | O => acc
  | S fuel' =>
      let acc' := String (digit (n mod 10)) acc in
      if n / 10 =? 0 then acc' else utoa fuel' (n / 10) acc'
  end.

(** [%d] of an [int]. *)
Definition itoa (v : Z) : string :=
  if v <? 0 then String "-" (utoa 10 (- v) "") else utoa 10 v "".

(** The text [snprintf] is asked to produce for bus parameter [id]; the
    [unsigned int] argument is read back as [int] by [%d]. *)
Definition dev_id_text (id : Z) : string := String.append "i2c-gpio." (itoa (to_int id)).

Definition strlen (s : string) : Z := Z.of_nat (String.length s).

(** The first [n] characters of [s]. *)
Fixpoint truncate (n : nat) (s : string) : string :=
  match n, s with
  | S n', String c s' => String c (truncate n' s')
  | _, _ => ""
  end.

(** ** Data model *)

(** Addresses of dynamically allocated kernel objects; [None] is [NULL]. *)
Abbreviation addr := nat (only parsing).

Inductive role := SDA | SCL.

Record gpio_chip := { label : string; base : Z }.

Inductive lookup_flags := GPIO_OPEN_DRAIN.

Record gpiod_lookup := {
  chip_label : option string;
  chip_hwnum : Z;
  con_id : string;
  flags : lookup_flags
}.

Record gpiod_lookup_table := {
  dev_id : option addr;
  table : list gpiod_lookup
}.

(** [GPIO_LOOKUP(NULL, 0, con, GPIO_OPEN_DRAIN)] *)
Definition GPIO_LOOKUP (con : string) : gpiod_lookup :=
  {| chip_label := None; chip_hwnum := 0; con_id := con;
     flags := GPIO_OPEN_DRAIN |}.

Definition GPIOD_TABLE_TEMPLATE : gpiod_lookup_table :=
  {| dev_id := None; table := [GPIO_LOOKUP "sda"; GPIO_LOOKUP "scl"] |}.

Record i2c_gpio_platform_data := {
  udelay : Z;
  timeout : Z;
  sda_is_open_drain : bool;
  scl_is_open_drain : bool;
  scl_is_output_only : bool
}.

Record platform_device := {
  pdev_name : string;
  pdev_id : Z;
  platform_data : option i2c_gpio_platform_data
}.

(** What an allocated block holds: the bytes of a [kmalloc]ed buffer (not
    yet written, or a string), or a platform device. *)
Inductive block :=
| Bytes (content : option string)
| Device (d : platform_device).

Inductive message :=
| MsgVersion
| MsgNotEnoughParameters (bus : nat)
| MsgNonexistentGpio (gpio : Z) (bus : nat) (r : role)
| MsgBusIdTooLarge (bus : nat)
| MsgNoBusParameters.

(** Calls into the kernel, in the order they are made. *)
Inductive event :=
| Printk (m : message)
| GpioToChip (gpio : Z)
| Kmalloc (size : Z) (p : option addr)
| Snprintf (p : addr) (size : Z) (text : string)
| Kfree (p : option addr)
| GpiodAddLookupTable (t : nat)
| GpiodRemoveLookupTable (t : nat)
| PlatformDeviceAlloc (name : string) (id : Z) (p : option addr)
| PlatformDeviceAddData (p : addr) (rc : Z)
| PlatformDeviceAdd (p : addr) (rc : Z)
| PlatformDeviceDel (p : addr)
| PlatformDevicePut (p : addr).

(** The driver's globals ([devices], the four static lookup tables reached
    through [gpiod_tables], [nr_devices]) and the kernel state the driver
    acts on: allocated blocks ([None] once released), the GPIO lookup list
    (static tables are named by their index), the devices registered on the
    platform bus, and the log of calls.

    [nr_devices] is an [unsigned int]; the store [devices[nr_devices++]]
    is in bounds only below [BUS_COUNT_MAX], so the counter never comes near
    its wrap-around and is kept as a [nat]. *)
Record state := {
  devices : list (option addr);
  gpiod_tables : list gpiod_lookup_table;
  nr_devices : nat;
  heap : list (option block);
  gpio_lookup_list : list nat;
  platform_bus : list addr;
  klog : list event
}.

(** The module parameters, fixed once the module is loaded: the four
    parameter arrays and the number of entries supplied for each. *)
Record module_params := {
  bus0 : list Z;
  bus1 : list Z;
  bus2 : list Z;
  bus3 : list Z;
  bus_nump : list Z
}.

(** What the kernel answers during one pass: which chip owns a GPIO number,
    and, for the calls made while bus [i] is provisioned, whether the two
    allocations succeed and what the two registration calls return. *)
Record kernel_env := {
  chip_of_gpio : Z -> option gpio_chip;
  kmalloc_ok : nat -> bool;
  pdev_alloc_ok : nat -> bool;
  add_data_rc : nat -> Z;
  add_rc : nat -> Z
}.

Definition init_state : state :=
  {| devices := replicate BUS_COUNT_MAX None;
     gpiod_tables := replicate BUS_COUNT_MAX GPIOD_TABLE_TEMPLATE;
     nr_devices := 0%nat;
     heap := [];
     gpio_lookup_list := [];
     platform_bus := [];
     klog := [] |}.

(** Field updates. *)
Definition set_devices (v : list (option addr)) (s : state) : state :=
  {| devices := v; gpiod_tables := gpiod_tables s; nr_devices := nr_devices s;
     heap := heap s; gpio_lookup_list := gpio_lookup_list s;
     platform_bus := platform_bus s; klog := klog s |}.

Definition set_gpiod_tables (v : list gpiod_lookup_table) (s : state) : state :=
  {| devices := devices s; gpiod_tables := v; nr_devices := nr_devices s;
     heap := heap s; gpio_lookup_list := gpio_lookup_list s;
     platform_bus := platform_bus s; klog := klog s |}.

Definition set_nr_devices (v : nat) (s : state) : state :=
  {| devices := devices s; gpiod_tables := gpiod_tables s; nr_devices := v;
     heap := heap s; gpio_lookup_list := gpio_lookup_list s;
     platform_bus := platform_bus s; klog := klog s |}.

Definition set_heap (v : list (option block)) (s : state) : state :=
  {| devices := devices s; gpiod_tables := gpiod_tables s;
     nr_devices := nr_devices s; heap := v;
     gpio_lookup_list := gpio_lookup_list s;
     platform_bus := platform_bus s; klog := klog s |}.

Definition set_gpio_lookup_list (v : list nat) (s : state) : state :=
  {| devices := devices s; gpiod_tables := gpiod_tables s;
     nr_devices := nr_devices s; heap := heap s; gpio_lookup_list := v;
     platform_bus := platform_bus s; klog := klog s |}.

Definition set_platform_bus (v : list addr) (s : state) : state :=
  {| devices := devices s; gpiod_tables := gpiod_tables s;
     nr_devices := nr_devices s; heap := heap s;
     gpio_lookup_list := gpio_lookup_list s; platform_bus := v;
     klog := klog s |}.

Definition emit (e : event) (s : state) : state :=
  {| devices := devices s; gpiod_tables := gpiod_tables s;
     nr_devices := nr_devices s; heap := heap s;
     gpio_lookup_list := gpio_lookup_list s;
     platform_bus := platform_bus s; klog := klog s ++ [e] |}.

(** ** The monad: state, and faults where C has no defined behaviour *)

Inductive fault :=
| NullDeref
| UseAfterFree (p : addr)
| DoubleFree (p : addr)
| ListNotLinked (t : nat)
| ListAlreadyLinked (t : nat)
| OutOfBounds.

Inductive result (A : Type) :=
| Done (a : A) (s : state)
| Oops (f : fault) (s : state).
Arguments Done {A} a s.
Arguments Oops {A} f s.

Definition M (A : Type) : Type := state -> result A.

Definition ret {A} (a : A) : M A := fun s => Done a s.

Definition bind {A B} (m : M A) (k : A -> M B) : M B :=
  fun s => match m s with
           | Done a s' => k a s'
           | Oops f s' => Oops f s'
           end.

Definition oops {A} (f : fault) : M A := fun s => Oops f s.

Definition modify (f : state -> state) : M unit := fun s => Done tt (f s).

Definition gets {A} (f : state -> A) : M A := fun s => Done (f s) s.

Declare Scope drv_scope.
Delimit Scope drv_scope with drv.
Notation "x <- m ;; k" := (bind m (fun x => k))
  (at level 100, m at next level, right associativity) : drv_scope.
Notation "m ;;; k" := (bind m (fun _ => k))
  (at level 100, right associativity) : drv_scope.
Local Open Scope drv_scope.

(** The final state of a run, however it ended. *)
Definition final {A} (r : result A) : state :=
  match r with Done _ s => s | Oops _ s => s end.

(** [for (i = from; i < from + n; i++) body(i)] *)
Fixpoint for_loop (from n : nat) (body : nat -> M unit) : M unit :=
  match n with
  | O => ret tt
  | S n' => body from ;;; for_loop (S from) n' body
  end.

(** ** The kernel interface the driver calls

    Each function is modelled by its contract: what it changes in the kernel
    state on a correct call, and a fault where the call is outside the
    contract (a [NULL] or released object is dereferenced, a list node is
    unlinked that is not on the list). *)

Definition printk (m : message) : M unit := modify (emit (Printk m)).

Definition gpio_to_chip (K : kernel_env) (gpio : Z) : M (option gpio_chip) :=
  modify (emit (GpioToChip gpio)) ;;; ret (chip_of_gpio K gpio).

(** A fresh block sits at the end of the heap. *)
Definition alloc_block (b : block) : M addr :=
  fun s => Done (length (heap s)) (set_heap (heap s ++ [Some b]) s).

Definition kmalloc (size : Z) (ok : bool) : M (option addr) :=
  if ok then
    p <- alloc_block (Bytes None) ;;
    modify (emit (Kmalloc size (Some p))) ;;;
    ret (Some p)
  else
    modify (emit (Kmalloc size None)) ;;; ret None.

(** [snprintf(buf, size, ...)] stores at most [size - 1] characters and
    returns the length of the whole text. *)
Definition snprintf (buf : option addr) (size : Z) (text : string) : M Z :=
  match buf with
  | None => oops NullDeref
  | Some p =>
      fun s =>
        match heap s !! p with
        | Some (Some (Bytes old)) =>
            let stored :=
              if size <=? 0 then old
              else Some (truncate (Z.to_nat (size - 1)) text) in
            Done (strlen text)
                 (emit (Snprintf p size text)
                       (set_heap (<[p := Some (Bytes stored)]> (heap s)) s))
        | _ => Oops (UseAfterFree p) s
        end
  end.

(** [kfree(NULL)] does nothing. *)
Definition kfree (p : option addr) : M unit :=
  match p with
  | None => modify (emit (Kfree None))
  | Some a =>
      fun s =>
        match heap s !! a with
        | Some (Some _) =>
            Done tt (emit (Kfree p) (set_heap (<[a := None]> (heap s)) s))
        | _ => Oops (DoubleFree a) s
        end
  end.

Definition linked (t : nat) (l : list nat) : bool := existsb (Nat.eqb t) l.

Definition unlink (t : nat) (l : list nat) : list nat :=
  List.filter (fun x => negb (Nat.eqb t x)) l.

(** [list_add_tail] of the table's node onto the lookup list. *)
Definition gpiod_add_lookup_table (t : nat) : M unit :=
  fun s =>
    if linked t (gpio_lookup_list s) then Oops (ListAlreadyLinked t) s
    else Done tt (emit (GpiodAddLookupTable t)
                       (set_gpio_lookup_list (gpio_lookup_list s ++ [t]) s)).

(** [list_del] of the table's node; the node of a table that was never
    added points nowhere. *)
Definition gpiod_remove_lookup_table (t : nat) : M unit :=
  fun s =>
    if linked t (gpio_lookup_list s) then
      Done tt (emit (GpiodRemoveLookupTable t)
                    (set_gpio_lookup_list (unlink t (gpio_lookup_list s)) s))
    else Oops (ListNotLinked t) s.

Definition platform_device_alloc (name : string) (id : Z) (ok : bool)
  : M (option addr) :=
  if ok then
    p <- alloc_block
           (Device {| pdev_name := name; pdev_id := id;
                      platform_data := None |}) ;;
    modify (emit (PlatformDeviceAlloc name id (Some p))) ;;;
    ret (Some p)
  else
    modify (emit (PlatformDeviceAlloc name id None)) ;;; ret None.

(** Copies the parameter block into the device; fails without effect. *)
Definition platform_device_add_data (p : addr) (data : i2c_gpio_platform_data)
    (rc : Z) : M Z :=
  fun s =>
    match heap s !! p with
    | Some (Some (Device d)) =>
        let d' := {| pdev_name := pdev_name d; pdev_id := pdev_id d;
                     platform_data := Some data |} in
        Done rc (emit (PlatformDeviceAddData p rc)
                      (if rc =? 0
                       then set_heap (<[p := Some (Device d')]> (heap s)) s
                       else s))
    | _ => Oops (UseAfterFree p) s
    end.

(** Registers the device on the platform bus; fails without effect. *)
Definition platform_device_add (p : addr) (rc : Z) : M Z :=
  fun s =>
    match heap s !! p with
    | Some (Some (Device _)) =>
        Done rc (emit (PlatformDeviceAdd p rc)
                      (if rc =? 0
                       then set_platform_bus (platform_bus s ++ [p]) s
                       else s))
    | _ => Oops (UseAfterFree p) s
    end.

Definition platform_device_del (p : addr) : M unit :=
  fun s =>
    match heap s !! p with
    | Some (Some (Device _)) =>
        Done tt (emit (PlatformDeviceDel p)
                      (set_platform_bus (unlink p (platform_bus s)) s))
    | _ => Oops (UseAfterFree p) s
    end.

(** Drops the driver's reference, the only one: the device is released. *)
Definition platform_device_put (p : addr) : M unit :=
  fun s =>
    match heap s !! p with
    | Some (Some (Device _)) =>
        Done tt (emit (PlatformDevicePut p)
                      (set_heap (<[p := None]> (heap s)) s))
    | _ => Oops (UseAfterFree p) s
    end.

(** ** Stores into the driver's globals *)

(** [gpiod_tables[t]->dev_id] *)
Definition load_dev_id (t : nat) : M (option addr) :=
  fun s =>
    match gpiod_tables s !! t with
    | Some tb => Done (dev_id tb) s
    | None => Oops OutOfBounds s
    end.

(** [gpiod_table->table[k].chip_label = lbl;
     gpiod_table->table[k].chip_hwnum = hw;] *)
Definition with_lookup (k : nat) (lbl : string) (hw : Z)
    (tb : gpiod_lookup_table) : gpiod_lookup_table :=
  {| dev_id := dev_id tb;
     table := alter (fun e => {| chip_label := Some lbl;
                                 chip_hwnum := to_u16 hw;
                                 con_id := con_id e;
                                 flags := flags e |}) k (table tb) |}.

Definition store_lookup (t k : nat) (lbl : string) (hw : Z) : M unit :=
  modify (fun s =>
    set_gpiod_tables (alter (with_lookup k lbl hw) t (gpiod_tables s)) s).

(** [gpiod_table->dev_id = p;] *)
Definition with_dev_id (p : option addr) (tb : gpiod_lookup_table)
  : gpiod_lookup_table :=
  {| dev_id := p; table := table tb |}.

Definition store_dev_id (t : nat) (p : option addr) : M unit :=
  modify (fun s =>
    set_gpiod_tables (alter (with_dev_id p) t (gpiod_tables s)) s).

(** [devices[nr_devices++] = pdev;] *)
Definition store_device (pdev : addr) : M unit :=
  fun s =>
    if (nr_devices s <? length (devices s))%nat then
      Done tt (set_nr_devices (S (nr_devices s))
                 (set_devices (<[nr_devices s := Some pdev]> (devices s)) s))
    else Oops OutOfBounds s.

(** [params[i]]: the parameter arrays have [BUS_PARAM_COUNT] entries and are
    read at the constant indices [BUS_PARAM_ID] .. [BUS_PARAM_SCL_OO] only. *)
Definition param (params : list Z) (i : nat) : Z := nth i params 0.

(** ** The driver *)

Section Driver.

Variable K : kernel_env.
Variable P : module_params.

(** [i2c_gpio_custom_cleanup]: the bodies of its two loops, and the function.
    Neither body writes [nr_devices], so the loop bound is read once. *)
Definition cleanup_device (i : nat) : M unit :=
  d <- (fun s => match devices s !! i with
                 | Some d => Done d s
                 | None => Oops OutOfBounds s
                 end) ;;
  match d with
  | Some pdev => platform_device_del pdev ;;; platform_device_put pdev
  | None => ret tt
  end.

Definition cleanup_table (i : nat) : M unit :=
  (if (i <? BUS_COUNT_MAX)%nat then gpiod_remove_lookup_table i
   else oops OutOfBounds) ;;;
  p <- load_dev_id i ;;
  kfree p.

Definition i2c_gpio_custom_cleanup : M unit :=
  n <- gets nr_devices ;;
  for_loop 0 n cleanup_device ;;;
  for_loop 0 n cleanup_table.

(** The exit labels of [i2c_gpio_custom_add_one], innermost last. *)
Definition lbl_err (err : Z) : M Z := ret err.

Definition lbl_err_free (dev : option addr) (err : Z) : M Z :=
  kfree dev ;;; lbl_err err.

Definition lbl_err_remove (gpiod_table : nat) (dev : option addr) (err : Z)
  : M Z :=
  gpiod_remove_lookup_table gpiod_table ;;; lbl_err_free dev err.

Definition lbl_err_put (pdev : addr) (gpiod_table : nat) (dev : option addr)
    (err : Z) : M Z :=
  platform_device_put pdev ;;; lbl_err_remove gpiod_table dev err.

(** [i2c_gpio_custom_add_one], second half (from [platform_device_alloc]
    to the final [return 0]): the device is allocated, given its parameter
    block, registered and recorded. *)
Definition add_one_device (id : nat) (params : list Z) (gpiod_table : nat)
    (dev : option addr) : M Z :=
  pdev <- platform_device_alloc "i2c-gpio"
            (to_int (param params BUS_PARAM_ID)) (pdev_alloc_ok K id) ;;
  match pdev with
  | None => lbl_err_remove gpiod_table dev (- ENOMEM)
  | Some pdev =>
      let pdata :=
        {| udelay := to_int (param params BUS_PARAM_UDELAY);
           timeout := to_int (param params BUS_PARAM_TIMEOUT);
           sda_is_open_drain := negb (param params BUS_PARAM_SDA_OD =? 0);
           scl_is_open_drain := negb (param params BUS_PARAM_SCL_OD =? 0);
           scl_is_output_only := negb (param params BUS_PARAM_SCL_OO =? 0) |} in
      err <- platform_device_add_data pdev pdata (add_data_rc K id) ;;
      if negb (err =? 0) then lbl_err_put pdev gpiod_table dev err
      else
        err <- platform_device_add pdev (add_rc K id) ;;
        if negb (err =? 0) then lbl_err_put pdev gpiod_table dev err
        else
          store_device pdev ;;;
          ret 0
  end.

(** [i2c_gpio_custom_add_one], with the bound of the identity string as a
    parameter; the driver fixes it to [BUS_NAME_MAX]. *)
Definition add_one_bounded (name_max : Z) (id : nat) (params : list Z) : M Z :=
  if negb (id <? BUS_COUNT_MAX)%nat then oops OutOfBounds else
  if nth id (bus_nump P) 0 =? 0 then ret 0 else
  if nth id (bus_nump P) 0 <? BUS_PARAM_REQUIRED then
    printk (MsgNotEnoughParameters id) ;;;
    lbl_err (- EINVAL)
  else
    let gpiod_table := id in
    chip_sda <- gpio_to_chip K (param params BUS_PARAM_SDA) ;;
    match chip_sda with
    | None =>
        printk (MsgNonexistentGpio (param params BUS_PARAM_SDA) id SDA) ;;;
        lbl_err (- EINVAL)
    | Some chip_sda =>
        store_lookup gpiod_table 0 (label chip_sda)
          (to_uint (param params BUS_PARAM_SDA - base chip_sda)) ;;;
        chip_scl <- gpio_to_chip K (param params BUS_PARAM_SCL) ;;
        match chip_scl with
        | None =>
            printk (MsgNonexistentGpio (param params BUS_PARAM_SCL) id SCL) ;;;
            lbl_err (- EINVAL)
        | Some chip_scl =>
            store_lookup gpiod_table 1 (label chip_scl)
              (to_uint (param params BUS_PARAM_SCL - base chip_scl)) ;;;
            dev <- kmalloc (name_max + 1) (kmalloc_ok K id) ;;
            len <- snprintf dev (name_max + 1)
                     (dev_id_text (param params BUS_PARAM_ID)) ;;
            if len >=? name_max + 1 then
              printk (MsgBusIdTooLarge id) ;;;
              lbl_err_free dev (- EINVAL)
            else
              store_dev_id gpiod_table dev ;;;
              gpiod_add_lookup_table gpiod_table ;;;
              add_one_device id params gpiod_table dev
        end
    end.

Definition i2c_gpio_custom_add_one : nat -> list Z -> M Z :=
  add_one_bounded BUS_NAME_MAX.

(** [i2c_gpio_custom_probe]; [probe_err] is its [err:] label. *)
Definition probe_err (err : Z) : M Z :=
  i2c_gpio_custom_cleanup ;;; ret err.

Definition i2c_gpio_custom_probe : M Z :=
  printk MsgVersion ;;;
  err <- i2c_gpio_custom_add_one 0 (bus0 P) ;;
  if negb (err =? 0) then probe_err err else
  err <- i2c_gpio_custom_add_one 1 (bus1 P) ;;
  if negb (err =? 0) then probe_err err else
  err <- i2c_gpio_custom_add_one 2 (bus2 P) ;;
  if negb (err =? 0) then probe_err err else
  err <- i2c_gpio_custom_add_one 3 (bus3 P) ;;
  if negb (err =? 0) then probe_err err else
  n <- gets nr_devices ;;
  if (n =? 0)%nat then
    printk MsgNoBusParameters ;;;
    probe_err (- ENODEV)
  else ret 0.

(** [i2c_gpio_custom_init] and [i2c_gpio_custom_exit] *)
Definition i2c_gpio_custom_init : M Z := i2c_gpio_custom_probe.

Definition i2c_gpio_custom_exit : M unit := i2c_gpio_custom_cleanup.

End Driver.

(** ** Loading the module parameters *)

(** What [module_param_array] leaves in a parameter array and its counter
    when [supplied] values are given on the command line: the values in
    front, the zeroes of the static array behind, and the number of values.
    (The kernel refuses more than [BUS_PARAM_COUNT] values and values that
    are no [unsigned int]; here each value is reduced to 32 bits.) *)
Definition module_param_array (supplied : list Z) : list Z * Z :=
  (take BUS_PARAM_COUNT (map to_uint supplied ++ replicate BUS_PARAM_COUNT 0),
   Z.of_nat (length supplied)).

Definition insmod (b0 b1 b2 b3 : list Z) : module_params :=
  {| bus0 := fst (module_param_array b0);
     bus1 := fst (module_param_array b1);
     bus2 := fst (module_param_array b2);
     bus3 := fst (module_param_array b3);
     bus_nump := [snd (module_param_array b0); snd (module_param_array b1);
                  snd (module_param_array b2); snd (module_param_array b3)] |}.

(** A kernel in which every GPIO below 64 belongs to one chip and nothing
    fails. *)
Definition friendly : kernel_env :=
  {| chip_of_gpio := fun g =>
       if (0 <=? g) && (g <? 64)
       then Some {| label := "gpio0"; base := 0 |} else None;
     kmalloc_ok := fun _ => true;
     pdev_alloc_ok := fun _ => true;
     add_data_rc := fun _ => 0;
     add_rc := fun _ => 0 |}.

(** * Vocabulary of the properties *)

(** The state in which the second half starts: both lines resolved and
    written into the slot's static table, the identity string allocated and
    formatted, the table installed. *)
Definition built (name_max : Z) (id : nat) (params : list Z)
    (chip_sda chip_scl : gpio_chip) (s : state) : state :=
  let h := length (heap s) in
  let text := dev_id_text (param params BUS_PARAM_ID) in
  {| devices := devices s;
     gpiod_tables :=
       alter (with_dev_id (Some h)) id
         (alter (with_lookup 1 (label chip_scl)
                   (to_uint (param params BUS_PARAM_SCL - base chip_scl))) id
            (alter (with_lookup 0 (label chip_sda)
                      (to_uint (param params BUS_PARAM_SDA - base chip_sda)))
               id (gpiod_tables s)));
     nr_devices := nr_devices s;
     heap := heap s ++ [Some (Bytes (Some (truncate (Z.to_nat name_max) text)))];
     gpio_lookup_list := gpio_lookup_list s ++ [id];
     platform_bus := platform_bus s;
     klog := klog s ++
       [GpioToChip (param params BUS_PARAM_SDA);
        GpioToChip (param params BUS_PARAM_SCL);
        Kmalloc (name_max + 1) (Some h);
        Snprintf h (name_max + 1) text;
        GpiodAddLookupTable id] |}.

(** The parameter block built from the bus parameters. *)
Definition pdata_of (params : list Z) : i2c_gpio_platform_data :=
  {| udelay := to_int (param params BUS_PARAM_UDELAY);
     timeout := to_int (param params BUS_PARAM_TIMEOUT);
     sda_is_open_drain := negb (param params BUS_PARAM_SDA_OD =? 0);
     scl_is_open_drain := negb (param params BUS_PARAM_SCL_OD =? 0);
     scl_is_output_only := negb (param params BUS_PARAM_SCL_OO =? 0) |}.

Definition device_of (params : list Z) (data : option i2c_gpio_platform_data)
  : platform_device :=
  {| pdev_name := "i2c-gpio";
     pdev_id := to_int (param params BUS_PARAM_ID);
     platform_data := data |}.

(** The second half succeeded: the device sits in a new block, is on the
    platform bus and is recorded in [devices]. *)
Definition registered (params : list Z) (s : state) : state :=
  let p := length (heap s) in
  {| devices := <[nr_devices s := Some p]> (devices s);
     gpiod_tables := gpiod_tables s;
     nr_devices := S (nr_devices s);
     heap := heap s ++ [Some (Device (device_of params (Some (pdata_of params))))];
     gpio_lookup_list := gpio_lookup_list s;
     platform_bus := platform_bus s ++ [p];
     klog := klog s ++
       [PlatformDeviceAlloc "i2c-gpio" (to_int (param params BUS_PARAM_ID))
          (Some p);
        PlatformDeviceAddData p 0;
        PlatformDeviceAdd p 0] |}.

(** The second half failed after the device was allocated: the device block
    is released, the table is off the lookup list, the identity string is
    released. *)
Definition rolled_back (params : list Z) (t : nat) (q : addr)
    (tail : list event) (s : state) : state :=
  {| devices := devices s;
     gpiod_tables := gpiod_tables s;
     nr_devices := nr_devices s;
     heap := <[q := None]> (heap s) ++ [None];
     gpio_lookup_list := unlink t (gpio_lookup_list s);
     platform_bus := platform_bus s;
     klog := klog s ++
       PlatformDeviceAlloc "i2c-gpio" (to_int (param params BUS_PARAM_ID))
         (Some (length (heap s))) :: tail |}.

(** A kernel like [friendly] in which adding a device to the platform bus
    fails with [-EEXIST]. *)
Definition bus_rejects : kernel_env :=
  {| chip_of_gpio := chip_of_gpio friendly;
     kmalloc_ok := fun _ => true;
     pdev_alloc_ok := fun _ => true;
     add_data_rc := fun _ => 0;
     add_rc := fun _ => -17 |}.


(** A kernel like [friendly] whose allocator is exhausted. *)
Definition no_memory : kernel_env :=
  {| chip_of_gpio := chip_of_gpio friendly;
     kmalloc_ok := fun _ => false;
     pdev_alloc_ok := fun _ => true;
     add_data_rc := fun _ => 0;
     add_rc := fun _ => 0 |}.

Definition is_live_device (b : option block) : bool :=
  match b with Some (Device _) => true | _ => false end.

(** Device instances that are allocated and not released. *)
Definition live_devices (s : state) : nat :=
  length (List.filter is_live_device (heap s)).

(** [s'] has the installations of [s]: the same recorded devices and
    counter, the same platform bus, the same lookup list, as many live
    devices. *)
Definition same_installed (s s' : state) : Prop :=
  devices s' = devices s /\
  nr_devices s' = nr_devices s /\
  platform_bus s' = platform_bus s /\
  gpio_lookup_list s' = gpio_lookup_list s /\
  live_devices s' = live_devices s.

(** The four ways one call can end, started where the slot's table is not
    installed. *)
Inductive add_one_outcome (P : module_params) (id : nat) (params : list Z)
    (s : state)
  : result Z -> Prop :=
| Skipped :
    nth id (bus_nump P) 0 = 0 ->
    add_one_outcome P id params s (Done 0 s)
| Failed err s' :
    err <> 0 ->
    nth id (bus_nump P) 0 <> 0 ->
    same_installed s s' ->
    add_one_outcome P id params s (Done err s')
| Provisioned chip_sda chip_scl :
    BUS_PARAM_REQUIRED <= nth id (bus_nump P) 0 ->
    (nr_devices s < length (devices s))%nat ->
    add_one_outcome P id params s
      (Done 0 (registered params
                 (built BUS_NAME_MAX id params chip_sda chip_scl s)))
| Faulted f s' :
    f = NullDeref \/ f = OutOfBounds ->
    add_one_outcome P id params s (Oops f s').

(** What holds between two calls of [i2c_gpio_custom_add_one], before the
    call for slot [k]: the counter, the platform bus, the live devices and
    the lookup list agree in number; the first [nr_devices] entries of
    [devices] are the registered devices in the order of registration; no
    table of slot [k] or a later slot is installed. *)
Record pass_inv (k : nat) (s : state) : Prop := {
  inv_room : (nr_devices s <= k)%nat;
  inv_slots : length (devices s) = BUS_COUNT_MAX;
  inv_bus : length (platform_bus s) = nr_devices s;
  inv_live : live_devices s = nr_devices s;
  inv_tables : length (gpio_lookup_list s) = nr_devices s;
  inv_devices : take (nr_devices s) (devices s) = Some <$> platform_bus s;
  inv_fresh : forall t, (k <= t)%nat -> linked t (gpio_lookup_list s) = false
}.

(** What teardown never touches, and what it cannot undo: the driver's
    globals stay as they are, and a released block stays released. *)
Definition kept (s s' : state) : Prop :=
  devices s' = devices s /\
  nr_devices s' = nr_devices s /\
  gpiod_tables s' = gpiod_tables s /\
  forall p, heap s !! p = Some None -> heap s' !! p = Some None.

(** Bus 0 configured as 0,5,6 and nothing else (scenario A). *)
Definition one_bus : module_params := insmod [0; 5; 6] [] [] [].

(** Only bus 1 is configured: the device is recorded in [devices[0]], the
    installed table is [gpiod_tables[1]]. *)
Definition only_bus1 : module_params := insmod [] [1; 5; 6] [] [].

(** Bus 1 is configured, bus 2 has two fields only. *)
Definition bus1_then_short : module_params := insmod [] [1; 5; 6] [2; 3] [].

(** The parameter array [i2c_gpio_custom_probe] passes for slot [k]. *)
Definition slot_params (P : module_params) (k : nat) : list Z :=
  nth k [bus0 P; bus1 P; bus2 P; bus3 P] [].

(** Slot [k] is left out, or it is configured with the required fields,
    both its lines have a chip and the kernel refuses nothing for it. *)
Definition slot_good (K : kernel_env) (P : module_params) (k : nat) : Prop :=
  nth k (bus_nump P) 0 = 0 \/
  (BUS_PARAM_REQUIRED <= nth k (bus_nump P) 0 /\
   is_Some (chip_of_gpio K (param (slot_params P k) BUS_PARAM_SDA)) /\
   is_Some (chip_of_gpio K (param (slot_params P k) BUS_PARAM_SCL)) /\
   kmalloc_ok K k = true /\ pdev_alloc_ok K k = true /\
   add_data_rc K k = 0 /\ add_rc K k = 0).

Definition configured (P : module_params) (k : nat) : bool :=
  negb (nth k (bus_nump P) 0 =? 0).

(** The number of configured slots. *)
Definition configured_count (P : module_params) : nat :=
  length (List.filter (configured P) (seq 0 BUS_COUNT_MAX)).

(** * Vocabulary of the further properties *)

(** Reading a decimal number back: [atou s acc] continues the number [acc]
    with the digits of [s]; [atoi] accepts a sign in front. *)
Fixpoint atou (s : string) (acc : Z) : Z :=
  match s with
  | EmptyString => acc
  | String c s' => atou s' (acc * 10 + (Z.of_nat (nat_of_ascii c) - 48))
  end.

Definition atoi (s : string) : Z :=
  match s with
  | String c s' => if Ascii.eqb c "-" then - atou s' 0 else atou s 0
  | EmptyString => 0
  end.

(** [s] without its first [n] characters. *)
Fixpoint skip (n : nat) (s : string) : string :=
  match n, s with
  | S n', String _ s' => skip n' s'
  | _, _ => s
  end.

(** The number an identity string carries behind its tag ["i2c-gpio."]. *)
Definition dev_id_number (s : string) : Z := atoi (skip 9 s).

(** [s'] is [s] after a call for slot [id] that installed nothing: the
    driver's records of devices, the platform bus and the lookup list are
    those of [s]; whatever the call allocated (at most two blocks) has been
    released; no static table but the slot's own was written. *)
Definition left_nothing (id : nat) (s s' : state) : Prop :=
  devices s' = devices s /\
  nr_devices s' = nr_devices s /\
  platform_bus s' = platform_bus s /\
  gpio_lookup_list s' = gpio_lookup_list s /\
  (exists n, (n <= 2)%nat /\ heap s' = heap s ++ replicate n None) /\
  length (gpiod_tables s') = length (gpiod_tables s) /\
  (forall t, t <> id -> gpiod_tables s' !! t = gpiod_tables s !! t).

(** The error codes one call can return. *)
Definition add_one_error (K : kernel_env) (id : nat) (err : Z) : Prop :=
  err = - EINVAL \/ err = - ENOMEM \/
  err = add_data_rc K id \/ err = add_rc K id.

(** The ends of one call, in full: what each leaves behind. *)
Inductive add_one_end (K : kernel_env) (P : module_params) (id : nat)
    (params : list Z) (s : state) : result Z -> Prop :=
| EndSkipped :
    nth id (bus_nump P) 0 = 0 ->
    add_one_end K P id params s (Done 0 s)
| EndFailed err s' :
    err <> 0 ->
    nth id (bus_nump P) 0 <> 0 ->
    add_one_error K id err ->
    left_nothing id s s' ->
    add_one_end K P id params s (Done err s')
| EndProvisioned chip_sda chip_scl :
    BUS_PARAM_REQUIRED <= nth id (bus_nump P) 0 ->
    chip_of_gpio K (param params BUS_PARAM_SDA) = Some chip_sda ->
    chip_of_gpio K (param params BUS_PARAM_SCL) = Some chip_scl ->
    (nr_devices s < length (devices s))%nat ->
    add_one_end K P id params s
      (Done 0 (registered params
                 (built BUS_NAME_MAX id params chip_sda chip_scl s)))
| EndNoMemory s' :
    nth id (bus_nump P) 0 <> 0 ->
    kmalloc_ok K id = false ->
    add_one_end K P id params s (Oops NullDeref s')
| EndFull s' :
    (length (devices s) <= nr_devices s)%nat ->
    add_one_end K P id params s (Oops OutOfBounds s').

(** A kernel like [friendly] that cannot allocate a platform device. *)
Definition no_device_memory : kernel_env :=
  {| chip_of_gpio := chip_of_gpio friendly;
     kmalloc_ok := fun _ => true;
     pdev_alloc_ok := fun _ => false;
     add_data_rc := fun _ => 0;
     add_rc := fun _ => 0 |}.

(** The four calls of [i2c_gpio_custom_probe] as a loop over the slots [k],
    [k + 1], ... ([n] of them) that stops at the first error. *)
Fixpoint pass_from (K : kernel_env) (P : module_params) (k n : nat) : M Z :=
  match n with
  | O => ret 0
  | S n' =>
      err <- i2c_gpio_custom_add_one K P k (slot_params P k) ;;
      if negb (err =? 0) then ret err else pass_from K P (S k) n'
  end.

(** How the driver's resources hang together between two steps: the static
    tables are all there; no device and no table is listed twice; every
    device on the platform bus is a live device block; every installed table
    carries its own live identity string; and every live block is one of
    these (nothing else is allocated). *)
Record resources_ok (s : state) : Prop := {
  res_tables : length (gpiod_tables s) = BUS_COUNT_MAX;
  res_bus_nodup : NoDup (platform_bus s);
  res_list_nodup : NoDup (gpio_lookup_list s);
  res_device : forall p, p ∈ platform_bus s ->
    exists d, heap s !! p = Some (Some (Device d));
  res_name : forall t, linked t (gpio_lookup_list s) = true ->
    exists q c, dev_id <$> gpiod_tables s !! t = Some (Some q) /\
                heap s !! q = Some (Some (Bytes c));
  res_name_inj : forall t t' q,
    linked t (gpio_lookup_list s) = true ->
    linked t' (gpio_lookup_list s) = true ->
    dev_id <$> gpiod_tables s !! t = Some (Some q) ->
    dev_id <$> gpiod_tables s !! t' = Some (Some q) -> t = t';
  res_owned : forall p b, heap s !! p = Some (Some b) ->
    p ∈ platform_bus s \/
    exists t, linked t (gpio_lookup_list s) = true /\
              dev_id <$> gpiod_tables s !! t = Some (Some p)
}.

(** The installed tables are those of the configured slots below [k], in
    slot order. *)
Definition installed_exactly (P : module_params) (k : nat) (s : state) : Prop :=
  gpio_lookup_list s = List.filter (configured P) (seq 0 k).

(** No configured slot comes after a slot that was left out. *)
Definition prefix_config (P : module_params) : Prop :=
  forall i j, (i <= j)%nat -> (j < BUS_COUNT_MAX)%nat ->
    configured P j = true -> configured P i = true.

(** Nothing is left: no device on the platform bus, no table on the lookup
    list, no block allocated. *)
Definition nothing_left (s : state) : Prop :=
  platform_bus s = [] /\
  gpio_lookup_list s = [] /\
  forall p b, heap s !! p <> Some (Some b).

(** Removing several entries from a list. *)
Definition unlink_all (ts l : list nat) : list nat :=
  foldl (fun l t => unlink t l) l ts.

(** What the second loop of teardown relies on: the tables are all there,
    and every installed table carries its own live identity string. *)
Definition names_ok (s : state) : Prop :=
  length (gpiod_tables s) = BUS_COUNT_MAX /\
  (forall t, linked t (gpio_lookup_list s) = true ->
     exists q c, dev_id <$> gpiod_tables s !! t = Some (Some q) /\
                 heap s !! q = Some (Some (Bytes c))) /\
  (forall t t' q,
     linked t (gpio_lookup_list s) = true ->
     linked t' (gpio_lookup_list s) = true ->
     dev_id <$> gpiod_tables s !! t = Some (Some q) ->
     dev_id <$> gpiod_tables s !! t' = Some (Some q) -> t = t').


(** Slot [k] has the required fields, and both its lines have a chip. *)
Definition slot_usable (K : kernel_env) (P : module_params) (k : nat) : Prop :=
  BUS_PARAM_REQUIRED <= nth k (bus_nump P) 0 /\
  is_Some (chip_of_gpio K (param (slot_params P k) BUS_PARAM_SDA)) /\
  is_Some (chip_of_gpio K (param (slot_params P k) BUS_PARAM_SCL)).

(** Buses 0 and 1 configured, 2 and 3 left out. *)
Definition two_buses : module_params := insmod [0; 5; 6] [1; 7; 8] [] [].

(** A kernel like [friendly] in which adding the device of slot 1 to the
    platform bus fails with [-EEXIST]. *)
Definition rejects_bus1 : kernel_env :=
  {| chip_of_gpio := chip_of_gpio friendly;
     kmalloc_ok := fun _ => true;
     pdev_alloc_ok := fun _ => true;
     add_data_rc := fun _ => 0;
     add_rc := fun k => if (k =? 1)%nat then -17 else 0 |}.

(** The identity string of table [t], [NULL] where there is none. *)
Definition name_of (tabs : list gpiod_lookup_table) (t : nat) : option nat :=
  default None (dev_id <$> tabs !! t).

(** The kernel calls of the two loops of teardown: for the devices [ps], and
    for the tables [ts]. *)
Definition device_calls (ps : list nat) : list event :=
  flat_map (fun p => [PlatformDeviceDel p; PlatformDevicePut p]) ps.

Definition table_calls (tabs : list gpiod_lookup_table) (ts : list nat)
  : list event :=
  flat_map (fun t => [GpiodRemoveLookupTable t; Kfree (name_of tabs t)]) ts.

(** * Properties *)

Arguments to_uint : simpl never.
Arguments to_int : simpl never.
Arguments to_u16 : simpl never.
Arguments dev_id_text : simpl never.
Arguments strlen : simpl never.
Arguments truncate : simpl never.
Arguments linked : simpl never.
Arguments unlink : simpl never.
Arguments add_one_device : simpl never.
Arguments lbl_err_free : simpl never.
Arguments lbl_err_remove : simpl never.
Arguments lbl_err_put : simpl never.

(** The first steps of every run of a configured slot: the slot index is in
    range and at least [BUS_PARAM_REQUIRED] fields were supplied. *)
Ltac past_field_checks Hid :=
  unfold add_one_bounded;
  apply Nat.ltb_lt in Hid; rewrite Hid; simpl negb; cbv iota;
  unfold BUS_PARAM_REQUIRED in *;
  match goal with
  | |- context [nth ?id (bus_nump ?P) 0 =? 0] =>
      replace (nth id (bus_nump P) 0 =? 0) with false
        by (symmetry; apply Z.eqb_neq; lia);
      replace (nth id (bus_nump P) 0 <? 3) with false
        by (symmetry; apply Z.ltb_ge; lia)
  end.

(** Closed runs are settled by evaluation, conjunct by conjunct. *)
Ltac by_evaluation :=
  repeat match goal with |- _ /\ _ => split end;
  (vm_compute; first [reflexivity | discriminate | lia]).

(** ** The identity string always fits *)

Example dev_id_text_examples :
  dev_id_text 0 = "i2c-gpio.0" /\
  dev_id_text 7 = "i2c-gpio.7" /\
  dev_id_text 1234567890 = "i2c-gpio.1234567890" /\
  dev_id_text 2147483648 = "i2c-gpio.-2147483648" /\
  dev_id_text 4294967295 = "i2c-gpio.-1".
Proof. repeat split; vm_compute; reflexivity. Qed.

Lemma utoa_length fuel : forall n acc,
  (String.length (utoa fuel n acc) <= fuel + String.length acc)%nat.
Proof.
  induction fuel as [|fuel IH]; intros n acc; simpl; [lia|].
  destruct (n / 10 =? 0); simpl; [lia|].
  specialize (IH (n / 10) (String (digit (n mod 10)) acc)). simpl in IH. lia.
Qed.

Lemma itoa_length v : (String.length (itoa v) <= 11)%nat.
Proof.
  unfold itoa. destruct (v <? 0).
  - change (String.length (String "-" (utoa 10 (- v) "")))
      with (S (String.length (utoa 10 (- v) ""))).
    pose proof (utoa_length 10 (- v) "") as H.
    change (10 + String.length "")%nat with 10%nat in H. lia.
  - pose proof (utoa_length 10 v "") as H.
    change (10 + String.length "")%nat with 10%nat in H. lia.
Qed.

(** ["i2c-gpio."] and at most eleven characters of [%d]: the text is at most
    20 characters long, whatever the bus parameter. *)
Lemma dev_id_text_length v : strlen (dev_id_text v) <= 20.
Proof.
  unfold strlen, dev_id_text.
  change (String.length (String.append "i2c-gpio." (itoa (to_int v))))
    with (9 + String.length (itoa (to_int v)))%nat.
  pose proof (itoa_length (to_int v)). lia.
Qed.


(** The text is stored in full. *)
Lemma truncate_all n : forall s, (String.length s <= n)%nat -> truncate n s = s.
Proof.
  induction n as [|n IH]; intros [|c s] Hlen; try reflexivity.
  - cbn in Hlen. lia.
  - change (truncate (S n) (String c s)) with (String c (truncate n s)).
    rewrite IH; [reflexivity|]. cbn in Hlen. lia.
Qed.

Lemma dev_id_text_stored v :
  truncate (Z.to_nat BUS_NAME_MAX) (dev_id_text v) = dev_id_text v.
Proof.
  apply truncate_all. pose proof (dev_id_text_length v) as H.
  unfold strlen in H. unfold BUS_NAME_MAX. lia.
Qed.

(** ** Lists: the lookup list and the heap *)

Lemma linked_app t l1 l2 : linked t (l1 ++ l2) = linked t l1 || linked t l2.
Proof. unfold linked. apply existsb_app. Qed.

Lemma linked_self t l : linked t (l ++ [t]) = true.
Proof.
  rewrite linked_app. unfold linked at 2. simpl.
  rewrite Nat.eqb_refl. now rewrite orb_true_r.
Qed.

Lemma unlink_fresh t l : linked t l = false -> unlink t l = l.
Proof.
  unfold linked, unlink. induction l as [|x l IH]; simpl; [easy|].
  intros H. apply orb_false_elim in H as [Hx Hl]. rewrite Hx. simpl.
  now rewrite IH.
Qed.

Lemma unlink_app t l1 l2 : unlink t (l1 ++ l2) = unlink t l1 ++ unlink t l2.
Proof. unfold unlink. apply List.filter_app. Qed.

Lemma unlink_self t l : linked t l = false -> unlink t (l ++ [t]) = l.
Proof.
  intros H. rewrite unlink_app, unlink_fresh by exact H.
  unfold unlink. simpl. rewrite Nat.eqb_refl. simpl. apply app_nil_r.
Qed.

(** Two states with the same fields are the same state. *)
Lemma state_eq s s' :
  devices s = devices s' ->
  gpiod_tables s = gpiod_tables s' ->
  nr_devices s = nr_devices s' ->
  heap s = heap s' ->
  gpio_lookup_list s = gpio_lookup_list s' ->
  platform_bus s = platform_bus s' ->
  klog s = klog s' ->
  s = s'.
Proof. destruct s, s'. cbn. congruence. Qed.

Lemma heap_lookup_new (h : list (option block)) b :
  (h ++ [b]) !! length h = Some b.
Proof. now rewrite list_lookup_middle. Qed.

Lemma heap_insert_new (h : list (option block)) b b' :
  <[length h := b']> (h ++ [b]) = h ++ [b'].
Proof.
  rewrite insert_app_r_alt by lia. now rewrite Nat.sub_diag.
Qed.

(** ** One bus: the two halves of [i2c_gpio_custom_add_one] *)

Section AddOne.

Variable K : kernel_env.
Variable P : module_params.

Lemma add_one_build name_max id params chip_sda chip_scl s :
  (id < BUS_COUNT_MAX)%nat ->
  BUS_PARAM_REQUIRED <= nth id (bus_nump P) 0 ->
  chip_of_gpio K (param params BUS_PARAM_SDA) = Some chip_sda ->
  chip_of_gpio K (param params BUS_PARAM_SCL) = Some chip_scl ->
  kmalloc_ok K id = true ->
  0 <= name_max ->
  strlen (dev_id_text (param params BUS_PARAM_ID)) < name_max + 1 ->
  linked id (gpio_lookup_list s) = false ->
  add_one_bounded K P name_max id params s =
  add_one_device K id params id (Some (length (heap s)))
    (built name_max id params chip_sda chip_scl s).
Proof.
  intros Hid Hreq Hsda Hscl Hk Hnm Hlen Hfresh.
  past_field_checks Hid.
  unfold bind, gpio_to_chip, modify, ret. cbn. rewrite Hsda. cbn.
  rewrite Hscl. cbn. rewrite Hk. cbn.
  rewrite heap_lookup_new.
  replace (strlen (dev_id_text (param params BUS_PARAM_ID)) >=? name_max + 1)
    with false by (symmetry; rewrite Z.geb_leb; apply Z.leb_gt; lia).
  unfold gpiod_add_lookup_table. cbn. rewrite Hfresh.
  apply f_equal. apply state_eq; cbn; try reflexivity.
  - replace (name_max + 1 <=? 0) with false
      by (symmetry; apply Z.leb_gt; lia).
    now rewrite heap_insert_new, Z.add_simpl_r.
  - now rewrite <- !app_assoc.
Qed.

Lemma add_one_device_ok id params t dev s :
  pdev_alloc_ok K id = true ->
  add_data_rc K id = 0 ->
  add_rc K id = 0 ->
  (nr_devices s < length (devices s))%nat ->
  add_one_device K id params t dev s = Done 0 (registered params s).
Proof.
  intros Ha Hd Hr Hnr. unfold add_one_device, platform_device_alloc.
  rewrite Ha. unfold bind at 1 2 3. cbn.
  unfold bind at 1, platform_device_add_data. cbn. rewrite heap_lookup_new.
  rewrite Hd. cbn. unfold bind at 1, platform_device_add. cbn.
  rewrite heap_insert_new, heap_lookup_new, Hr. cbn.
  unfold bind, store_device. cbn -[Nat.ltb].
  apply Nat.ltb_lt in Hnr. rewrite Hnr. unfold ret.
  apply f_equal. apply state_eq; cbn; try reflexivity.
  now rewrite <- !app_assoc.
Qed.

Lemma lbl_err_put_run p t q err b d s :
  heap s !! p = Some (Some (Device d)) ->
  heap s !! q = Some (Some b) ->
  p <> q ->
  linked t (gpio_lookup_list s) = true ->
  lbl_err_put p t (Some q) err s =
  Done err
    {| devices := devices s;
       gpiod_tables := gpiod_tables s;
       nr_devices := nr_devices s;
       heap := <[q := None]> (<[p := None]> (heap s));
       gpio_lookup_list := unlink t (gpio_lookup_list s);
       platform_bus := platform_bus s;
       klog := klog s ++ [PlatformDevicePut p; GpiodRemoveLookupTable t;
                          Kfree (Some q)] |}.
Proof.
  intros Hp Hq Hpq Hl.
  unfold lbl_err_put, platform_device_put, bind at 1. rewrite Hp.
  unfold lbl_err_remove, gpiod_remove_lookup_table, bind at 1. cbn.
  rewrite Hl. unfold lbl_err_free, kfree, bind, lbl_err, ret. cbn.
  rewrite list_lookup_insert_ne by exact Hpq. rewrite Hq.
  apply f_equal. apply state_eq; cbn; try reflexivity.
  now rewrite <- !app_assoc.
Qed.

Lemma add_one_device_add_data_fails id params t q b s :
  pdev_alloc_ok K id = true ->
  add_data_rc K id <> 0 ->
  heap s !! q = Some (Some b) ->
  linked t (gpio_lookup_list s) = true ->
  add_one_device K id params t (Some q) s =
  Done (add_data_rc K id)
    (rolled_back params t q
       [PlatformDeviceAddData (length (heap s)) (add_data_rc K id);
        PlatformDevicePut (length (heap s));
        GpiodRemoveLookupTable t; Kfree (Some q)] s).
Proof.
  intros Ha Hd Hq Hl. unfold add_one_device, platform_device_alloc.
  rewrite Ha. unfold bind at 1 2 3. cbn.
  unfold bind at 1, platform_device_add_data. cbn. rewrite heap_lookup_new.
  apply Z.eqb_neq in Hd. rewrite Hd. cbn.
  pose proof (lookup_lt_Some _ _ _ Hq) as Hlt.
  erewrite lbl_err_put_run with (b := b); cbn.
  - apply f_equal. apply state_eq; cbn; try reflexivity.
    + rewrite heap_insert_new. now rewrite insert_app_l by exact Hlt.
    + now rewrite <- !app_assoc.
  - apply heap_lookup_new.
  - rewrite lookup_app_l by exact Hlt. exact Hq.
  - lia.
  - exact Hl.
Qed.

Lemma add_one_device_add_fails id params t q b s :
  pdev_alloc_ok K id = true ->
  add_data_rc K id = 0 ->
  add_rc K id <> 0 ->
  heap s !! q = Some (Some b) ->
  linked t (gpio_lookup_list s) = true ->
  add_one_device K id params t (Some q) s =
  Done (add_rc K id)
    (rolled_back params t q
       [PlatformDeviceAddData (length (heap s)) 0;
        PlatformDeviceAdd (length (heap s)) (add_rc K id);
        PlatformDevicePut (length (heap s));
        GpiodRemoveLookupTable t; Kfree (Some q)] s).
Proof.
  intros Ha Hd Hr Hq Hl. unfold add_one_device, platform_device_alloc.
  rewrite Ha. unfold bind at 1 2 3. cbn.
  unfold bind at 1, platform_device_add_data. cbn. rewrite heap_lookup_new.
  rewrite Hd. cbn. unfold bind at 1, platform_device_add. cbn.
  rewrite heap_insert_new, heap_lookup_new.
  apply Z.eqb_neq in Hr. rewrite Hr. cbn.
  pose proof (lookup_lt_Some _ _ _ Hq) as Hlt.
  erewrite lbl_err_put_run with (b := b); cbn.
  - apply f_equal. apply state_eq; cbn; try reflexivity.
    + rewrite heap_insert_new. now rewrite insert_app_l by exact Hlt.
    + now rewrite <- !app_assoc.
  - apply heap_lookup_new.
  - rewrite lookup_app_l by exact Hlt. exact Hq.
  - lia.
  - exact Hl.
Qed.

End AddOne.

(** ** Rollback inside one bus *)

(** C1.  When [i2c_gpio_custom_add_one] has installed the slot's lookup table
    and allocated the device, and then attaching the parameter block or
    adding the device to the platform bus fails, it returns that error after
    three releases in this order: the device ([platform_device_put]), the
    lookup table ([gpiod_remove_lookup_table]), the identity string
    ([kfree]) -- the reverse of the order in which they were acquired
    ([kmalloc], [gpiod_add_lookup_table], [platform_device_alloc]).
    Afterwards the table is not on the lookup list, the platform bus holds
    what it held before, both blocks allocated for the slot are released,
    and neither [devices] nor [nr_devices] has changed. *)
Theorem add_one_rollback_lifo K P id params chip_sda chip_scl s :
  (id < BUS_COUNT_MAX)%nat ->
  BUS_PARAM_REQUIRED <= nth id (bus_nump P) 0 ->
  chip_of_gpio K (param params BUS_PARAM_SDA) = Some chip_sda ->
  chip_of_gpio K (param params BUS_PARAM_SCL) = Some chip_scl ->
  kmalloc_ok K id = true ->
  pdev_alloc_ok K id = true ->
  linked id (gpio_lookup_list s) = false ->
  add_data_rc K id <> 0 \/ add_rc K id <> 0 ->
  let q := length (heap s) in
  let p := S (length (heap s)) in
  let err := if add_data_rc K id =? 0 then add_rc K id else add_data_rc K id in
  let attempts :=
    if add_data_rc K id =? 0
    then [PlatformDeviceAddData p 0; PlatformDeviceAdd p (add_rc K id)]
    else [PlatformDeviceAddData p (add_data_rc K id)] in
  exists s',
    i2c_gpio_custom_add_one K P id params s = Done err s' /\
    err <> 0 /\
    klog s' = klog s ++
      [GpioToChip (param params BUS_PARAM_SDA);
       GpioToChip (param params BUS_PARAM_SCL);
       Kmalloc (BUS_NAME_MAX + 1) (Some q);
       Snprintf q (BUS_NAME_MAX + 1) (dev_id_text (param params BUS_PARAM_ID));
       GpiodAddLookupTable id;
       PlatformDeviceAlloc "i2c-gpio" (to_int (param params BUS_PARAM_ID))
         (Some p)] ++
      attempts ++
      [PlatformDevicePut p; GpiodRemoveLookupTable id; Kfree (Some q)] /\
    gpio_lookup_list s' = gpio_lookup_list s /\
    linked id (gpio_lookup_list s') = false /\
    platform_bus s' = platform_bus s /\
    heap s' = heap s ++ [None; None] /\
    devices s' = devices s /\
    nr_devices s' = nr_devices s.
Proof.
  intros Hid Hreq Hsda Hscl Hk Ha Hfresh Hfail q p err attempts.
  subst q p err attempts.
  unfold i2c_gpio_custom_add_one.
  rewrite (add_one_build K P BUS_NAME_MAX id params chip_sda chip_scl s)
    by (try assumption; try (unfold BUS_NAME_MAX; lia);
        pose proof (dev_id_text_length (param params BUS_PARAM_ID));
        unfold BUS_NAME_MAX; lia).
  remember (built BUS_NAME_MAX id params chip_sda chip_scl s) as s1 eqn:Es1.
  assert (Hq : heap s1 !! length (heap s) =
               Some (Some (Bytes (Some (truncate (Z.to_nat BUS_NAME_MAX)
                        (dev_id_text (param params BUS_PARAM_ID))))))).
  { subst s1. cbn. apply heap_lookup_new. }
  assert (Hl : linked id (gpio_lookup_list s1) = true).
  { subst s1. cbn. apply linked_self. }
  assert (Hlen : length (heap s1) = S (length (heap s))).
  { subst s1. cbn. rewrite length_app. cbn. lia. }
  assert (Hheap : <[length (heap s) := None]> (heap s1) ++ [None] =
                  heap s ++ [None; None]).
  { subst s1. cbn. rewrite heap_insert_new. now rewrite <- app_assoc. }
  assert (Hun : unlink id (gpio_lookup_list s1) = gpio_lookup_list s).
  { subst s1. cbn. now apply unlink_self. }
  assert (Hlog : klog s1 = klog s ++
       [GpioToChip (param params BUS_PARAM_SDA);
        GpioToChip (param params BUS_PARAM_SCL);
        Kmalloc (BUS_NAME_MAX + 1) (Some (length (heap s)));
        Snprintf (length (heap s)) (BUS_NAME_MAX + 1)
          (dev_id_text (param params BUS_PARAM_ID));
        GpiodAddLookupTable id]).
  { subst s1. reflexivity. }
  assert (Hsame : devices s1 = devices s /\ nr_devices s1 = nr_devices s /\
                  platform_bus s1 = platform_bus s).
  { subst s1. now repeat split. }
  destruct Hsame as (Hdev & Hnr & Hbus).
  clear Es1.
  destruct (Z.eqb_spec (add_data_rc K id) 0) as [Hd|Hd].
  - assert (Hr : add_rc K id <> 0) by (destruct Hfail; congruence).
    eexists. split.
    { eapply add_one_device_add_fails; eassumption. }
    cbn. rewrite Hlen, Hheap, Hun, Hlog, Hdev, Hnr, Hbus.
    repeat split; try assumption; try reflexivity.
    now rewrite <- app_assoc.
  - eexists. split.
    { eapply add_one_device_add_data_fails; eassumption. }
    cbn. rewrite Hlen, Hheap, Hun, Hlog, Hdev, Hnr, Hbus.
    repeat split; try assumption; try reflexivity.
    now rewrite <- app_assoc.
Qed.

Lemma add_one_rollback_lifo_witness :
  exists s',
    i2c_gpio_custom_add_one bus_rejects (insmod [0; 5; 6] [] [] []) 0
      (bus0 (insmod [0; 5; 6] [] [] [])) init_state = Done (-17) s' /\
    -17 <> 0 /\
    klog s' =
      [GpioToChip 5; GpioToChip 6; Kmalloc 33 (Some 0%nat);
       Snprintf 0%nat 33 "i2c-gpio.0"; GpiodAddLookupTable 0;
       PlatformDeviceAlloc "i2c-gpio" 0 (Some 1%nat);
       PlatformDeviceAddData 1%nat 0; PlatformDeviceAdd 1%nat (-17);
       PlatformDevicePut 1%nat; GpiodRemoveLookupTable 0;
       Kfree (Some 0%nat)] /\
    gpio_lookup_list s' = [] /\
    linked 0 (gpio_lookup_list s') = false /\
    platform_bus s' = [] /\
    heap s' = [None; None] /\
    devices s' = [None; None; None; None] /\
    nr_devices s' = 0%nat.
Proof.
  exact (add_one_rollback_lifo bus_rejects (insmod [0; 5; 6] [] [] []) 0%nat
           (bus0 (insmod [0; 5; 6] [] [] []))
           {| label := "gpio0"; base := 0 |} {| label := "gpio0"; base := 0 |}
           init_state
           ltac:(vm_compute; lia) ltac:(vm_compute; discriminate)
           eq_refl eq_refl eq_refl eq_refl eq_refl
           ltac:(right; vm_compute; discriminate)).
Defined.

(** ** Field counts *)

Lemma add_one_skipped K P name_max id params s :
  (id < BUS_COUNT_MAX)%nat ->
  nth id (bus_nump P) 0 = 0 ->
  add_one_bounded K P name_max id params s = Done 0 s.
Proof.
  intros Hid H0. unfold add_one_bounded.
  apply Nat.ltb_lt in Hid. rewrite Hid, H0. reflexivity.
Qed.

Lemma add_one_too_few K P name_max id params s :
  (id < BUS_COUNT_MAX)%nat ->
  nth id (bus_nump P) 0 <> 0 ->
  nth id (bus_nump P) 0 < BUS_PARAM_REQUIRED ->
  add_one_bounded K P name_max id params s =
  Done (- EINVAL) (emit (Printk (MsgNotEnoughParameters id)) s).
Proof.
  intros Hid Hlo Hhi. unfold add_one_bounded.
  apply Nat.ltb_lt in Hid. rewrite Hid. simpl negb. cbv iota.
  replace (nth id (bus_nump P) 0 =? 0) with false
    by (symmetry; apply Z.eqb_neq; lia).
  replace (nth id (bus_nump P) 0 <? BUS_PARAM_REQUIRED) with true
    by (symmetry; apply Z.ltb_lt; lia).
  reflexivity.
Qed.

(** The whole of a successful [i2c_gpio_custom_add_one]. *)
Lemma add_one_ok K P id params chip_sda chip_scl s :
  (id < BUS_COUNT_MAX)%nat ->
  BUS_PARAM_REQUIRED <= nth id (bus_nump P) 0 ->
  chip_of_gpio K (param params BUS_PARAM_SDA) = Some chip_sda ->
  chip_of_gpio K (param params BUS_PARAM_SCL) = Some chip_scl ->
  kmalloc_ok K id = true ->
  pdev_alloc_ok K id = true ->
  add_data_rc K id = 0 ->
  add_rc K id = 0 ->
  linked id (gpio_lookup_list s) = false ->
  (nr_devices s < length (devices s))%nat ->
  i2c_gpio_custom_add_one K P id params s =
  Done 0 (registered params (built BUS_NAME_MAX id params chip_sda chip_scl s)).
Proof.
  intros Hid Hreq Hsda Hscl Hk Ha Hd Hr Hfresh Hnr.
  unfold i2c_gpio_custom_add_one.
  rewrite (add_one_build K P BUS_NAME_MAX id params chip_sda chip_scl s)
    by (try assumption; try (unfold BUS_NAME_MAX; lia);
        pose proof (dev_id_text_length (param params BUS_PARAM_ID));
        unfold BUS_NAME_MAX; lia).
  now apply add_one_device_ok.
Qed.

(** C5.  For bus [id]: with no field supplied the slot is skipped, 0 is
    returned and the state is untouched; with one or two fields supplied
    [-EINVAL] is returned and the only call made is the [printk] of "not
    enough parameters", so no GPIO is resolved; with exactly three fields
    supplied (id, SDA, SCL), both lines owned by a chip and the kernel
    refusing nothing, 0 is returned and the registered device carries a
    parameter block with [udelay] and [timeout] zero and the three flags
    false. *)
Theorem add_one_by_field_count K P id supplied s :
  (id < BUS_COUNT_MAX)%nat ->
  nth id (bus_nump P) 0 = snd (module_param_array supplied) ->
  let params := fst (module_param_array supplied) in
  (length supplied = 0%nat ->
   i2c_gpio_custom_add_one K P id params s = Done 0 s) /\
  (length supplied = 1%nat \/ length supplied = 2%nat ->
   exists s',
     i2c_gpio_custom_add_one K P id params s = Done (- EINVAL) s' /\
     klog s' = klog s ++ [Printk (MsgNotEnoughParameters id)] /\
     heap s' = heap s /\
     gpio_lookup_list s' = gpio_lookup_list s /\
     platform_bus s' = platform_bus s /\
     gpiod_tables s' = gpiod_tables s /\
     devices s' = devices s /\ nr_devices s' = nr_devices s) /\
  (length supplied = 3%nat ->
   is_Some (chip_of_gpio K (param params BUS_PARAM_SDA)) ->
   is_Some (chip_of_gpio K (param params BUS_PARAM_SCL)) ->
   kmalloc_ok K id = true -> pdev_alloc_ok K id = true ->
   add_data_rc K id = 0 -> add_rc K id = 0 ->
   linked id (gpio_lookup_list s) = false ->
   (nr_devices s < length (devices s))%nat ->
   exists s',
     i2c_gpio_custom_add_one K P id params s = Done 0 s' /\
     let p := S (length (heap s)) in
     heap s' !! p =
       Some (Some (Device
         {| pdev_name := "i2c-gpio";
            pdev_id := to_int (param params BUS_PARAM_ID);
            platform_data :=
              Some {| udelay := 0; timeout := 0;
                      sda_is_open_drain := false;
                      scl_is_open_drain := false;
                      scl_is_output_only := false |} |})) /\
     platform_bus s' = platform_bus s ++ [p] /\
     gpio_lookup_list s' = gpio_lookup_list s ++ [id] /\
     devices s' !! nr_devices s = Some (Some p) /\
     nr_devices s' = S (nr_devices s)).
Proof.
  intros Hid Hn params. cbn in Hn. split; [|split].
  - intros Hlen. apply add_one_skipped; [exact Hid|]. rewrite Hn, Hlen.
    reflexivity.
  - intros Hlen. unfold i2c_gpio_custom_add_one.
    rewrite add_one_too_few;
      [|exact Hid|rewrite Hn; lia|rewrite Hn; unfold BUS_PARAM_REQUIRED; lia].
    eexists. split; [reflexivity|]. cbn. repeat split; reflexivity.
  - intros Hlen [c1 Hc1] [c2 Hc2] Hk Ha Hd Hr Hfresh Hnr.
    eexists. split.
    { apply add_one_ok with (chip_sda := c1) (chip_scl := c2);
        try assumption. rewrite Hn, Hlen. unfold BUS_PARAM_REQUIRED. lia. }
    destruct supplied as [|a [|b [|c [|? ?]]]]; try discriminate Hlen.
    assert (Hp : forall x : option block,
               length (heap s ++ [x]) = S (length (heap s))).
    { intros x. rewrite length_app. cbn. lia. }
    cbn -[to_int]. rewrite Hp. repeat split.
    + rewrite list_lookup_middle by (symmetry; apply Hp). reflexivity.
    + apply list_lookup_insert_eq. exact Hnr.
Qed.

Lemma add_one_by_field_count_witness :
  i2c_gpio_custom_add_one friendly (insmod [] [] [] []) 0
    (fst (module_param_array [])) init_state = Done 0 init_state /\
  (exists s',
     i2c_gpio_custom_add_one friendly (insmod [2; 3] [] [] []) 0
       (fst (module_param_array [2; 3])) init_state = Done (- EINVAL) s' /\
     klog s' = [Printk (MsgNotEnoughParameters 0)]) /\
  (exists s',
     i2c_gpio_custom_add_one friendly (insmod [0; 5; 6] [] [] []) 0
       (fst (module_param_array [0; 5; 6])) init_state = Done 0 s' /\
     heap s' !! 1%nat =
       Some (Some (Device
         {| pdev_name := "i2c-gpio"; pdev_id := 0;
            platform_data :=
              Some {| udelay := 0; timeout := 0;
                      sda_is_open_drain := false;
                      scl_is_open_drain := false;
                      scl_is_output_only := false |} |})) /\
     platform_bus s' = [1%nat] /\ gpio_lookup_list s' = [0%nat]).
Proof.
  split; [|split].
  - exact (proj1 (add_one_by_field_count friendly (insmod [] [] [] []) 0%nat
                    [] init_state ltac:(vm_compute; lia) eq_refl) eq_refl).
  - destruct (proj1 (proj2 (add_one_by_field_count friendly
                              (insmod [2; 3] [] [] []) 0%nat [2; 3] init_state
                              ltac:(vm_compute; lia) eq_refl))
                (or_intror eq_refl)) as (s' & Hrun & Hlog & _).
    exists s'. split; [exact Hrun | exact Hlog].
  - destruct (proj2 (proj2 (add_one_by_field_count friendly
                              (insmod [0; 5; 6] [] [] []) 0%nat [0; 5; 6]
                              init_state ltac:(vm_compute; lia) eq_refl))
                eq_refl
                ltac:(eexists; reflexivity) ltac:(eexists; reflexivity)
                eq_refl eq_refl eq_refl eq_refl eq_refl
                ltac:(vm_compute; lia))
      as (s' & Hrun & Hdev & Hbus & Hlook & _).
    exists s'. repeat split; assumption.
Defined.

(** ** Lines that no chip owns *)

Lemma add_one_no_sda K P name_max id params s :
  (id < BUS_COUNT_MAX)%nat ->
  BUS_PARAM_REQUIRED <= nth id (bus_nump P) 0 ->
  chip_of_gpio K (param params BUS_PARAM_SDA) = None ->
  add_one_bounded K P name_max id params s =
  Done (- EINVAL)
    (emit (Printk (MsgNonexistentGpio (param params BUS_PARAM_SDA) id SDA))
       (emit (GpioToChip (param params BUS_PARAM_SDA)) s)).
Proof.
  intros Hid Hreq Hsda. past_field_checks Hid.
  unfold bind at 1, gpio_to_chip. cbn. rewrite Hsda. reflexivity.
Qed.

Lemma add_one_no_scl K P name_max id params chip_sda s :
  (id < BUS_COUNT_MAX)%nat ->
  BUS_PARAM_REQUIRED <= nth id (bus_nump P) 0 ->
  chip_of_gpio K (param params BUS_PARAM_SDA) = Some chip_sda ->
  chip_of_gpio K (param params BUS_PARAM_SCL) = None ->
  add_one_bounded K P name_max id params s =
  Done (- EINVAL)
    (emit (Printk (MsgNonexistentGpio (param params BUS_PARAM_SCL) id SCL))
       (emit (GpioToChip (param params BUS_PARAM_SCL))
          (set_gpiod_tables
             (alter (with_lookup 0 (label chip_sda)
                       (to_uint (param params BUS_PARAM_SDA - base chip_sda)))
                id (gpiod_tables s))
             (emit (GpioToChip (param params BUS_PARAM_SDA)) s)))).
Proof.
  intros Hid Hreq Hsda Hscl. past_field_checks Hid.
  unfold bind at 1, gpio_to_chip. cbn. rewrite Hsda.
  unfold bind at 1 2. cbn. rewrite Hscl. reflexivity.
Qed.





(** ** The identity string: allocation and length *)

(** Whatever the slot, when both lines resolve and [kmalloc] returns [NULL],
    the [NULL] pointer is handed to [snprintf]: no error is returned. *)
Lemma add_one_kmalloc_null K P name_max id params chip_sda chip_scl s :
  (id < BUS_COUNT_MAX)%nat ->
  BUS_PARAM_REQUIRED <= nth id (bus_nump P) 0 ->
  chip_of_gpio K (param params BUS_PARAM_SDA) = Some chip_sda ->
  chip_of_gpio K (param params BUS_PARAM_SCL) = Some chip_scl ->
  kmalloc_ok K id = false ->
  exists s',
    add_one_bounded K P name_max id params s = Oops NullDeref s' /\
    klog s' = klog s ++ [GpioToChip (param params BUS_PARAM_SDA);
                         GpioToChip (param params BUS_PARAM_SCL);
                         Kmalloc (name_max + 1) None].
Proof.
  intros Hid Hreq Hsda Hscl Hk. past_field_checks Hid.
  unfold bind, gpio_to_chip, modify, ret. cbn. rewrite Hsda. cbn.
  rewrite Hscl. cbn. rewrite Hk. cbn.
  eexists. split; [reflexivity|]. cbn. now rewrite <- !app_assoc.
Qed.

(** C7 fails on the code: bus 0 configured as 0,5,6 while [kmalloc] returns
    [NULL].  [i2c_gpio_custom_add_one] does not return [-ENOMEM]; it passes
    the [NULL] pointer to [snprintf], which writes through it. *)
Theorem add_one_ignores_kmalloc_failure :
  exists s',
    i2c_gpio_custom_add_one no_memory (insmod [0; 5; 6] [] [] []) 0
      (bus0 (insmod [0; 5; 6] [] [] [])) init_state = Oops NullDeref s' /\
    klog s' = [GpioToChip 5; GpioToChip 6; Kmalloc 33 None].
Proof. eexists. by_evaluation. Qed.

(** The length check of the identity string, for any bound [name_max] in
    the place of [BUS_NAME_MAX]: when the buffer has been allocated and the
    formatted text is longer than [name_max] characters, [-EINVAL] is
    returned after the [printk] of "bus id too large" and the [kfree] of the
    buffer, the table has not been given the string and is not installed.
    With the driver's bound the text never is that long
    ([dev_id_text_fits]), so [i2c_gpio_custom_add_one] never runs this
    path. *)
Lemma add_one_bounded_too_large K P name_max id params chip_sda chip_scl s :
  (id < BUS_COUNT_MAX)%nat ->
  BUS_PARAM_REQUIRED <= nth id (bus_nump P) 0 ->
  chip_of_gpio K (param params BUS_PARAM_SDA) = Some chip_sda ->
  chip_of_gpio K (param params BUS_PARAM_SCL) = Some chip_scl ->
  kmalloc_ok K id = true ->
  name_max < strlen (dev_id_text (param params BUS_PARAM_ID)) ->
  let q := length (heap s) in
  exists s',
    add_one_bounded K P name_max id params s = Done (- EINVAL) s' /\
    klog s' = klog s ++
      [GpioToChip (param params BUS_PARAM_SDA);
       GpioToChip (param params BUS_PARAM_SCL);
       Kmalloc (name_max + 1) (Some q);
       Snprintf q (name_max + 1) (dev_id_text (param params BUS_PARAM_ID));
       Printk (MsgBusIdTooLarge id);
       Kfree (Some q)] /\
    heap s' = heap s ++ [None] /\
    gpio_lookup_list s' = gpio_lookup_list s /\
    platform_bus s' = platform_bus s /\
    devices s' = devices s /\
    nr_devices s' = nr_devices s /\
    dev_id <$> gpiod_tables s' !! id = dev_id <$> gpiod_tables s !! id.
Proof.
  intros Hid Hreq Hsda Hscl Hk Hlen q. past_field_checks Hid.
  unfold bind, gpio_to_chip, modify, ret. cbn. rewrite Hsda. cbn.
  rewrite Hscl. cbn. rewrite Hk. cbn.
  rewrite heap_lookup_new.
  replace (strlen (dev_id_text (param params BUS_PARAM_ID)) >=? name_max + 1)
    with true by (symmetry; rewrite Z.geb_leb; apply Z.leb_le; lia).
  unfold lbl_err_free, kfree, bind, printk, modify, lbl_err, ret. cbn.
  rewrite heap_insert_new, heap_lookup_new.
  eexists. split; [reflexivity|]. cbn. rewrite heap_insert_new.
  repeat split; try reflexivity.
  - now rewrite <- !app_assoc.
  - rewrite !list_lookup_alter_eq. now destruct (gpiod_tables s !! id).
Qed.



(** ** Every way [i2c_gpio_custom_add_one] can end *)

Lemma live_devices_app s l :
  live_devices (set_heap (heap s ++ l) s) =
  (live_devices s + length (List.filter is_live_device l))%nat.
Proof. unfold live_devices. cbn. now rewrite List.filter_app, length_app. Qed.

Section Outcomes.

Variable K : kernel_env.
Variable P : module_params.

Lemma add_one_device_alloc_fails id params t q b s :
  pdev_alloc_ok K id = false ->
  heap s !! q = Some (Some b) ->
  linked t (gpio_lookup_list s) = true ->
  add_one_device K id params t (Some q) s =
  Done (- ENOMEM)
    {| devices := devices s;
       gpiod_tables := gpiod_tables s;
       nr_devices := nr_devices s;
       heap := <[q := None]> (heap s);
       gpio_lookup_list := unlink t (gpio_lookup_list s);
       platform_bus := platform_bus s;
       klog := klog s ++
         [PlatformDeviceAlloc "i2c-gpio" (to_int (param params BUS_PARAM_ID))
            None;
          GpiodRemoveLookupTable t; Kfree (Some q)] |}.
Proof.
  intros Ha Hq Hl. unfold add_one_device, platform_device_alloc.
  rewrite Ha. unfold bind at 1 2. cbn.
  unfold lbl_err_remove, gpiod_remove_lookup_table, bind at 1. cbn.
  rewrite Hl. unfold lbl_err_free, kfree, bind, lbl_err, ret. cbn.
  rewrite Hq. f_equal. unfold emit, set_heap, set_gpio_lookup_list. cbn.
  f_equal. now rewrite <- !app_assoc.
Qed.

Lemma add_one_device_full id params t dev s :
  pdev_alloc_ok K id = true ->
  add_data_rc K id = 0 ->
  add_rc K id = 0 ->
  (length (devices s) <= nr_devices s)%nat ->
  exists s', add_one_device K id params t dev s = Oops OutOfBounds s'.
Proof.
  intros Ha Hd Hr Hnr. unfold add_one_device, platform_device_alloc.
  rewrite Ha. unfold bind at 1 2 3. cbn.
  unfold bind at 1, platform_device_add_data. cbn. rewrite heap_lookup_new.
  rewrite Hd. cbn. unfold bind at 1, platform_device_add. cbn.
  rewrite heap_insert_new, heap_lookup_new, Hr. cbn.
  unfold bind, store_device. cbn -[Nat.ltb].
  apply Nat.ltb_ge in Hnr. rewrite Hnr. eexists. reflexivity.
Qed.

Lemma same_installed_refl s : same_installed s s.
Proof. now repeat split. Qed.

Lemma rolled_back_same name_max id params chip_sda chip_scl tail s :
  linked id (gpio_lookup_list s) = false ->
  same_installed s
    (rolled_back params id (length (heap s)) tail
       (built name_max id params chip_sda chip_scl s)).
Proof.
  intros Hfresh. unfold same_installed, live_devices. cbn.
  rewrite heap_insert_new, unlink_self by exact Hfresh.
  repeat split. rewrite <- app_assoc, List.filter_app. cbn.
  now rewrite app_nil_r.
Qed.

Lemma add_one_outcomes id params s :
  (id < BUS_COUNT_MAX)%nat ->
  linked id (gpio_lookup_list s) = false ->
  add_one_outcome P id params s (i2c_gpio_custom_add_one K P id params s).
Proof.
  intros Hid Hfresh. unfold i2c_gpio_custom_add_one.
  destruct (Z.eq_dec (nth id (bus_nump P) 0) 0) as [H0|H0].
  { rewrite add_one_skipped by assumption. now constructor. }
  destruct (Z_lt_le_dec (nth id (bus_nump P) 0) BUS_PARAM_REQUIRED)
    as [Hlt|Hreq].
  { rewrite add_one_too_few by assumption.
    apply Failed; [unfold EINVAL; lia|assumption|now repeat split]. }
  destruct (chip_of_gpio K (param params BUS_PARAM_SDA)) as [c1|] eqn:Hsda.
  2:{ rewrite add_one_no_sda by assumption.
      apply Failed; [unfold EINVAL; lia|assumption|now repeat split]. }
  destruct (chip_of_gpio K (param params BUS_PARAM_SCL)) as [c2|] eqn:Hscl.
  2:{ rewrite (add_one_no_scl K P BUS_NAME_MAX id params c1 s) by assumption.
      apply Failed; [unfold EINVAL; lia|assumption|now repeat split]. }
  destruct (kmalloc_ok K id) eqn:Hk.
  2:{ destruct (add_one_kmalloc_null K P BUS_NAME_MAX id params c1 c2 s
                  Hid Hreq Hsda Hscl Hk) as (s' & Hrun & _).
      rewrite Hrun. apply Faulted. now left. }
  rewrite (add_one_build K P BUS_NAME_MAX id params c1 c2 s)
    by (try assumption; try (unfold BUS_NAME_MAX; lia);
        pose proof (dev_id_text_length (param params BUS_PARAM_ID));
        unfold BUS_NAME_MAX; lia).
  remember (built BUS_NAME_MAX id params c1 c2 s) as s1 eqn:Es1.
  assert (Hq : heap s1 !! length (heap s) =
               Some (Some (Bytes (Some (truncate (Z.to_nat BUS_NAME_MAX)
                        (dev_id_text (param params BUS_PARAM_ID))))))).
  { subst s1. cbn. apply heap_lookup_new. }
  assert (Hl : linked id (gpio_lookup_list s1) = true).
  { subst s1. cbn. apply linked_self. }
  destruct (pdev_alloc_ok K id) eqn:Ha.
  2:{ erewrite add_one_device_alloc_fails by eassumption.
      apply Failed; [unfold ENOMEM; lia|assumption|].
      subst s1. unfold same_installed, live_devices. cbn.
      rewrite heap_insert_new, unlink_self by exact Hfresh.
      repeat split. rewrite List.filter_app. cbn. now rewrite app_nil_r. }
  destruct (Z.eq_dec (add_data_rc K id) 0) as [Hd|Hd].
  2:{ erewrite add_one_device_add_data_fails by eassumption.
      apply Failed; [assumption|assumption|].
      subst s1. now apply rolled_back_same. }
  destruct (Z.eq_dec (add_rc K id) 0) as [Hr|Hr].
  2:{ erewrite add_one_device_add_fails by eassumption.
      apply Failed; [assumption|assumption|].
      subst s1. now apply rolled_back_same. }
  destruct (Nat.lt_ge_cases (nr_devices s) (length (devices s))) as [Hnr|Hnr].
  - subst s1. rewrite add_one_device_ok by assumption.
    now apply Provisioned.
  - subst s1.
    destruct (add_one_device_full id params id (Some (length (heap s)))
                (built BUS_NAME_MAX id params c1 c2 s))
      as (s' & Hrun); try assumption.
    rewrite Hrun. apply Faulted. now right.
Qed.

End Outcomes.

(** ** The invariant of the provisioning pass *)

Lemma pass_inv_init : pass_inv 0 init_state.
Proof. split; reflexivity. Qed.

Lemma pass_inv_log k e s : pass_inv k s -> pass_inv k (emit e s).
Proof. intros [? ? ? ? ? ? ?]. split; assumption. Qed.

Lemma pass_inv_next k s s' :
  pass_inv k s -> same_installed s s' -> pass_inv (S k) s'.
Proof.
  intros [Hroom Hslots Hbus Hlive Htab Hdev Hfresh] (Hd & Hn & Hb & Hl & Hv).
  split; rewrite ?Hd, ?Hn, ?Hb, ?Hl, ?Hv; try assumption.
  - lia.
  - intros t Ht. apply Hfresh. lia.
Qed.

Lemma pass_inv_provisioned k params chip_sda chip_scl s :
  pass_inv k s ->
  (nr_devices s < length (devices s))%nat ->
  pass_inv (S k)
    (registered params (built BUS_NAME_MAX k params chip_sda chip_scl s)).
Proof.
  intros [Hroom Hslots Hbus Hlive Htab Hdev Hfresh] Hnr.
  split; cbn.
  - lia.
  - now rewrite length_insert.
  - rewrite length_app. cbn. lia.
  - unfold live_devices. cbn. rewrite !List.filter_app, !length_app. cbn.
    unfold live_devices in Hlive. lia.
  - rewrite length_app. cbn. lia.
  - rewrite (take_S_r _ _ (Some (length (heap s ++
        [Some (Bytes (Some (truncate (Z.to_nat BUS_NAME_MAX)
           (dev_id_text (param params BUS_PARAM_ID)))))])))).
    + rewrite take_insert_ge by lia. rewrite Hdev. now rewrite fmap_app.
    + now apply list_lookup_insert_eq.
  - intros t Ht. rewrite linked_app, Hfresh by lia.
    unfold linked. cbn. destruct (Nat.eqb_spec t k); [lia|reflexivity].
Qed.

(** ** Teardown *)

Lemma bind_done {A B} (m : M A) (k : A -> M B) s b s' :
  bind m k s = Done b s' ->
  exists a s1, m s = Done a s1 /\ k a s1 = Done b s'.
Proof.
  unfold bind. destruct (m s) as [a s1|f s1]; [|discriminate].
  intros H. now exists a, s1.
Qed.

Lemma kept_refl s : kept s s.
Proof. now repeat split. Qed.

Lemma kept_trans s1 s2 s3 : kept s1 s2 -> kept s2 s3 -> kept s1 s3.
Proof.
  intros (Hd & Hn & Ht & Hh) (Hd' & Hn' & Ht' & Hh').
  repeat split; try congruence. intros p Hp. now apply Hh', Hh.
Qed.

Lemma released_insert (h : list (option block)) a p :
  h !! p = Some None -> <[a := None]> h !! p = Some None.
Proof.
  intros Hp. destruct (Nat.eq_dec a p) as [->|Hne].
  - apply list_lookup_insert_eq. now apply lookup_lt_Some in Hp.
  - now rewrite list_lookup_insert_ne.
Qed.

Lemma platform_device_del_kept p s s' :
  platform_device_del p s = Done tt s' -> kept s s'.
Proof.
  unfold platform_device_del.
  destruct (heap s !! p) as [[[?|?]|]|]; try discriminate.
  intros [= <-]. now repeat split.
Qed.

Lemma platform_device_put_kept p s s' :
  platform_device_put p s = Done tt s' -> kept s s'.
Proof.
  unfold platform_device_put.
  destruct (heap s !! p) as [[[?|?]|]|]; try discriminate.
  intros [= <-]. repeat split. cbn. intros. now apply released_insert.
Qed.

Lemma gpiod_remove_lookup_table_kept t s s' :
  gpiod_remove_lookup_table t s = Done tt s' -> kept s s'.
Proof.
  unfold gpiod_remove_lookup_table.
  destruct (linked t (gpio_lookup_list s)); [|discriminate].
  intros [= <-]. now repeat split.
Qed.

Lemma kfree_kept p s s' : kfree p s = Done tt s' -> kept s s'.
Proof.
  destruct p as [a|]; cbn.
  - destruct (heap s !! a) as [[?|]|]; try discriminate.
    intros [= <-]. repeat split. cbn. intros. now apply released_insert.
  - intros [= <-]. now repeat split.
Qed.

Lemma for_loop_kept body :
  (forall i s s', body i s = Done tt s' -> kept s s') ->
  forall n from s s', for_loop from n body s = Done tt s' -> kept s s'.
Proof.
  intros Hbody. induction n as [|n IH]; intros from s s' Hrun; cbn in Hrun.
  - injection Hrun as <-. apply kept_refl.
  - apply bind_done in Hrun as ([] & s1 & H1 & H2).
    eapply kept_trans; [eapply Hbody|eapply IH]; eassumption.
Qed.

Lemma cleanup_unfold s :
  i2c_gpio_custom_cleanup s =
  (for_loop 0 (nr_devices s) cleanup_device ;;;
   for_loop 0 (nr_devices s) cleanup_table) s.
Proof. reflexivity. Qed.

Lemma cleanup_device_kept i s s' :
  cleanup_device i s = Done tt s' -> kept s s'.
Proof.
  unfold cleanup_device. intros Hrun.
  apply bind_done in Hrun as (d & s1 & H1 & H2).
  destruct (devices s !! i) as [d0|]; [|discriminate].
  injection H1 as -> <-.
  destruct d as [pdev|].
  - apply bind_done in H2 as ([] & s2 & Hdel & Hput).
    eapply kept_trans;
      [eapply platform_device_del_kept|eapply platform_device_put_kept];
      eassumption.
  - injection H2 as <-. apply kept_refl.
Qed.

Lemma cleanup_table_kept i s s' :
  cleanup_table i s = Done tt s' -> kept s s'.
Proof.
  unfold cleanup_table. intros Hrun.
  apply bind_done in Hrun as ([] & s1 & H1 & H2).
  apply bind_done in H2 as (p & s2 & H2 & H3).
  assert (kept s s1) as K1.
  { destruct (i <? BUS_COUNT_MAX)%nat; [|discriminate].
    now apply gpiod_remove_lookup_table_kept in H1. }
  assert (s2 = s1) as ->.
  { unfold load_dev_id in H2. destruct (gpiod_tables s1 !! i); [|discriminate].
    now injection H2. }
  eapply kept_trans; [exact K1|eapply kfree_kept; eassumption].
Qed.

Lemma cleanup_kept s s' : i2c_gpio_custom_cleanup s = Done tt s' -> kept s s'.
Proof.
  rewrite cleanup_unfold. intros Hrun.
  apply bind_done in Hrun as ([] & s1 & H1 & H2).
  apply kept_trans with s1.
  - exact (for_loop_kept _ cleanup_device_kept _ _ _ _ H1).
  - exact (for_loop_kept _ cleanup_table_kept _ _ _ _ H2).
Qed.

(** A first pass of teardown that ran to its end has released the device
    recorded in [devices[0]]. *)
Lemma cleanup_releases_first p s s' :
  (0 < nr_devices s)%nat ->
  devices s !! 0%nat = Some (Some p) ->
  i2c_gpio_custom_cleanup s = Done tt s' ->
  heap s' !! p = Some None.
Proof.
  intros Hnr Hd. rewrite cleanup_unfold. intros Hrun.
  apply bind_done in Hrun as ([] & s1 & H1 & H2).
  destruct (nr_devices s) as [|n]; [lia|]. cbn in H1.
  apply bind_done in H1 as ([] & s0 & H0 & H1).
  assert (Hp : heap s0 !! p = Some None).
  { unfold cleanup_device in H0.
    apply bind_done in H0 as (d & sa & Ha & Hb). rewrite Hd in Ha.
    injection Ha as <- <-.
    apply bind_done in Hb as ([] & sb & Hdel & Hput).
    unfold platform_device_del in Hdel.
    destruct (heap s !! p) as [[[?|?]|]|] eqn:Hlive; try discriminate.
    injection Hdel as <-. unfold platform_device_put in Hput. cbn in Hput.
    rewrite Hlive in Hput. injection Hput as <-. cbn.
    apply list_lookup_insert_eq. now apply lookup_lt_Some in Hlive. }
  apply (for_loop_kept _ cleanup_device_kept) in H1 as (_ & _ & _ & Hh1).
  apply (for_loop_kept _ cleanup_table_kept) in H2 as (_ & _ & _ & Hh2).
  now apply Hh2, Hh1.
Qed.

(** C3, as stated, fails: after a pass that provisioned one bus, a first
    teardown runs to its end and a second teardown hands the device, already
    released by the first, to [platform_device_del] again. *)
Lemma second_teardown_reuses_released_device :
  exists s1 s2 s3,
    i2c_gpio_custom_probe friendly one_bus init_state = Done 0 s1 /\
    i2c_gpio_custom_cleanup s1 = Done tt s2 /\
    i2c_gpio_custom_cleanup s2 = Oops (UseAfterFree 1) s3 /\
    i2c_gpio_custom_cleanup s2 <> Done tt s2.
Proof.
  do 3 eexists. by_evaluation.
Qed.

(** C3, amended.  Teardown is a no-op, however often it is called, on an
    empty list ([nr_devices = 0]).  A teardown that runs to its end leaves
    [nr_devices], [devices] and the static tables as they were -- nothing is
    cleared or reset -- so on a list whose first entry is a device the second
    call is not a no-op: it hands the released device to
    [platform_device_del] once more. *)
Theorem teardown_twice :
  (forall s, nr_devices s = 0%nat -> i2c_gpio_custom_cleanup s = Done tt s) /\
  (forall s s',
     i2c_gpio_custom_cleanup s = Done tt s' ->
     nr_devices s' = nr_devices s /\ devices s' = devices s /\
     gpiod_tables s' = gpiod_tables s) /\
  (forall s s' p,
     (0 < nr_devices s)%nat ->
     devices s !! 0%nat = Some (Some p) ->
     i2c_gpio_custom_cleanup s = Done tt s' ->
     i2c_gpio_custom_cleanup s' = Oops (UseAfterFree p) s').
Proof.
  split; [|split].
  - intros s Hnr. rewrite cleanup_unfold, Hnr. reflexivity.
  - intros s s' Hrun. apply cleanup_kept in Hrun as (Hd & Hn & Ht & _).
    now repeat split.
  - intros s s' p Hnr Hd Hrun.
    pose proof (cleanup_releases_first p s s' Hnr Hd Hrun) as Hp.
    apply cleanup_kept in Hrun as (Hd' & Hn' & _ & _).
    rewrite cleanup_unfold, Hn'.
    destruct (nr_devices s) as [|n]; [lia|]. cbn.
    unfold bind at 1 2, cleanup_device, bind at 1. rewrite Hd', Hd.
    unfold bind at 1, platform_device_del. now rewrite Hp.
Qed.

Lemma teardown_twice_witness :
  i2c_gpio_custom_cleanup init_state = Done tt init_state /\
  exists s1 s2,
    i2c_gpio_custom_probe friendly one_bus init_state = Done 0 s1 /\
    i2c_gpio_custom_cleanup s1 = Done tt s2 /\
    nr_devices s2 = 1%nat /\ devices s2 = devices s1 /\
    i2c_gpio_custom_cleanup s2 = Oops (UseAfterFree 1) s2.
Proof.
  split; [exact (proj1 teardown_twice init_state eq_refl)|].
  pose (s1 := final (i2c_gpio_custom_probe friendly one_bus init_state)).
  pose (s2 := final (i2c_gpio_custom_cleanup s1)).
  assert (H1 : i2c_gpio_custom_cleanup s1 = Done tt s2)
    by (vm_compute; reflexivity).
  exists s1, s2. split; [vm_compute; reflexivity|].
  split; [exact H1|].
  split; [vm_compute; reflexivity|]. split; [vm_compute; reflexivity|].
  exact (proj2 (proj2 teardown_twice) s1 s2 1%nat ltac:(vm_compute; lia)
           ltac:(vm_compute; reflexivity) H1).
Defined.

(** ** Teardown and slots that were skipped *)

(** C4 fails on the code: with bus 0 left out and bus 1 configured, the pass
    succeeds with one device and table 1 installed.  Teardown removes and
    releases the device, and then calls [gpiod_remove_lookup_table] on table
    0, which was never installed; table 1 is still on the lookup list and its
    identity string is still allocated. *)
Theorem teardown_misses_table_of_later_slot :
  exists s1 s2,
    i2c_gpio_custom_probe friendly only_bus1 init_state = Done 0 s1 /\
    nr_devices s1 = 1%nat /\
    devices s1 !! 0%nat = Some (Some 1%nat) /\
    gpio_lookup_list s1 = [1%nat] /\
    i2c_gpio_custom_cleanup s1 = Oops (ListNotLinked 0) s2 /\
    klog s2 = klog s1 ++ [PlatformDeviceDel 1; PlatformDevicePut 1] /\
    platform_bus s2 = [] /\
    gpio_lookup_list s2 = [1%nat] /\
    dev_id <$> gpiod_tables s2 !! 1%nat = Some (Some 0%nat) /\
    heap s2 !! 0%nat = Some (Some (Bytes (Some "i2c-gpio.1"))).
Proof.
  do 2 eexists. by_evaluation.
Qed.

(** Where no slot is skipped before a configured one, the tables teardown
    removes are the installed ones: four buses, all torn down -- the devices
    first, in the order of provisioning, then the tables. *)
Example teardown_of_four_buses :
  exists s1 s2,
    i2c_gpio_custom_probe friendly
      (insmod [0; 5; 6] [1; 7; 8] [2; 9; 10] [3; 11; 12]) init_state
    = Done 0 s1 /\
    gpio_lookup_list s1 = [0; 1; 2; 3]%nat /\
    platform_bus s1 = [1; 3; 5; 7]%nat /\
    i2c_gpio_custom_cleanup s1 = Done tt s2 /\
    klog s2 = klog s1 ++
      [PlatformDeviceDel 1; PlatformDevicePut 1;
       PlatformDeviceDel 3; PlatformDevicePut 3;
       PlatformDeviceDel 5; PlatformDevicePut 5;
       PlatformDeviceDel 7; PlatformDevicePut 7;
       GpiodRemoveLookupTable 0; Kfree (Some 0%nat);
       GpiodRemoveLookupTable 1; Kfree (Some 2%nat);
       GpiodRemoveLookupTable 2; Kfree (Some 4%nat);
       GpiodRemoveLookupTable 3; Kfree (Some 6%nat)] /\
    gpio_lookup_list s2 = [] /\
    platform_bus s2 = [] /\
    heap s2 = replicate 8 None.
Proof.
  do 2 eexists. by_evaluation.
Qed.

(** C2 fails on the code: bus 0 left out, bus 1 provisioned, bus 2 rejected
    with [-EINVAL].  The teardown started by the pass deletes and releases
    the device of bus 1 (no device is left on the platform bus), and then
    calls [gpiod_remove_lookup_table] on table 0, never installed, instead of
    table 1: the table of bus 1 stays installed, its identity string stays
    allocated, and [-EINVAL] is not returned. *)
Theorem probe_error_misses_table_of_later_slot :
  exists s,
    i2c_gpio_custom_probe friendly bus1_then_short init_state =
    Oops (ListNotLinked 0) s /\
    klog s =
      [Printk MsgVersion; GpioToChip 5; GpioToChip 6; Kmalloc 33 (Some 0%nat);
       Snprintf 0%nat 33 "i2c-gpio.1"; GpiodAddLookupTable 1;
       PlatformDeviceAlloc "i2c-gpio" 1 (Some 1%nat);
       PlatformDeviceAddData 1%nat 0; PlatformDeviceAdd 1%nat 0;
       Printk (MsgNotEnoughParameters 2);
       PlatformDeviceDel 1; PlatformDevicePut 1] /\
    platform_bus s = [] /\
    gpio_lookup_list s = [1%nat] /\
    heap s !! 0%nat = Some (Some (Bytes (Some "i2c-gpio.1"))).
Proof.
  eexists. by_evaluation.
Qed.

(** ** The counter during the pass and after teardown *)

(** C10, as stated, fails after teardown: one bus provisioned, then torn
    down.  No device is registered or live and no table is installed, while
    [nr_devices] still is 1. *)
Lemma counter_survives_teardown :
  exists s1 s2,
    i2c_gpio_custom_probe friendly one_bus init_state = Done 0 s1 /\
    i2c_gpio_custom_exit s1 = Done tt s2 /\
    nr_devices s2 = 1%nat /\
    length (platform_bus s2) = 0%nat /\
    live_devices s2 = 0%nat /\
    length (gpio_lookup_list s2) = 0%nat /\
    nr_devices s2 <> length (platform_bus s2).
Proof.
  do 2 eexists. by_evaluation.
Qed.

(** C10, amended.  The invariant holds in the initial state, and every call
    of [i2c_gpio_custom_add_one] for the next slot that returns -- with 0 or
    with an error -- re-establishes it: [nr_devices] equals the number of
    devices on the platform bus, the number of live device instances and the
    number of installed lookup tables, and [devices[0 .. nr_devices)] are the
    registered devices in registration order.  The counter moves only when
    the call returns 0 for a configured slot, and then by one, together with
    the one device appended to the bus and stored at [devices[nr_devices]].
    Teardown leaves the counter as it is. *)
Theorem pass_counts_agree :
  pass_inv 0 init_state /\
  (forall K P k params s err s',
    (k < BUS_COUNT_MAX)%nat ->
    pass_inv k s ->
    i2c_gpio_custom_add_one K P k params s = Done err s' ->
    pass_inv (S k) s' /\
    nr_devices s' = length (platform_bus s') /\
    nr_devices s' = live_devices s' /\
    nr_devices s' = length (gpio_lookup_list s') /\
    take (nr_devices s') (devices s') = Some <$> platform_bus s' /\
    (nr_devices s' = nr_devices s /\ devices s' = devices s /\
     platform_bus s' = platform_bus s
     \/
     err = 0 /\ nth k (bus_nump P) 0 <> 0 /\
     exists p, nr_devices s' = S (nr_devices s) /\
               devices s' = <[nr_devices s := Some p]> (devices s) /\
               platform_bus s' = platform_bus s ++ [p])) /\
  (forall s s',
    i2c_gpio_custom_cleanup s = Done tt s' -> nr_devices s' = nr_devices s).
Proof.
  split; [exact pass_inv_init|]. split.
  2:{ intros s s' Hrun. now apply cleanup_kept in Hrun as (_ & Hn & _). }
  intros K P k params s err s' Hk Hinv Hrun.
  assert (Hnext : pass_inv (S k) s' /\
    (nr_devices s' = nr_devices s /\ devices s' = devices s /\
     platform_bus s' = platform_bus s
     \/
     err = 0 /\ nth k (bus_nump P) 0 <> 0 /\
     exists p, nr_devices s' = S (nr_devices s) /\
               devices s' = <[nr_devices s := Some p]> (devices s) /\
               platform_bus s' = platform_bus s ++ [p])).
  { pose proof (add_one_outcomes K P k params s Hk
                  (inv_fresh k s Hinv k (Nat.le_refl k))) as Hout.
    rewrite Hrun in Hout.
    inversion Hout as [Hz | err' s'' Herr Hcfg Hsame | c1 c2 Hreq Hnr |];
      subst.
    - split; [apply (pass_inv_next k s' s' Hinv), same_installed_refl|].
      now left.
    - split; [now apply (pass_inv_next k s s')|].
      left. destruct Hsame as (Hd & Hn & Hb & _). now repeat split.
    - split; [now apply pass_inv_provisioned|].
      right. split; [reflexivity|]. split.
      { unfold BUS_PARAM_REQUIRED in *. lia. }
      eexists. cbn. repeat split. }
  destruct Hnext as [Hinv' Hmove]. split; [exact Hinv'|].
  destruct Hinv' as [_ _ Hbus Hlive Htab Hdev _].
  repeat split; try (symmetry; assumption); assumption.
Qed.

Lemma pass_counts_agree_witness :
  pass_inv 0 init_state /\
  (exists s',
    i2c_gpio_custom_add_one friendly one_bus 0 (bus0 one_bus) init_state =
    Done 0 s' /\
    pass_inv 1 s' /\
    nr_devices s' = length (platform_bus s') /\
    nr_devices s' = live_devices s' /\
    nr_devices s' = length (gpio_lookup_list s') /\
    take (nr_devices s') (devices s') = Some <$> platform_bus s') /\
  (exists s1 s2,
    i2c_gpio_custom_probe friendly one_bus init_state = Done 0 s1 /\
    i2c_gpio_custom_cleanup s1 = Done tt s2 /\
    nr_devices s2 = nr_devices s1).
Proof.
  split; [exact (proj1 pass_counts_agree)|]. split.
  - exists (final (i2c_gpio_custom_add_one friendly one_bus 0%nat
                     (bus0 one_bus) init_state)).
    destruct (proj1 (proj2 pass_counts_agree) friendly one_bus
                0%nat (bus0 one_bus) init_state 0
                (final (i2c_gpio_custom_add_one friendly one_bus 0%nat
                          (bus0 one_bus) init_state))
                ltac:(vm_compute; lia) (proj1 pass_counts_agree)
                ltac:(vm_compute; reflexivity))
      as (Hinv & Hb & Hl & Ht & Hd & _).
    split; [vm_compute; reflexivity|].
    exact (conj Hinv (conj Hb (conj Hl (conj Ht Hd)))).
  - pose (s1 := final (i2c_gpio_custom_probe friendly one_bus init_state)).
    pose (s2 := final (i2c_gpio_custom_cleanup s1)).
    assert (H1 : i2c_gpio_custom_cleanup s1 = Done tt s2)
      by (vm_compute; reflexivity).
    exists s1, s2. split; [vm_compute; reflexivity|]. split; [exact H1|].
    exact (proj2 (proj2 pass_counts_agree) s1 s2 H1).
Defined.

(** ** The result of the pass *)

Lemma pass_step_good K P k s :
  (k < BUS_COUNT_MAX)%nat ->
  pass_inv k s ->
  slot_good K P k ->
  exists s',
    i2c_gpio_custom_add_one K P k (slot_params P k) s = Done 0 s' /\
    pass_inv (S k) s' /\
    nr_devices s' = (nr_devices s + if configured P k then 1 else 0)%nat.
Proof.
  intros Hk Hinv [Hskip|(Hreq & [c1 Hc1] & [c2 Hc2] & Hm & Ha & Hd & Hr)].
  - exists s. unfold configured. rewrite Hskip. cbn. split; [|split].
    + now apply add_one_skipped.
    + apply (pass_inv_next k s s Hinv), same_installed_refl.
    + lia.
  - assert (Hnr : (nr_devices s < length (devices s))%nat).
    { rewrite (inv_slots k s Hinv). pose proof (inv_room k s Hinv). lia. }
    eexists. split; [|split].
    + apply add_one_ok with (chip_sda := c1) (chip_scl := c2);
        try assumption.
      apply (inv_fresh k s Hinv). lia.
    + now apply pass_inv_provisioned.
    + unfold configured.
      replace (nth k (bus_nump P) 0 =? 0) with false
        by (symmetry; apply Z.eqb_neq; unfold BUS_PARAM_REQUIRED in Hreq; lia).
      cbn. lia.
Qed.

Lemma probe_step K P k (rest : Z -> M Z) s s' :
  i2c_gpio_custom_add_one K P k (slot_params P k) s = Done 0 s' ->
  (err <- i2c_gpio_custom_add_one K P k (slot_params P k) ;;
   if negb (err =? 0) then probe_err err else rest err) s = rest 0 s'.
Proof. intros H. unfold bind. now rewrite H. Qed.

(** C9, as stated, fails: one configured bus, provisioned without error.
    [i2c_gpio_custom_probe] returns 0; the count, 1, is left in
    [nr_devices]. *)
Lemma probe_returns_zero_not_count :
  exists s',
    i2c_gpio_custom_probe friendly one_bus init_state = Done 0 s' /\
    nr_devices s' = 1%nat /\
    configured_count one_bus = 1%nat /\
    i2c_gpio_custom_probe friendly one_bus init_state <> Done 1 s'.
Proof. eexists. by_evaluation. Qed.

(** C9, amended.  When every slot is left out, [i2c_gpio_custom_probe]
    returns [-ENODEV] after the [printk] of "no bus parameter(s) specified".
    When at least one slot is configured and every configured slot is
    provisioned without error, it returns 0, and the number of configured
    slots is the value of [nr_devices] -- and the number of devices on the
    platform bus, of live devices and of installed lookup tables. *)
Theorem probe_result K P :
  ((forall k, (k < BUS_COUNT_MAX)%nat -> nth k (bus_nump P) 0 = 0) ->
   i2c_gpio_custom_probe K P init_state =
   Done (- ENODEV)
     (emit (Printk MsgNoBusParameters) (emit (Printk MsgVersion) init_state)))
  /\
  ((forall k, (k < BUS_COUNT_MAX)%nat -> slot_good K P k) ->
   configured_count P <> 0%nat ->
   exists s',
     i2c_gpio_custom_probe K P init_state = Done 0 s' /\
     nr_devices s' = configured_count P /\
     length (platform_bus s') = configured_count P /\
     live_devices s' = configured_count P /\
     length (gpio_lookup_list s') = configured_count P).
Proof.
  split.
  - intros Hnone. unfold i2c_gpio_custom_probe.
    unfold bind at 1. cbn [printk modify].
    change (bus0 P) with (slot_params P 0).
    change (bus1 P) with (slot_params P 1).
    change (bus2 P) with (slot_params P 2).
    change (bus3 P) with (slot_params P 3).
    do 4 (erewrite probe_step
            by (apply add_one_skipped; [unfold BUS_COUNT_MAX; lia|];
                apply Hnone; unfold BUS_COUNT_MAX; lia)).
    reflexivity.
  - intros Hgood Hsome. unfold i2c_gpio_custom_probe.
    unfold bind at 1. cbn [printk modify].
    change (bus0 P) with (slot_params P 0).
    change (bus1 P) with (slot_params P 1).
    change (bus2 P) with (slot_params P 2).
    change (bus3 P) with (slot_params P 3).
    assert (Hinv0 : pass_inv 0 (emit (Printk MsgVersion) init_state))
      by apply pass_inv_log, pass_inv_init.
    destruct (pass_step_good K P 0 _ ltac:(unfold BUS_COUNT_MAX; lia) Hinv0
                (Hgood 0%nat ltac:(unfold BUS_COUNT_MAX; lia)))
      as (s1 & Hrun1 & Hinv1 & Hnr1).
    destruct (pass_step_good K P 1 _ ltac:(unfold BUS_COUNT_MAX; lia) Hinv1
                (Hgood 1%nat ltac:(unfold BUS_COUNT_MAX; lia)))
      as (s2 & Hrun2 & Hinv2 & Hnr2).
    destruct (pass_step_good K P 2 _ ltac:(unfold BUS_COUNT_MAX; lia) Hinv2
                (Hgood 2%nat ltac:(unfold BUS_COUNT_MAX; lia)))
      as (s3 & Hrun3 & Hinv3 & Hnr3).
    destruct (pass_step_good K P 3 _ ltac:(unfold BUS_COUNT_MAX; lia) Hinv3
                (Hgood 3%nat ltac:(unfold BUS_COUNT_MAX; lia)))
      as (s4 & Hrun4 & Hinv4 & Hnr4).
    rewrite (probe_step K P 0 _ _ s1 Hrun1).
    rewrite (probe_step K P 1 _ _ s2 Hrun2).
    rewrite (probe_step K P 2 _ _ s3 Hrun3).
    rewrite (probe_step K P 3 _ _ s4 Hrun4).
    assert (Hcount : nr_devices s4 = configured_count P).
    { rewrite Hnr4, Hnr3, Hnr2, Hnr1. unfold configured_count. cbn.
      destruct (configured P 0), (configured P 1), (configured P 2),
        (configured P 3); reflexivity. }
    unfold bind, gets.
    replace (nr_devices s4 =? 0)%nat with false
      by (symmetry; apply Nat.eqb_neq; lia).
    exists s4. split; [reflexivity|]. rewrite <- Hcount.
    destruct Hinv4 as [_ _ Hbus Hlive Htab _ _]. now repeat split.
Qed.

Lemma probe_result_witness :
  i2c_gpio_custom_probe friendly (insmod [] [] [] []) init_state =
  Done (- ENODEV)
    (emit (Printk MsgNoBusParameters) (emit (Printk MsgVersion) init_state))
  /\
  exists s',
    i2c_gpio_custom_probe friendly one_bus init_state = Done 0 s' /\
    nr_devices s' = 1%nat /\
    length (platform_bus s') = 1%nat /\
    live_devices s' = 1%nat /\
    length (gpio_lookup_list s') = 1%nat.
Proof.
  split.
  - apply (proj1 (probe_result friendly (insmod [] [] [] []))).
    intros k Hk. destruct k as [|[|[|[|k]]]]; try reflexivity.
    unfold BUS_COUNT_MAX in Hk. lia.
  - apply (proj2 (probe_result friendly one_bus)).
    + intros k Hk. destruct k as [|[|[|[|k]]]].
      * right. unfold slot_good. cbn.
        repeat (split; [first [eexists; reflexivity | reflexivity
                               | unfold BUS_PARAM_REQUIRED; lia]|]).
        reflexivity.
      * left. reflexivity.
      * left. reflexivity.
      * left. reflexivity.
      * unfold BUS_COUNT_MAX in Hk. lia.
    + vm_compute. discriminate.
Defined.

(** * Further properties of the driver *)

(** ** The identity string names the bus id *)

Lemma digit_value d :
  0 <= d <= 9 -> Z.of_nat (nat_of_ascii (digit d)) - 48 = d.
Proof.
  intros Hd. unfold digit. rewrite nat_ascii_embedding by lia. lia.
Qed.

Lemma atou_utoa fuel : forall n rest,
  0 <= n < 10 ^ Z.of_nat fuel ->
  (0 < fuel)%nat ->
  atou (utoa fuel n rest) 0 = atou rest n.
Proof.
  induction fuel as [|fuel IH]; intros n rest Hn Hfuel; [lia|].
  cbn [utoa].
  assert (Hmod : 0 <= n mod 10 <= 9) by (pose proof (Z.mod_pos_bound n 10); lia).
  assert (Hsplit : n = n / 10 * 10 + n mod 10)
    by (pose proof (Z.div_mod n 10); lia).
  destruct (Z.eqb_spec (n / 10) 0) as [Hz|Hz].
  - cbn [atou]. rewrite digit_value by exact Hmod. f_equal. lia.
  - destruct fuel as [|fuel'].
    + exfalso. change (10 ^ Z.of_nat 1) with 10 in Hn.
      apply Hz. apply Z.div_small. lia.
    + rewrite IH.
      * cbn [atou]. rewrite digit_value by exact Hmod. f_equal. lia.
      * split; [apply Z.div_pos; lia|].
        apply Z.div_lt_upper_bound; [lia|].
        replace (Z.of_nat (S (S fuel'))) with (1 + Z.of_nat (S fuel')) in Hn
          by lia.
        rewrite Z.pow_add_r in Hn by lia. lia.
      * lia.
Qed.

Lemma utoa_head fuel : forall n rest,
  0 <= n -> (0 < fuel)%nat ->
  exists d tl, 0 <= d <= 9 /\ utoa fuel n rest = String (digit d) tl.
Proof.
  induction fuel as [|fuel IH]; intros n rest Hn Hfuel; [lia|].
  cbn [utoa].
  assert (Hmod : 0 <= n mod 10 <= 9) by (pose proof (Z.mod_pos_bound n 10); lia).
  destruct (n / 10 =? 0).
  - now exists (n mod 10), rest.
  - destruct fuel as [|fuel'].
    + now exists (n mod 10), rest.
    + apply IH; [apply Z.div_pos; lia|lia].
Qed.

Lemma digit_not_minus d : 0 <= d <= 9 -> Ascii.eqb (digit d) "-" = false.
Proof.
  intros Hd. apply Ascii.eqb_neq. intros H.
  apply (f_equal nat_of_ascii) in H. unfold digit in H.
  rewrite nat_ascii_embedding in H by lia.
  change (nat_of_ascii "-") with 45%nat in H. lia.
Qed.

Lemma to_int_range v : - 2 ^ 31 <= to_int v < 2 ^ 31.
Proof.
  unfold to_int. pose proof (Z.mod_pos_bound v (2 ^ 32) ltac:(lia)).
  cbv zeta. destruct (Z.ltb_spec (v mod 2 ^ 32) (2 ^ 31)); lia.
Qed.

Lemma atoi_itoa v : - 10 ^ 10 < v < 10 ^ 10 -> atoi (itoa v) = v.
Proof.
  intros Hv. unfold itoa. destruct (Z.ltb_spec v 0) as [Hneg|Hpos].
  - unfold atoi. change (Ascii.eqb "-" "-") with true. cbv iota.
    rewrite atou_utoa; [cbn [atou]; lia| |lia].
    change (Z.of_nat 10) with 10. lia.
  - destruct (utoa_head 10 v "" Hpos ltac:(lia)) as (d & tl & Hd & Hhead).
    unfold atoi. rewrite Hhead, digit_not_minus by exact Hd.
    rewrite <- Hhead. rewrite atou_utoa; [reflexivity| |lia].
    change (Z.of_nat 10) with 10. lia.
Qed.

Lemma to_int_inj a b :
  0 <= a < 2 ^ 32 -> 0 <= b < 2 ^ 32 -> to_int a = to_int b -> a = b.
Proof.
  unfold to_int. intros Ha Hb. rewrite !Z.mod_small by lia. cbv zeta.
  destruct (Z.ltb_spec a (2 ^ 31)), (Z.ltb_spec b (2 ^ 31)); lia.
Qed.

(** X1.  The identity string carries the bus id: reading the number behind
    the tag of ["i2c-gpio.%d"] gives back the id as the [int] that [%d]
    printed, so two ids that differ as 32-bit values never get the same
    identity string. *)
Theorem dev_id_text_names_the_id :
  (forall id, dev_id_number (dev_id_text id) = to_int id) /\
  (forall a b,
     0 <= a < 2 ^ 32 -> 0 <= b < 2 ^ 32 ->
     dev_id_text a = dev_id_text b -> a = b).
Proof.
  assert (Hback : forall id, dev_id_number (dev_id_text id) = to_int id).
  { intros id. unfold dev_id_number, dev_id_text.
    change (skip 9 (String.append "i2c-gpio." (itoa (to_int id))))
      with (itoa (to_int id)).
    apply atoi_itoa. pose proof (to_int_range id). lia. }
  split; [exact Hback|].
  intros a b Ha Hb Heq. apply to_int_inj; try assumption.
  rewrite <- (Hback a), <- (Hback b). now rewrite Heq.
Qed.

Lemma dev_id_text_names_the_id_witness :
  dev_id_number (dev_id_text 4294967295) = -1 /\
  (dev_id_text 7 = dev_id_text 7 -> 7 = 7).
Proof.
  split.
  - exact (proj1 dev_id_text_names_the_id 4294967295).
  - exact (proj2 dev_id_text_names_the_id 7 7 ltac:(lia) ltac:(lia)).
Defined.

(** ** One bus: every end of [i2c_gpio_custom_add_one] *)

Lemma left_nothing_log id e s : left_nothing id s (emit e s).
Proof.
  repeat split; try reflexivity.
  exists 0%nat. split; [lia|]. cbn. now rewrite app_nil_r.
Qed.

Lemma built_tables_frame name_max id params chip_sda chip_scl s :
  length (gpiod_tables (built name_max id params chip_sda chip_scl s)) =
  length (gpiod_tables s) /\
  forall t, t <> id ->
    gpiod_tables (built name_max id params chip_sda chip_scl s) !! t =
    gpiod_tables s !! t.
Proof.
  cbn. split.
  - now rewrite !length_alter.
  - intros t Ht. now rewrite !list_lookup_alter_ne by congruence.
Qed.

Lemma add_one_ends K P id params s :
  (id < BUS_COUNT_MAX)%nat ->
  linked id (gpio_lookup_list s) = false ->
  add_one_end K P id params s (i2c_gpio_custom_add_one K P id params s).
Proof.
  intros Hid Hfresh. unfold i2c_gpio_custom_add_one.
  destruct (Z.eq_dec (nth id (bus_nump P) 0) 0) as [H0|H0].
  { rewrite add_one_skipped by assumption. now constructor. }
  destruct (Z_lt_le_dec (nth id (bus_nump P) 0) BUS_PARAM_REQUIRED)
    as [Hlt|Hreq].
  { rewrite add_one_too_few by assumption.
    apply EndFailed; [unfold EINVAL; lia|assumption|now left|].
    apply left_nothing_log. }
  destruct (chip_of_gpio K (param params BUS_PARAM_SDA)) as [c1|] eqn:Hsda.
  2:{ rewrite add_one_no_sda by assumption.
      apply EndFailed; [unfold EINVAL; lia|assumption|now left|].
      repeat split; try reflexivity.
      exists 0%nat. split; [lia|]. cbn. now rewrite app_nil_r. }
  destruct (chip_of_gpio K (param params BUS_PARAM_SCL)) as [c2|] eqn:Hscl.
  2:{ rewrite (add_one_no_scl K P BUS_NAME_MAX id params c1 s) by assumption.
      apply EndFailed; [unfold EINVAL; lia|assumption|now left|].
      repeat split; try reflexivity.
      - exists 0%nat. split; [lia|]. cbn. now rewrite app_nil_r.
      - cbn. now rewrite length_alter.
      - intros t Ht. cbn. now rewrite list_lookup_alter_ne by congruence. }
  destruct (kmalloc_ok K id) eqn:Hk.
  2:{ destruct (add_one_kmalloc_null K P BUS_NAME_MAX id params c1 c2 s
                  Hid Hreq Hsda Hscl Hk) as (s' & Hrun & _).
      rewrite Hrun. now apply EndNoMemory. }
  rewrite (add_one_build K P BUS_NAME_MAX id params c1 c2 s)
    by (try assumption; try (unfold BUS_NAME_MAX; lia);
        pose proof (dev_id_text_length (param params BUS_PARAM_ID));
        unfold BUS_NAME_MAX; lia).
  pose proof (built_tables_frame BUS_NAME_MAX id params c1 c2 s)
    as [Htl Htf].
  remember (built BUS_NAME_MAX id params c1 c2 s) as s1 eqn:Es1.
  assert (Hq : heap s1 !! length (heap s) =
               Some (Some (Bytes (Some (truncate (Z.to_nat BUS_NAME_MAX)
                        (dev_id_text (param params BUS_PARAM_ID))))))).
  { subst s1. cbn. apply heap_lookup_new. }
  assert (Hl : linked id (gpio_lookup_list s1) = true).
  { subst s1. cbn. apply linked_self. }
  assert (Hun : unlink id (gpio_lookup_list s1) = gpio_lookup_list s).
  { subst s1. cbn. now apply unlink_self. }
  assert (Hfree : <[length (heap s) := None]> (heap s1) = heap s ++ [None]).
  { subst s1. cbn. apply heap_insert_new. }
  assert (Hsame : devices s1 = devices s /\ nr_devices s1 = nr_devices s /\
                  platform_bus s1 = platform_bus s).
  { subst s1. now repeat split. }
  destruct Hsame as (Hdev & Hnr & Hbus).
  destruct (pdev_alloc_ok K id) eqn:Ha.
  2:{ erewrite add_one_device_alloc_fails by eassumption.
      apply EndFailed; [unfold ENOMEM; lia|assumption|right; now left|].
      unfold left_nothing. cbn. rewrite Hfree, Hun.
      repeat split; try assumption.
      exists 1%nat. split; [lia|reflexivity]. }
  destruct (Z.eq_dec (add_data_rc K id) 0) as [Hd|Hd].
  2:{ erewrite add_one_device_add_data_fails by eassumption.
      apply EndFailed; [assumption|assumption|right; right; now left|].
      unfold left_nothing. cbn. rewrite Hfree, Hun, <- app_assoc.
      repeat split; try assumption.
      exists 2%nat. split; [lia|reflexivity]. }
  destruct (Z.eq_dec (add_rc K id) 0) as [Hr|Hr].
  2:{ erewrite add_one_device_add_fails by eassumption.
      apply EndFailed; [assumption|assumption|right; right; now right|].
      unfold left_nothing. cbn. rewrite Hfree, Hun, <- app_assoc.
      repeat split; try assumption.
      exists 2%nat. split; [lia|reflexivity]. }
  destruct (Nat.lt_ge_cases (nr_devices s) (length (devices s))) as [Hlen|Hlen].
  - subst s1. rewrite add_one_device_ok by assumption.
    now apply EndProvisioned.
  - subst s1.
    destruct (add_one_device_full K id params id (Some (length (heap s)))
                (built BUS_NAME_MAX id params c1 c2 s))
      as (s' & Hrun); try assumption.
    rewrite Hrun. now apply EndFull.
Qed.

(** X2.  Every error return of [i2c_gpio_custom_add_one] leaves nothing
    behind.  Called for a slot whose table is not installed, if it returns a
    non-zero code then that code is [-EINVAL], [-ENOMEM] or the code the
    kernel gave for [platform_device_add_data] or [platform_device_add];
    [devices], [nr_devices], the platform bus and the lookup list are as
    before; the heap is the old heap followed by at most two released
    blocks (nothing it allocated is still allocated, nothing older was
    touched); and the static tables of the other slots are unchanged. *)
Theorem add_one_error_leaves_nothing K P id params s err s' :
  (id < BUS_COUNT_MAX)%nat ->
  linked id (gpio_lookup_list s) = false ->
  i2c_gpio_custom_add_one K P id params s = Done err s' ->
  err <> 0 ->
  (err = - EINVAL \/ err = - ENOMEM \/
   err = add_data_rc K id \/ err = add_rc K id) /\
  devices s' = devices s /\
  nr_devices s' = nr_devices s /\
  platform_bus s' = platform_bus s /\
  gpio_lookup_list s' = gpio_lookup_list s /\
  (exists n, (n <= 2)%nat /\ heap s' = heap s ++ replicate n None) /\
  (forall t, t <> id -> gpiod_tables s' !! t = gpiod_tables s !! t).
Proof.
  intros Hid Hfresh Hrun Herr.
  pose proof (add_one_ends K P id params s Hid Hfresh) as Hend.
  rewrite Hrun in Hend.
  inversion Hend as [Hz | err' s'' Hne Hcfg Hcode Hleft | c1 c2 Hreq | |];
    subst; try congruence.
  destruct Hleft as (Hd & Hn & Hb & Hl & Hh & _ & Ht).
  now repeat split.
Qed.

Lemma add_one_error_leaves_nothing_witness :
  exists s',
    i2c_gpio_custom_add_one bus_rejects one_bus 0 (bus0 one_bus) init_state =
    Done (-17) s' /\
    platform_bus s' = [] /\ gpio_lookup_list s' = [] /\
    exists n, (n <= 2)%nat /\ heap s' = replicate n None.
Proof.
  pose (s' := final (i2c_gpio_custom_add_one bus_rejects one_bus 0%nat
                       (bus0 one_bus) init_state)).
  assert (Hrun : i2c_gpio_custom_add_one bus_rejects one_bus 0%nat
                   (bus0 one_bus) init_state = Done (-17) s')
    by (vm_compute; reflexivity).
  destruct (add_one_error_leaves_nothing bus_rejects one_bus 0%nat
              (bus0 one_bus) init_state (-17) s'
              ltac:(vm_compute; lia) eq_refl Hrun ltac:(lia))
    as (_ & _ & _ & Hb & Hl & Hh & _).
  exists s'. split; [exact Hrun|]. split; [exact Hb|]. split; [exact Hl|].
  exact Hh.
Defined.

(** X3.  When [platform_device_alloc] returns [NULL] (the table is installed
    by then), [i2c_gpio_custom_add_one] returns [-ENOMEM] after uninstalling
    the table and freeing the identity string, in this order and without any
    [platform_device_put]; the lookup list and the platform bus are as
    before and the one block allocated is released. *)
Theorem add_one_device_alloc_failure K P id params chip_sda chip_scl s :
  (id < BUS_COUNT_MAX)%nat ->
  BUS_PARAM_REQUIRED <= nth id (bus_nump P) 0 ->
  chip_of_gpio K (param params BUS_PARAM_SDA) = Some chip_sda ->
  chip_of_gpio K (param params BUS_PARAM_SCL) = Some chip_scl ->
  kmalloc_ok K id = true ->
  pdev_alloc_ok K id = false ->
  linked id (gpio_lookup_list s) = false ->
  exists s',
    i2c_gpio_custom_add_one K P id params s = Done (- ENOMEM) s' /\
    klog s' = klog s ++
      [GpioToChip (param params BUS_PARAM_SDA);
       GpioToChip (param params BUS_PARAM_SCL);
       Kmalloc (BUS_NAME_MAX + 1) (Some (length (heap s)));
       Snprintf (length (heap s)) (BUS_NAME_MAX + 1)
         (dev_id_text (param params BUS_PARAM_ID));
       GpiodAddLookupTable id;
       PlatformDeviceAlloc "i2c-gpio" (to_int (param params BUS_PARAM_ID))
         None;
       GpiodRemoveLookupTable id;
       Kfree (Some (length (heap s)))] /\
    heap s' = heap s ++ [None] /\
    gpio_lookup_list s' = gpio_lookup_list s /\
    platform_bus s' = platform_bus s /\
    devices s' = devices s /\
    nr_devices s' = nr_devices s.
Proof.
  intros Hid Hreq Hsda Hscl Hk Ha Hfresh.
  unfold i2c_gpio_custom_add_one.
  rewrite (add_one_build K P BUS_NAME_MAX id params chip_sda chip_scl s)
    by (try assumption; try (unfold BUS_NAME_MAX; lia);
        pose proof (dev_id_text_length (param params BUS_PARAM_ID));
        unfold BUS_NAME_MAX; lia).
  erewrite add_one_device_alloc_fails.
  - eexists. split; [reflexivity|]. cbn.
    rewrite heap_insert_new, unlink_self by exact Hfresh.
    repeat split. now rewrite <- app_assoc.
  - exact Ha.
  - cbn. apply heap_lookup_new.
  - cbn. apply linked_self.
Qed.

Lemma add_one_device_alloc_failure_witness :
  exists s',
    i2c_gpio_custom_add_one no_device_memory one_bus 0 (bus0 one_bus)
      init_state = Done (- ENOMEM) s' /\
    klog s' =
      [GpioToChip 5; GpioToChip 6; Kmalloc 33 (Some 0%nat);
       Snprintf 0%nat 33 "i2c-gpio.0"; GpiodAddLookupTable 0;
       PlatformDeviceAlloc "i2c-gpio" 0 None;
       GpiodRemoveLookupTable 0; Kfree (Some 0%nat)] /\
    heap s' = [None] /\
    gpio_lookup_list s' = [] /\
    platform_bus s' = [] /\
    devices s' = [None; None; None; None] /\
    nr_devices s' = 0%nat.
Proof.
  exact (add_one_device_alloc_failure no_device_memory one_bus 0%nat
           (bus0 one_bus)
           {| label := "gpio0"; base := 0 |} {| label := "gpio0"; base := 0 |}
           init_state
           ltac:(vm_compute; lia) ltac:(vm_compute; discriminate)
           eq_refl eq_refl eq_refl eq_refl eq_refl).
Defined.

(** ** One bus: what a successful call installs *)

Lemma offset_fits gpio b :
  0 <= gpio - b < 2 ^ 16 -> to_u16 (to_uint (gpio - b)) = gpio - b.
Proof.
  intros H. unfold to_u16, to_uint.
  change (2 ^ 16) with 65536 in *. change (2 ^ 32) with 4294967296.
  rewrite (Z.mod_small (gpio - b) 4294967296) by lia.
  apply Z.mod_small. lia.
Qed.

(** X4.  A successful call installs the slot exactly as configured.  With
    both lines inside their chips (offsets below 2^16) and nothing refused,
    the slot's static table afterwards maps "sda" and "scl" to the label of
    the owning chip and the line's offset within it, keeps the template's
    connection names and flags, and carries the identity string, which is
    stored in full (never cut short); the new device has name "i2c-gpio",
    the bus id and the parameter block of the bus parameters, is the last
    device on the platform bus and is recorded at [devices[nr_devices]];
    the tables of the other slots are untouched. *)
Theorem add_one_installs K P id params chip_sda chip_scl tb e0 e1 s :
  (id < BUS_COUNT_MAX)%nat ->
  BUS_PARAM_REQUIRED <= nth id (bus_nump P) 0 ->
  chip_of_gpio K (param params BUS_PARAM_SDA) = Some chip_sda ->
  chip_of_gpio K (param params BUS_PARAM_SCL) = Some chip_scl ->
  0 <= param params BUS_PARAM_SDA - base chip_sda < 2 ^ 16 ->
  0 <= param params BUS_PARAM_SCL - base chip_scl < 2 ^ 16 ->
  kmalloc_ok K id = true -> pdev_alloc_ok K id = true ->
  add_data_rc K id = 0 -> add_rc K id = 0 ->
  linked id (gpio_lookup_list s) = false ->
  (nr_devices s < length (devices s))%nat ->
  gpiod_tables s !! id = Some tb ->
  table tb = [e0; e1] ->
  let q := length (heap s) in
  let p := S (length (heap s)) in
  exists s',
    i2c_gpio_custom_add_one K P id params s = Done 0 s' /\
    gpiod_tables s' !! id =
      Some {| dev_id := Some q;
              table :=
                [ {| chip_label := Some (label chip_sda);
                     chip_hwnum := param params BUS_PARAM_SDA - base chip_sda;
                     con_id := con_id e0; flags := flags e0 |};
                  {| chip_label := Some (label chip_scl);
                     chip_hwnum := param params BUS_PARAM_SCL - base chip_scl;
                     con_id := con_id e1; flags := flags e1 |} ] |} /\
    (forall t, t <> id -> gpiod_tables s' !! t = gpiod_tables s !! t) /\
    heap s' = heap s ++
      [Some (Bytes (Some (dev_id_text (param params BUS_PARAM_ID))));
       Some (Device
         {| pdev_name := "i2c-gpio";
            pdev_id := to_int (param params BUS_PARAM_ID);
            platform_data :=
              Some {| udelay := to_int (param params BUS_PARAM_UDELAY);
                      timeout := to_int (param params BUS_PARAM_TIMEOUT);
                      sda_is_open_drain :=
                        negb (param params BUS_PARAM_SDA_OD =? 0);
                      scl_is_open_drain :=
                        negb (param params BUS_PARAM_SCL_OD =? 0);
                      scl_is_output_only :=
                        negb (param params BUS_PARAM_SCL_OO =? 0) |} |})] /\
    gpio_lookup_list s' = gpio_lookup_list s ++ [id] /\
    platform_bus s' = platform_bus s ++ [p] /\
    devices s' = <[nr_devices s := Some p]> (devices s) /\
    nr_devices s' = S (nr_devices s).
Proof.
  intros Hid Hreq Hsda Hscl Hoff1 Hoff2 Hk Ha Hd Hr Hfresh Hnr Htb Hent q p.
  subst q p.
  rewrite (add_one_ok K P id params chip_sda chip_scl s) by assumption.
  eexists. split; [reflexivity|]. cbn.
  rewrite dev_id_text_stored.
  assert (Hp : forall x : option block,
             length (heap s ++ [x]) = S (length (heap s))).
  { intros x. rewrite length_app. cbn. lia. }
  rewrite Hp. repeat split.
  - rewrite !list_lookup_alter_eq, Htb. cbn.
    unfold with_dev_id, with_lookup. cbn. rewrite Hent. cbn.
    now rewrite !offset_fits by assumption.
  - intros t Ht. now rewrite !list_lookup_alter_ne by congruence.
  - now rewrite <- app_assoc.
Qed.

Lemma add_one_installs_witness :
  exists s',
    i2c_gpio_custom_add_one friendly (insmod [3; 5; 6; 10; 100; 1; 0; 2] [] [] [])
      0 (bus0 (insmod [3; 5; 6; 10; 100; 1; 0; 2] [] [] [])) init_state
    = Done 0 s' /\
    gpiod_tables s' !! 0%nat =
      Some {| dev_id := Some 0%nat;
              table :=
                [ {| chip_label := Some "gpio0"; chip_hwnum := 5;
                     con_id := "sda"; flags := GPIO_OPEN_DRAIN |};
                  {| chip_label := Some "gpio0"; chip_hwnum := 6;
                     con_id := "scl"; flags := GPIO_OPEN_DRAIN |} ] |} /\
    heap s' =
      [Some (Bytes (Some "i2c-gpio.3"));
       Some (Device
         {| pdev_name := "i2c-gpio"; pdev_id := 3;
            platform_data :=
              Some {| udelay := 10; timeout := 100;
                      sda_is_open_drain := true;
                      scl_is_open_drain := false;
                      scl_is_output_only := true |} |})] /\
    gpio_lookup_list s' = [0%nat] /\
    platform_bus s' = [1%nat].
Proof.
  destruct (add_one_installs friendly
              (insmod [3; 5; 6; 10; 100; 1; 0; 2] [] [] []) 0%nat
              (bus0 (insmod [3; 5; 6; 10; 100; 1; 0; 2] [] [] []))
              {| label := "gpio0"; base := 0 |}
              {| label := "gpio0"; base := 0 |}
              GPIOD_TABLE_TEMPLATE (GPIO_LOOKUP "sda") (GPIO_LOOKUP "scl")
              init_state
              ltac:(vm_compute; lia) ltac:(vm_compute; discriminate)
              eq_refl eq_refl ltac:(vm_compute; split; [discriminate|reflexivity])
              ltac:(vm_compute; split; [discriminate|reflexivity])
              eq_refl eq_refl eq_refl eq_refl eq_refl
              ltac:(vm_compute; lia) eq_refl eq_refl)
    as (s' & Hrun & Htab & _ & Hheap & Hlist & Hbus & _).
  exists s'. repeat split; assumption.
Defined.

(** ** Lists of devices and tables *)

Lemma linked_elem t l : linked t l = true <-> t ∈ l.
Proof.
  unfold linked. rewrite existsb_exists, list_elem_of_In. split.
  - intros (x & Hx & Heq). apply Nat.eqb_eq in Heq. now subst.
  - intros Hin. exists t. split; [exact Hin|apply Nat.eqb_refl].
Qed.

Lemma linked_not_elem t l : linked t l = false <-> t ∉ l.
Proof.
  rewrite <- linked_elem. destruct (linked t l); split; congruence.
Qed.

Lemma elem_unlink x t l : x ∈ unlink t l <-> x ∈ l /\ x <> t.
Proof.
  unfold unlink. rewrite !list_elem_of_In, List.filter_In.
  rewrite negb_true_iff, Nat.eqb_neq. intuition congruence.
Qed.

Lemma linked_unlink x t l :
  linked x (unlink t l) = linked x l && negb (Nat.eqb x t).
Proof.
  apply eq_true_iff_eq. rewrite andb_true_iff, negb_true_iff, Nat.eqb_neq.
  rewrite !linked_elem. apply elem_unlink.
Qed.

Lemma unlink_NoDup t l : NoDup l -> NoDup (unlink t l).
Proof.
  unfold unlink. rewrite !NoDup_ListNoDup. apply List.NoDup_filter.
Qed.

Lemma elem_unlink_all ts : forall l x,
  x ∈ unlink_all ts l <-> x ∈ l /\ x ∉ ts.
Proof.
  unfold unlink_all. induction ts as [|t ts IH]; intros l x; cbn.
  - rewrite elem_of_nil. tauto.
  - rewrite IH, elem_unlink, elem_of_cons. tauto.
Qed.

Lemma unlink_all_self l : unlink_all l l = [].
Proof.
  apply elem_of_nil_inv. intros x Hx.
  apply elem_unlink_all in Hx. tauto.
Qed.

(** ** Teardown, loop by loop *)

Lemma cleanup_device_run i p d s :
  devices s !! i = Some (Some p) ->
  heap s !! p = Some (Some (Device d)) ->
  cleanup_device i s =
  Done tt
    (emit (PlatformDevicePut p)
       (set_heap (<[p := None]> (heap s))
          (emit (PlatformDeviceDel p)
             (set_platform_bus (unlink p (platform_bus s)) s)))).
Proof.
  intros Hd Hp. unfold cleanup_device, bind at 1. rewrite Hd.
  unfold bind, platform_device_del. rewrite Hp.
  unfold platform_device_put. cbn. now rewrite Hp.
Qed.

Lemma device_loop todo : forall from s,
  (forall i p, todo !! i = Some p ->
               devices s !! (from + i)%nat = Some (Some p)) ->
  NoDup todo ->
  (forall p, p ∈ todo -> exists d, heap s !! p = Some (Some (Device d))) ->
  exists s1,
    for_loop from (length todo) cleanup_device s = Done tt s1 /\
    platform_bus s1 = unlink_all todo (platform_bus s) /\
    (forall p, p ∈ todo -> heap s1 !! p = Some None) /\
    (forall p, p ∉ todo -> heap s1 !! p = heap s !! p) /\
    devices s1 = devices s /\
    nr_devices s1 = nr_devices s /\
    gpiod_tables s1 = gpiod_tables s /\
    gpio_lookup_list s1 = gpio_lookup_list s /\
    klog s1 = klog s ++ device_calls todo.
Proof.
  induction todo as [|p todo IH]; intros from s Hdev Hnodup Hlive.
  - exists s. cbn. repeat split; try reflexivity.
    + intros p Hp. now apply elem_of_nil in Hp.
    + now rewrite app_nil_r.
  - apply NoDup_cons in Hnodup as [Hfresh Hnodup].
    destruct (Hlive p) as [d Hp]; [apply elem_of_cons; now left|].
    pose proof (Hdev 0%nat p eq_refl) as Hd0. rewrite Nat.add_0_r in Hd0.
    cbn [length for_loop]. unfold bind at 1.
    rewrite (cleanup_device_run from p d s Hd0 Hp).
    edestruct (IH (S from)
      (emit (PlatformDevicePut p)
         (set_heap (<[p := None]> (heap s))
            (emit (PlatformDeviceDel p)
               (set_platform_bus (unlink p (platform_bus s)) s)))))
      as (s1 & Hrun & Hbus & Hgone & Hrest & Hd1 & Hn1 & Ht1 & Hl1 & Hlog1).
    + intros i p' Hi. cbn. rewrite <- Nat.add_succ_r. now apply Hdev.
    + exact Hnodup.
    + intros p' Hp'. cbn.
      destruct (Hlive p') as [d' Hd']; [apply elem_of_cons; now right|].
      exists d'. rewrite list_lookup_insert_ne; [exact Hd'|].
      intros ->. contradiction.
    + exists s1. split; [exact Hrun|]. cbn in *.
      repeat split; try assumption.
      * intros p' Hp'. apply elem_of_cons in Hp' as [->|Hp'].
        -- rewrite Hrest by exact Hfresh.
           apply list_lookup_insert_eq. now apply lookup_lt_Some in Hp.
        -- now apply Hgone.
      * intros p' Hp'. rewrite not_elem_of_cons in Hp'. destruct Hp' as [Hne Hp'].
        rewrite Hrest by exact Hp'. now rewrite list_lookup_insert_ne.
      * rewrite Hlog1, <- !app_assoc. reflexivity.
Qed.

Lemma cleanup_table_fault i s :
  (i < BUS_COUNT_MAX)%nat ->
  linked i (gpio_lookup_list s) = false ->
  cleanup_table i s = Oops (ListNotLinked i) s.
Proof.
  intros Hi Hl. unfold cleanup_table, bind at 1.
  apply Nat.ltb_lt in Hi. rewrite Hi.
  unfold gpiod_remove_lookup_table. now rewrite Hl.
Qed.

Lemma cleanup_table_run i q b s :
  (i < BUS_COUNT_MAX)%nat ->
  linked i (gpio_lookup_list s) = true ->
  dev_id <$> gpiod_tables s !! i = Some (Some q) ->
  heap s !! q = Some (Some b) ->
  cleanup_table i s =
  Done tt
    (emit (Kfree (Some q))
       (set_heap (<[q := None]> (heap s))
          (emit (GpiodRemoveLookupTable i)
             (set_gpio_lookup_list (unlink i (gpio_lookup_list s)) s)))).
Proof.
  intros Hi Hl Hid Hq. unfold cleanup_table, bind at 1.
  apply Nat.ltb_lt in Hi. rewrite Hi.
  unfold gpiod_remove_lookup_table. rewrite Hl.
  unfold bind at 1, load_dev_id. cbn.
  destruct (gpiod_tables s !! i) as [tb|]; [|discriminate].
  cbn in Hid. injection Hid as Hid. rewrite Hid.
  unfold kfree. cbn. now rewrite Hq.
Qed.

Lemma table_loop n : forall from s,
  names_ok s ->
  (from + n <= BUS_COUNT_MAX)%nat ->
  match for_loop from n cleanup_table s with
  | Done _ s1 =>
      (forall i, (from <= i < from + n)%nat ->
                 linked i (gpio_lookup_list s) = true) /\
      gpio_lookup_list s1 = unlink_all (seq from n) (gpio_lookup_list s) /\
      platform_bus s1 = platform_bus s /\
      devices s1 = devices s /\
      nr_devices s1 = nr_devices s /\
      gpiod_tables s1 = gpiod_tables s /\
      (forall t q, (from <= t < from + n)%nat ->
         dev_id <$> gpiod_tables s !! t = Some (Some q) ->
         heap s1 !! q = Some None) /\
      (forall p, heap s !! p = Some None -> heap s1 !! p = Some None) /\
      (forall p b, heap s1 !! p = Some (Some b) ->
                   heap s !! p = Some (Some b)) /\
      klog s1 = klog s ++ table_calls (gpiod_tables s) (seq from n)
  | Oops f s1 =>
      exists j, (from <= j < from + n)%nat /\
        f = ListNotLinked j /\
        linked j (gpio_lookup_list s) = false /\
        platform_bus s1 = platform_bus s /\
        (forall p b, heap s1 !! p = Some (Some b) -> heap s !! p = Some (Some b))
  end.
Proof.
  induction n as [|n IH]; intros from s Hnames Hrange.
  - cbn. repeat split; try reflexivity; try tauto;
      try (now rewrite app_nil_r); intros; lia.
  - cbn [for_loop]. unfold bind at 1.
    destruct (linked from (gpio_lookup_list s)) eqn:Hl.
    2:{ rewrite cleanup_table_fault by (try assumption; lia).
        exists from. repeat split; try assumption; try lia.
        intros p b Hp. exact Hp. }
    destruct Hnames as (Hlen & Hname & Hinj).
    destruct (Hname from Hl) as (q & c & Hid & Hq).
    rewrite (cleanup_table_run from q (Bytes c) s) by (try assumption; lia).
    set (s' := emit (Kfree (Some q))
                 (set_heap (<[q := None]> (heap s))
                    (emit (GpiodRemoveLookupTable from)
                       (set_gpio_lookup_list
                          (unlink from (gpio_lookup_list s)) s)))).
    assert (Hlinked' : forall t, linked t (gpio_lookup_list s') = true ->
                       linked t (gpio_lookup_list s) = true /\ t <> from).
    { intros t Ht. subst s'. cbn in Ht. rewrite linked_unlink in Ht.
      apply andb_true_iff in Ht as [Ht Hne].
      apply negb_true_iff, Nat.eqb_neq in Hne. now split. }
    assert (Hnames' : names_ok s').
    { split; [exact Hlen|]. split.
      - intros t Ht. apply Hlinked' in Ht as [Ht Hne].
        destruct (Hname t Ht) as (q' & c' & Hid' & Hq').
        exists q', c'. split; [exact Hid'|]. subst s'. cbn.
        rewrite list_lookup_insert_ne; [exact Hq'|].
        intros ->. apply Hne. symmetry. now apply (Hinj from t q').
      - intros t t' q0 Ht Ht'. apply Hlinked' in Ht as [Ht _].
        apply Hlinked' in Ht' as [Ht' _]. now apply Hinj. }
    specialize (IH (S from) s' Hnames' ltac:(lia)).
    destruct (for_loop (S from) n cleanup_table s') as [[] s1|f s1].
    + destruct IH as (Hall & Hlist & Hbus & Hdev & Hnr & Htab & Hfreed &
                      Hstay & Hlive & Hlog).
      split.
      { intros i Hi. destruct (Nat.eq_dec i from) as [->|Hne]; [exact Hl|].
        apply (Hlinked' i). apply Hall. lia. }
      split; [exact Hlist|].
      repeat split; try assumption.
      * intros t q0 Ht Hid0. destruct (Nat.eq_dec t from) as [->|Hne].
        -- assert (q0 = q) as -> by congruence.
           apply Hstay. subst s'. cbn.
           apply list_lookup_insert_eq. now apply lookup_lt_Some in Hq.
        -- apply (Hfreed t q0); [lia|exact Hid0].
      * intros p Hp. apply Hstay. subst s'. cbn. now apply released_insert.
      * intros p b Hp. apply Hlive in Hp. subst s'. cbn in Hp.
        destruct (Nat.eq_dec q p) as [->|Hne].
        -- rewrite list_lookup_insert_eq in Hp by now apply lookup_lt_Some in Hq.
           discriminate.
        -- now rewrite list_lookup_insert_ne in Hp.
      * rewrite Hlog. subst s'. cbn [seq table_calls flat_map].
        change (klog _) with ((klog s ++ [GpiodRemoveLookupTable from]) ++
                              [Kfree (Some q)]) at 1.
        replace (name_of (gpiod_tables s) from) with (Some q)
          by (unfold name_of; now rewrite Hid).
        rewrite <- !app_assoc. reflexivity.
    + destruct IH as (j & Hj & Hf & Hlj & Hbus & Hlive).
      exists j. split; [lia|]. split; [exact Hf|]. split.
      { subst s'. cbn in Hlj. rewrite linked_unlink in Hlj.
        apply andb_false_iff in Hlj as [Hlj|Hlj]; [exact Hlj|].
        apply negb_false_iff, Nat.eqb_eq in Hlj. lia. }
      split; [exact Hbus|].
      intros p b Hp. apply Hlive in Hp. subst s'. cbn in Hp.
      destruct (Nat.eq_dec q p) as [->|Hne].
      * rewrite list_lookup_insert_eq in Hp by now apply lookup_lt_Some in Hq.
        discriminate.
      * now rewrite list_lookup_insert_ne in Hp.
Qed.

Lemma linked_in_range s t :
  resources_ok s -> linked t (gpio_lookup_list s) = true ->
  (t < BUS_COUNT_MAX)%nat.
Proof.
  intros Hres Ht. destruct (res_name s Hres t Ht) as (q & c & Hid & _).
  rewrite <- (res_tables s Hres).
  destruct (gpiod_tables s !! t) as [tb|] eqn:Htb; [|discriminate].
  now apply lookup_lt_Some in Htb.
Qed.

Lemma installed_at_most_four s :
  resources_ok s -> (length (gpio_lookup_list s) <= BUS_COUNT_MAX)%nat.
Proof.
  intros Hres.
  replace BUS_COUNT_MAX with (length (seq 0 BUS_COUNT_MAX))
    by apply length_seq.
  apply List.NoDup_incl_length.
  - apply NoDup_ListNoDup, (res_list_nodup s Hres).
  - intros t Ht. apply in_seq. split; [lia|]. cbn.
    apply (linked_in_range s t Hres). apply linked_elem.
    now apply list_elem_of_In.
Qed.

(** When the first [length l] tables are all installed and [l] lists
    [length l] distinct tables, [l] lists exactly those. *)
Lemma installed_below (l : list nat) :
  NoDup l ->
  (forall i, (i < length l)%nat -> i ∈ l) ->
  forall t, t ∈ l -> (t < length l)%nat.
Proof.
  intros Hnodup Hall t Ht.
  assert (Hincl : incl l (seq 0 (length l))).
  { apply List.NoDup_length_incl.
    - apply NoDup_ListNoDup, NoDup_seq.
    - now rewrite length_seq.
    - intros i Hi. apply in_seq in Hi. apply list_elem_of_In, Hall. lia. }
  apply list_elem_of_In, Hincl, in_seq in Ht. lia.
Qed.

(** Teardown from a state of the pass: either it runs to its end and
    nothing is left, or it stops at the first table below [nr_devices] that
    is not installed, all devices being released by then. *)
Lemma cleanup_run k s :
  pass_inv k s ->
  resources_ok s ->
  match i2c_gpio_custom_cleanup s with
  | Done _ s' =>
      (forall i, (i < nr_devices s)%nat ->
                 linked i (gpio_lookup_list s) = true) /\
      nothing_left s' /\
      devices s' = devices s /\ nr_devices s' = nr_devices s /\
      klog s' = klog s ++ device_calls (platform_bus s) ++
                table_calls (gpiod_tables s) (seq 0 (nr_devices s))
  | Oops f s' =>
      exists j, (j < nr_devices s)%nat /\
        f = ListNotLinked j /\
        linked j (gpio_lookup_list s) = false /\
        platform_bus s' = [] /\
        (forall p d, heap s' !! p <> Some (Some (Device d)))
  end.
Proof.
  intros Hinv Hres. rewrite cleanup_unfold. unfold bind at 1.
  destruct (device_loop (platform_bus s) 0 s)
    as (s1 & Hrun1 & Hbus1 & Hgone & Hrest & Hdev1 & Hnr1 & Htab1 & Hlist1 &
        Hlog1).
  { intros i p Hi. cbn.
    rewrite <- (lookup_take_lt (devices s) (nr_devices s)).
    - rewrite (inv_devices k s Hinv). now apply list_lookup_fmap_Some_2.
    - rewrite <- (inv_bus k s Hinv). now apply lookup_lt_Some in Hi. }
  { apply (res_bus_nodup s Hres). }
  { apply (res_device s Hres). }
  rewrite (inv_bus k s Hinv) in Hrun1. rewrite Hrun1.
  rewrite unlink_all_self in Hbus1.
  assert (Hbytes : forall q c, heap s !! q = Some (Some (Bytes c)) ->
                               q ∉ platform_bus s).
  { intros q c Hq Hin. destruct (res_device s Hres q Hin) as [d Hd].
    congruence. }
  assert (Hnames1 : names_ok s1).
  { split; [rewrite Htab1; apply (res_tables s Hres)|]. split.
    - intros t Ht. rewrite Hlist1 in Ht.
      destruct (res_name s Hres t Ht) as (q & c & Hid & Hq).
      exists q, c. rewrite Htab1. split; [exact Hid|].
      rewrite Hrest; [exact Hq|]. now apply (Hbytes q c).
    - intros t t' q. rewrite Hlist1, Htab1. apply (res_name_inj s Hres). }
  assert (Hfour : (0 + nr_devices s <= BUS_COUNT_MAX)%nat).
  { rewrite <- (inv_tables k s Hinv). cbn. now apply installed_at_most_four. }
  pose proof (table_loop (nr_devices s) 0 s1 Hnames1 Hfour) as Hloop.
  destruct (for_loop 0 (nr_devices s) cleanup_table s1) as [[] s2|f s2].
  - destruct Hloop as (Hall & Hlist2 & Hbus2 & Hdev2 & Hnr2 & Htab2 &
                       Hfreed & Hstay & Hlive & Hlog2).
    rewrite Hlist1 in Hall, Hlist2.
    assert (Hbelow : forall t, t ∈ gpio_lookup_list s ->
                               (t < nr_devices s)%nat).
    { rewrite <- (inv_tables k s Hinv). apply installed_below.
      - apply (res_list_nodup s Hres).
      - intros i Hi. apply linked_elem, Hall.
        rewrite <- (inv_tables k s Hinv). lia. }
    split; [intros i Hi; apply Hall; lia|]. split.
    + split; [congruence|]. split.
      * rewrite Hlist2. apply elem_of_nil_inv. intros t Ht.
        apply elem_unlink_all in Ht as [Ht Hout]. apply Hout.
        apply list_elem_of_In, in_seq. specialize (Hbelow t Ht). lia.
      * intros p b Hp. pose proof (Hlive p b Hp) as Hp1.
        assert (Hnot : p ∉ platform_bus s).
        { intros Hin. rewrite (Hgone p Hin) in Hp1. discriminate. }
        rewrite (Hrest p Hnot) in Hp1.
        destruct (res_owned s Hres p b Hp1) as [Hin|(t & Ht & Hid)];
          [contradiction|].
        assert (Hfree : heap s2 !! p = Some None).
        { apply (Hfreed t p).
          - apply linked_elem, Hbelow in Ht. lia.
          - now rewrite Htab1. }
        congruence.
    + split; [congruence|]. split; [congruence|].
      rewrite Hlog2, Hlog1, Htab1, app_assoc. reflexivity.
  - destruct Hloop as (j & Hj & Hf & Hlj & Hbus2 & Hlive).
    exists j. split; [lia|]. split; [exact Hf|].
    split; [now rewrite <- Hlist1|]. split; [congruence|].
    intros p d Hp. pose proof (Hlive p _ Hp) as Hp1.
    assert (Hnot : p ∉ platform_bus s).
    { intros Hin. rewrite (Hgone p Hin) in Hp1. discriminate. }
    rewrite (Hrest p Hnot) in Hp1.
    destruct (res_owned s Hres p _ Hp1) as [Hin|(t & Ht & Hid)];
      [contradiction|].
    destruct (res_name s Hres t Ht) as (q & c & Hid' & Hq).
    assert (q = p) as -> by congruence. congruence.
Qed.

(** ** The resources between two steps of the pass *)

Lemma resources_init : resources_ok init_state.
Proof.
  split; cbn.
  - reflexivity.
  - apply NoDup_nil_2.
  - apply NoDup_nil_2.
  - intros p Hp. now apply elem_of_nil in Hp.
  - intros t Ht. discriminate.
  - intros t t' q Ht. discriminate.
  - intros p b Hp. discriminate.
Qed.

Lemma resources_log e s : resources_ok s -> resources_ok (emit e s).
Proof. intros [? ? ? ? ? ? ?]. split; assumption. Qed.

Lemma resources_failed id s s' :
  resources_ok s ->
  linked id (gpio_lookup_list s) = false ->
  left_nothing id s s' ->
  resources_ok s'.
Proof.
  intros Hres Hfresh (Hd & Hn & Hb & Hl & (n & Hle & Hh) & Htl & Htf).
  assert (Hold : forall p x, heap s !! p = Some x -> heap s' !! p = Some x).
  { intros p x Hp. rewrite Hh. now apply lookup_app_l_Some. }
  assert (Hlive : forall p b, heap s' !! p = Some (Some b) ->
                              heap s !! p = Some (Some b)).
  { intros p b Hp. rewrite Hh in Hp.
    apply lookup_app_Some in Hp as [Hp|[_ Hp]]; [exact Hp|].
    apply lookup_replicate in Hp as [Hp _]. discriminate. }
  assert (Hother : forall t, linked t (gpio_lookup_list s) = true ->
                             gpiod_tables s' !! t = gpiod_tables s !! t).
  { intros t Ht. apply Htf. intros ->. congruence. }
  split.
  - rewrite Htl. apply (res_tables s Hres).
  - rewrite Hb. apply (res_bus_nodup s Hres).
  - rewrite Hl. apply (res_list_nodup s Hres).
  - intros p Hp. rewrite Hb in Hp.
    destruct (res_device s Hres p Hp) as [d Hd']. exists d. now apply Hold.
  - intros t Ht. rewrite Hl in Ht.
    destruct (res_name s Hres t Ht) as (q & c & Hid & Hq).
    exists q, c. rewrite (Hother t Ht). split; [exact Hid|now apply Hold].
  - intros t t' q Ht Ht'. rewrite Hl in Ht, Ht'.
    rewrite (Hother t Ht), (Hother t' Ht'). now apply (res_name_inj s Hres).
  - intros p b Hp. apply Hlive in Hp. rewrite Hb, Hl.
    destruct (res_owned s Hres p b Hp) as [Hin|(t & Ht & Hid)];
      [now left|right].
    exists t. split; [exact Ht|]. now rewrite (Hother t Ht).
Qed.

Lemma resources_provisioned k params chip_sda chip_scl s :
  resources_ok s ->
  (k < BUS_COUNT_MAX)%nat ->
  linked k (gpio_lookup_list s) = false ->
  resources_ok
    (registered params (built BUS_NAME_MAX k params chip_sda chip_scl s)).
Proof.
  intros Hres Hk Hfresh.
  set (q := length (heap s)).
  set (text := Some (Bytes (Some (truncate (Z.to_nat BUS_NAME_MAX)
                 (dev_id_text (param params BUS_PARAM_ID)))))).
  set (dv := Some (Device (device_of params (Some (pdata_of params))))).
  assert (Hp : length (heap s ++ [text]) = S q).
  { rewrite length_app. cbn. subst q. lia. }
  assert (Hold : forall p x, heap s !! p = Some x ->
                             ((heap s ++ [text]) ++ [dv]) !! p = Some x).
  { intros p x Hx. now apply lookup_app_l_Some, lookup_app_l_Some. }
  assert (Hnew : forall p b, ((heap s ++ [text]) ++ [dv]) !! p = Some (Some b) ->
            heap s !! p = Some (Some b) \/
            (p = q /\ Some b = text) \/ (p = S q /\ Some b = dv)).
  { intros p b Hb.
    apply lookup_app_Some in Hb as [Hb|[Hge Hb]].
    - apply lookup_app_Some in Hb as [Hb|[Hge Hb]]; [now left|].
      right; left. apply list_lookup_singleton_Some in Hb as [Hz Hb].
      split; [subst q; lia|now symmetry].
    - right; right. apply list_lookup_singleton_Some in Hb as [Hz Hb].
      split; [lia|now symmetry]. }
  assert (Hk_not : k ∉ gpio_lookup_list s) by now apply linked_not_elem.
  assert (Hother : forall t, t <> k ->
    alter (with_dev_id (Some q)) k
      (alter (with_lookup 1 (label chip_scl)
                (to_uint (param params BUS_PARAM_SCL - base chip_scl))) k
         (alter (with_lookup 0 (label chip_sda)
                   (to_uint (param params BUS_PARAM_SDA - base chip_sda))) k
            (gpiod_tables s))) !! t = gpiod_tables s !! t).
  { intros t Ht. now rewrite !list_lookup_alter_ne by congruence. }
  assert (Hown : dev_id <$>
    alter (with_dev_id (Some q)) k
      (alter (with_lookup 1 (label chip_scl)
                (to_uint (param params BUS_PARAM_SCL - base chip_scl))) k
         (alter (with_lookup 0 (label chip_sda)
                   (to_uint (param params BUS_PARAM_SDA - base chip_sda))) k
            (gpiod_tables s))) !! k = Some (Some q)).
  { rewrite !list_lookup_alter_eq.
    destruct (lookup_lt_is_Some_2 (gpiod_tables s) k) as [tb Htb].
    - rewrite (res_tables s Hres). exact Hk.
    - rewrite Htb. reflexivity. }
  assert (Holdname : forall t q', linked t (gpio_lookup_list s) = true ->
            dev_id <$> gpiod_tables s !! t = Some (Some q') -> q' <> q).
  { intros t q' Ht Hid.
    destruct (res_name s Hres t Ht) as (q0 & c & Hid0 & Hq0).
    assert (q0 = q') as -> by congruence.
    apply lookup_lt_Some in Hq0. subst q. lia. }
  assert (Hlinked : forall t, linked t (gpio_lookup_list s ++ [k]) = true ->
            linked t (gpio_lookup_list s) = true /\ t <> k \/ t = k).
  { intros t Ht. apply linked_elem, elem_of_app in Ht as [Ht|Ht].
    - left. split; [now apply linked_elem|]. intros ->. contradiction.
    - right. now apply list_elem_of_singleton in Ht. }
  split; cbn; fold q text dv; rewrite ?Hp.
  - rewrite !length_alter. apply (res_tables s Hres).
  - apply NoDup_app. split; [apply (res_bus_nodup s Hres)|]. split.
    + intros p Hin Hp'. apply list_elem_of_singleton in Hp'. subst p.
      destruct (res_device s Hres _ Hin) as [d Hd].
      apply lookup_lt_Some in Hd. subst q. lia.
    + apply NoDup_singleton.
  - apply NoDup_app. split; [apply (res_list_nodup s Hres)|]. split.
    + intros t Hin Ht. apply list_elem_of_singleton in Ht. now subst t.
    + apply NoDup_singleton.
  - intros p Hin. apply elem_of_app in Hin as [Hin|Hin].
    + destruct (res_device s Hres p Hin) as [d Hd]. exists d. now apply Hold.
    + apply list_elem_of_singleton in Hin. subst p.
      eexists. rewrite <- Hp. apply list_lookup_middle. reflexivity.
  - intros t Ht. apply Hlinked in Ht as [[Ht Hne]| ->].
    + destruct (res_name s Hres t Ht) as (q' & c & Hid & Hq').
      exists q', c. rewrite (Hother t Hne). split; [exact Hid|now apply Hold].
    + eexists q, _. split; [exact Hown|].
      apply lookup_app_l_Some. subst q. apply list_lookup_middle. reflexivity.
  - intros t t' q0 Ht Ht' Hid Hid'.
    apply Hlinked in Ht as [[Ht Hne]| ->];
      apply Hlinked in Ht' as [[Ht' Hne']| ->]; try reflexivity.
    + rewrite (Hother t Hne) in Hid. rewrite (Hother t' Hne') in Hid'.
      now apply (res_name_inj s Hres t t' q0).
    + rewrite (Hother t Hne) in Hid. rewrite Hown in Hid'.
      injection Hid' as <-. exfalso. now apply (Holdname t q Ht Hid).
    + rewrite (Hother t' Hne') in Hid'. rewrite Hown in Hid.
      injection Hid as <-. exfalso. now apply (Holdname t' q Ht' Hid').
  - intros p b Hb. apply Hnew in Hb as [Hb|[[-> Hb]|[-> Hb]]].
    + destruct (res_owned s Hres p b Hb) as [Hin|(t & Ht & Hid)].
      * left. apply elem_of_app. now left.
      * right. exists t. assert (t <> k) by (intros ->; congruence).
        split; [|now rewrite Hother].
        rewrite linked_app, Ht. reflexivity.
    + right. exists k. split; [apply linked_self|exact Hown].
    + left. apply elem_of_app. right. now apply list_elem_of_singleton.
Qed.

(** ** The pass over the slots *)

Ltac conj := repeat match goal with |- _ /\ _ => split end.

Lemma released_not_live n :
  List.filter is_live_device (replicate n None) = [].
Proof. induction n as [|n IH]; [reflexivity|exact IH]. Qed.

Lemma left_nothing_same id s s' : left_nothing id s s' -> same_installed s s'.
Proof.
  intros (Hd & Hn & Hb & Hl & (n & _ & Hh) & _).
  unfold same_installed. conj; try assumption.
  unfold live_devices. rewrite Hh, List.filter_app, released_not_live.
  now rewrite app_nil_r.
Qed.

Lemma pass_inv_same k s s' :
  pass_inv k s -> same_installed s s' -> pass_inv k s'.
Proof.
  intros [Hroom Hslots Hbus Hlive Htab Hdev Hfresh] (Hd & Hn & Hb & Hl & Hv).
  split; rewrite ?Hd, ?Hn, ?Hb, ?Hl, ?Hv; assumption.
Qed.

Lemma filter_seq_S (f : nat -> bool) k :
  List.filter f (seq 0 (S k)) =
  List.filter f (seq 0 k) ++ (if f k then [k] else []).
Proof.
  rewrite seq_S, List.filter_app. cbn. now destruct (f k).
Qed.

Lemma configured_true P k :
  configured P k = true <-> nth k (bus_nump P) 0 <> 0.
Proof.
  unfold configured. rewrite negb_true_iff. apply Z.eqb_neq.
Qed.

Lemma configured_false P k :
  configured P k = false <-> nth k (bus_nump P) 0 = 0.
Proof.
  unfold configured. rewrite negb_false_iff. apply Z.eqb_eq.
Qed.

(** The pass from slot [k] on: it returns 0 with every slot handled, or the
    error of the first slot [j] that fails, with the slots below [j]
    handled and nothing of slot [j] left; it faults only where [kmalloc]
    fails. *)
Lemma pass_from_run K P n : forall k s,
  (k + n <= BUS_COUNT_MAX)%nat ->
  pass_inv k s -> resources_ok s -> installed_exactly P k s ->
  match pass_from K P k n s with
  | Done err s' =>
      exists j, pass_inv j s' /\ resources_ok s' /\ installed_exactly P j s' /\
        (forall i, (k <= i < j)%nat -> configured P i = true ->
                   slot_usable K P i) /\
        ((err = 0 /\ j = (k + n)%nat) \/
         (err <> 0 /\ (k <= j < k + n)%nat /\ configured P j = true /\
          add_one_error K j err))
  | Oops f s' =>
      f = NullDeref /\
      exists j, (k <= j < k + n)%nat /\ configured P j = true /\
                kmalloc_ok K j = false
  end.
Proof.
  induction n as [|n IH]; intros k s Hkn Hinv Hres Hinst.
  { cbn. exists k. conj; try assumption.
    - intros i Hi. lia.
    - left. split; [reflexivity|lia]. }
  assert (Hk : (k < BUS_COUNT_MAX)%nat) by lia.
  assert (Hfresh : linked k (gpio_lookup_list s) = false)
    by (apply (inv_fresh k s Hinv); lia).
  pose proof (add_one_ends K P k (slot_params P k) s Hk Hfresh) as Hend.
  cbn [pass_from]. unfold bind.
  remember (i2c_gpio_custom_add_one K P k (slot_params P k) s) as r eqn:Hr.
  clear Hr.
  destruct Hend as [H0|err s' Herr Hn0 Hcode Hleft|c1 c2 Hreq Hc1 Hc2 Hroom
                    |s' Hn0 Hmem|s' Hfull].
  - (* skipped *)
    change (negb (0 =? 0)) with false. cbv iota.
    assert (Hc : configured P k = false) by now apply configured_false.
    specialize (IH (S k) s ltac:(lia)
                  (pass_inv_next k s s Hinv (same_installed_refl s)) Hres).
    assert (Hinst' : installed_exactly P (S k) s).
    { unfold installed_exactly in *. rewrite filter_seq_S, Hc, app_nil_r.
      exact Hinst. }
    specialize (IH Hinst').
    destruct (pass_from K P (S k) n s) as [err s'|f s'].
    + destruct IH as (j & Hi & Hr & Hx & Hus & Hcase).
      exists j. conj; try assumption.
      * intros i Hi' Hci. destruct (Nat.eq_dec i k) as [->|Hne].
        -- congruence.
        -- apply Hus; [lia|exact Hci].
      * destruct Hcase as [[-> ->]|(He & Hj & Hcj & Hcode)].
        -- left. split; [reflexivity|lia].
        -- right. conj; try assumption; lia.
    + destruct IH as (-> & j & Hj & Hcj & Hm).
      split; [reflexivity|]. exists j. conj; try assumption; lia.
  - (* failed *)
    replace (negb (err =? 0)) with true
      by (symmetry; apply negb_true_iff, Z.eqb_neq; exact Herr).
    cbv beta iota delta [ret]. exists k. conj.
    + apply (pass_inv_same k s s' Hinv), (left_nothing_same k), Hleft.
    + apply (resources_failed k s s' Hres Hfresh Hleft).
    + unfold installed_exactly in *.
      destruct Hleft as (_ & _ & _ & Hl & _). now rewrite Hl.
    + intros i Hi. lia.
    + right. conj; try assumption; try lia.
      now apply configured_true.
  - (* provisioned *)
    change (negb (0 =? 0)) with false. cbv iota.
    assert (Hc : configured P k = true).
    { apply configured_true. unfold BUS_PARAM_REQUIRED in Hreq. lia. }
    remember (registered (slot_params P k)
                (built BUS_NAME_MAX k (slot_params P k) c1 c2 s)) as s1 eqn:Hs1.
    assert (Hinv1 : pass_inv (S k) s1)
      by (subst s1; now apply pass_inv_provisioned).
    assert (Hres1 : resources_ok s1)
      by (subst s1; now apply resources_provisioned).
    assert (Hinst1 : installed_exactly P (S k) s1).
    { unfold installed_exactly in *. rewrite filter_seq_S, Hc, <- Hinst.
      subst s1. reflexivity. }
    specialize (IH (S k) s1 ltac:(lia) Hinv1 Hres1 Hinst1).
    destruct (pass_from K P (S k) n s1) as [err s'|f s'].
    + destruct IH as (j & Hi & Hr & Hx & Hus & Hcase).
      exists j. conj; try assumption.
      * intros i Hi' Hci. destruct (Nat.eq_dec i k) as [->|Hne].
        -- unfold slot_usable. conj; [exact Hreq|now exists c1|now exists c2].
        -- apply Hus; [lia|exact Hci].
      * destruct Hcase as [[-> ->]|(He & Hj & Hcj & Hcode)].
        -- left. split; [reflexivity|lia].
        -- right. conj; try assumption; lia.
    + destruct IH as (-> & j & Hj & Hcj & Hm).
      split; [reflexivity|]. exists j. conj; try assumption; lia.
  - (* kmalloc failed *)
    split; [reflexivity|]. exists k. conj; try assumption; try lia.
    now apply configured_true.
  - (* no room: excluded *)
    exfalso. rewrite (inv_slots k s Hinv) in Hfull.
    pose proof (inv_room k s Hinv). lia.
Qed.

(** ** The whole of [i2c_gpio_custom_probe] *)

(** The four calls of [i2c_gpio_custom_probe] are the pass over the slots
    0 to 3. *)
Lemma probe_unrolls K P s :
  i2c_gpio_custom_probe K P s =
  (printk MsgVersion ;;;
   err <- pass_from K P 0 BUS_COUNT_MAX ;;
   if negb (err =? 0) then probe_err err else
   n <- gets nr_devices ;;
   if (n =? 0)%nat then printk MsgNoBusParameters ;;; probe_err (- ENODEV)
   else ret 0) s.
Proof.
  unfold i2c_gpio_custom_probe. change BUS_COUNT_MAX with 4%nat.
  cbn [pass_from].
  change (slot_params P 0) with (bus0 P). change (slot_params P 1) with (bus1 P).
  change (slot_params P 2) with (bus2 P). change (slot_params P 3) with (bus3 P).
  unfold bind, printk, modify, ret. cbv beta iota.
  repeat match goal with
  | |- context [i2c_gpio_custom_add_one K P ?k ?p ?s0] =>
      let e := fresh "e" in
      destruct (i2c_gpio_custom_add_one K P k p s0) as [e ?|? ?];
      [let He := fresh "He" in
       destruct (negb (e =? 0)) eqn:He; cbv beta iota; rewrite ?He|];
      try reflexivity
  end.
Qed.

Lemma filter_all {A} (f : A -> bool) (l : list A) :
  (forall x, In x l -> f x = true) -> List.filter f l = l.
Proof.
  induction l as [|a l IH]; intros Hall; [reflexivity|].
  cbn. rewrite (Hall a) by now left.
  f_equal. apply IH. intros x Hx. apply Hall. now right.
Qed.

(** When the configured slots come first, the installed tables are those of
    the slots 0, 1, ... without a gap. *)
Lemma prefix_filter P k :
  prefix_config P -> (k <= BUS_COUNT_MAX)%nat ->
  List.filter (configured P) (seq 0 k) =
  seq 0 (length (List.filter (configured P) (seq 0 k))).
Proof.
  intros Hpre. induction k as [|k IH]; intros Hk; [reflexivity|].
  rewrite filter_seq_S. destruct (configured P k) eqn:Hc.
  - rewrite (filter_all (configured P) (seq 0 k)).
    + rewrite length_app, length_seq. cbn [length].
      replace (k + 1)%nat with (S k) by lia. now rewrite seq_S.
    + intros i Hi. apply in_seq in Hi. apply (Hpre i k); [lia|lia|exact Hc].
  - rewrite app_nil_r. apply IH. lia.
Qed.

Lemma linked_filter P j t :
  linked t (List.filter (configured P) (seq 0 j)) = true <->
  (t < j)%nat /\ configured P t = true.
Proof.
  rewrite linked_elem, list_elem_of_In, List.filter_In, in_seq.
  split; intros [H1 H2]; (split; [lia|exact H2]).
Qed.

(** A table below the number of installed tables that is not installed
    itself: a configured slot comes after it. *)
Lemma gap_found P j t :
  (t < length (List.filter (configured P) (seq 0 j)))%nat ->
  configured P t = false ->
  exists i, (t < i < j)%nat /\ configured P i = true.
Proof.
  intros Hlen Hc.
  assert (Htj : (t <= j)%nat).
  { pose proof (List.filter_length_le (configured P) (seq 0 j)) as Hle.
    rewrite length_seq in Hle. lia. }
  replace j with (t + (j - t))%nat in Hlen by lia.
  rewrite seq_app, List.filter_app, length_app in Hlen.
  pose proof (List.filter_length_le (configured P) (seq 0 t)) as Hle.
  rewrite length_seq in Hle.
  destruct (List.filter (configured P) (seq (0 + t) (j - t)))
    as [|i l] eqn:Hl; [cbn in Hlen; lia|].
  assert (Hi : In i (List.filter (configured P) (seq (0 + t) (j - t))))
    by (rewrite Hl; now left).
  apply List.filter_In in Hi as [Hi Hci]. apply in_seq in Hi.
  exists i. split; [|exact Hci].
  assert (i <> t) by (intros ->; congruence). lia.
Qed.

(** The [err:] label of [i2c_gpio_custom_probe], reached from a state of
    the pass: teardown leaves nothing and the error is returned, or
    teardown stops at a table that is not installed. *)
Lemma probe_err_run P j err s :
  pass_inv j s -> resources_ok s -> installed_exactly P j s ->
  match probe_err err s with
  | Done e s' =>
      e = err /\ nothing_left s' /\
      devices s' = devices s /\ nr_devices s' = nr_devices s
  | Oops f s' =>
      exists t i, f = ListNotLinked t /\ (t < i < j)%nat /\
        configured P t = false /\ configured P i = true /\
        platform_bus s' = [] /\
        (forall p d, heap s' !! p <> Some (Some (Device d)))
  end.
Proof.
  intros Hinv Hres Hinst. unfold probe_err, bind.
  pose proof (cleanup_run j s Hinv Hres) as Hrun.
  destruct (i2c_gpio_custom_cleanup s) as [[] s'|f s'].
  - destruct Hrun as (_ & Hnone & Hd & Hn & _). cbn. now conj.
  - destruct Hrun as (t & Ht & -> & Hnot & Hbus & Hdev).
    unfold installed_exactly in Hinst.
    assert (Hlen : (t < length (List.filter (configured P) (seq 0 j)))%nat).
    { rewrite <- Hinst, (inv_tables j s Hinv). exact Ht. }
    assert (Hc : configured P t = false).
    { destruct (configured P t) eqn:Hc; [|reflexivity].
      rewrite Hinst in Hnot.
      assert (linked t (List.filter (configured P) (seq 0 j)) = true).
      { apply linked_filter. split; [|exact Hc].
        pose proof (inv_room j s Hinv). lia. }
      congruence. }
    destruct (gap_found P j t Hlen Hc) as (i & Hi & Hci).
    exists t, i. now conj.
Qed.

(** Every run of [i2c_gpio_custom_probe] at module load. *)
Lemma probe_run K P :
  match i2c_gpio_custom_probe K P init_state with
  | Done err s' =>
      (err = 0 /\ pass_inv BUS_COUNT_MAX s' /\ resources_ok s' /\
       installed_exactly P BUS_COUNT_MAX s' /\ nr_devices s' <> 0%nat /\
       (forall i, (i < BUS_COUNT_MAX)%nat -> configured P i = true ->
                  slot_usable K P i))
      \/
      (err <> 0 /\ nothing_left s' /\
       ((err = - ENODEV /\
         forall i, (i < BUS_COUNT_MAX)%nat -> configured P i = false) \/
        (exists j, (j < BUS_COUNT_MAX)%nat /\ configured P j = true /\
           add_one_error K j err /\
           forall i, (i < j)%nat -> configured P i = true ->
                     slot_usable K P i)))
  | Oops f s' =>
      (f = NullDeref /\
       exists j, (j < BUS_COUNT_MAX)%nat /\ configured P j = true /\
                 kmalloc_ok K j = false)
      \/
      (exists t i, f = ListNotLinked t /\ (t < i < BUS_COUNT_MAX)%nat /\
         configured P t = false /\ configured P i = true /\
         platform_bus s' = [] /\
         (forall p d, heap s' !! p <> Some (Some (Device d))))
  end.
Proof.
  rewrite probe_unrolls. unfold bind at 1.
  change (printk MsgVersion init_state)
    with (Done tt (emit (Printk MsgVersion) init_state)).
  cbv beta iota.
  remember (emit (Printk MsgVersion) init_state) as s0 eqn:Hs0.
  assert (Hinv0 : pass_inv 0 s0)
    by (subst s0; apply pass_inv_log, pass_inv_init).
  assert (Hres0 : resources_ok s0)
    by (subst s0; apply resources_log, resources_init).
  assert (Hinst0 : installed_exactly P 0 s0) by (subst s0; reflexivity).
  clear Hs0.
  pose proof (pass_from_run K P BUS_COUNT_MAX 0 s0 ltac:(cbn; lia)
                Hinv0 Hres0 Hinst0) as Hpass.
  unfold bind at 1.
  destruct (pass_from K P 0 BUS_COUNT_MAX s0) as [err s1|f s1].
  2:{ destruct Hpass as (-> & j & Hj & Hcj & Hm). left.
      split; [reflexivity|]. exists j. change BUS_COUNT_MAX with 4%nat in *.
      conj; try assumption. lia. }
  destruct Hpass as (j & Hinv & Hres & Hinst & Hus &
                     [[-> ->]|(He & Hj & Hcj & Hcode)]).
  - change (negb (0 =? 0)) with false. cbv iota.
    change (0 + BUS_COUNT_MAX)%nat with BUS_COUNT_MAX in *.
    unfold bind at 1, gets. cbv beta iota.
    destruct (nr_devices s1 =? 0)%nat eqn:Hnr.
    + apply Nat.eqb_eq in Hnr. unfold bind at 1.
      change (printk MsgNoBusParameters s1)
        with (Done tt (emit (Printk MsgNoBusParameters) s1)).
      cbv beta iota.
      pose proof (probe_err_run P BUS_COUNT_MAX (- ENODEV)
                    (emit (Printk MsgNoBusParameters) s1)
                    (pass_inv_log _ _ _ Hinv) (resources_log _ _ Hres) Hinst)
        as Herr.
      destruct (probe_err (- ENODEV) (emit (Printk MsgNoBusParameters) s1))
        as [e s'|f s'].
      * destruct Herr as (-> & Hnone & _). right.
        split; [unfold ENODEV; lia|]. split; [exact Hnone|]. left.
        split; [reflexivity|]. intros i Hi.
        destruct (configured P i) eqn:Hc; [|reflexivity]. exfalso.
        assert (Hl : linked i (gpio_lookup_list s1) = true).
        { rewrite Hinst. apply linked_filter. now split. }
        pose proof (inv_tables _ _ Hinv) as Hlen. rewrite Hnr in Hlen.
        destruct (gpio_lookup_list s1); [discriminate Hl|discriminate Hlen].
      * destruct Herr as (t & i & -> & Hti & Hct & Hci & Hbus & Hdev).
        right. exists t, i. now conj.
    + apply Nat.eqb_neq in Hnr. left. unfold ret. conj; try assumption.
      * reflexivity.
      * intros i Hi. apply Hus. lia.
  - replace (negb (err =? 0)) with true
      by (symmetry; apply negb_true_iff, Z.eqb_neq; exact He).
    pose proof (probe_err_run P j err s1 Hinv Hres Hinst) as Herr.
    destruct (probe_err err s1) as [e s'|f s'].
    + destruct Herr as (-> & Hnone & _). right.
      split; [exact He|]. split; [exact Hnone|]. right.
      exists j. conj; try assumption.
      * change BUS_COUNT_MAX with 4%nat in *. lia.
      * intros i Hi. apply Hus. lia.
    + destruct Herr as (t & i & -> & Hti & Hct & Hci & Hbus & Hdev).
      right. exists t, i. change BUS_COUNT_MAX with 4%nat in *.
      conj; try assumption; try reflexivity; lia.
Qed.

Lemma installed_count P s :
  pass_inv BUS_COUNT_MAX s -> installed_exactly P BUS_COUNT_MAX s ->
  nr_devices s = configured_count P.
Proof.
  intros Hinv Hinst. unfold configured_count.
  now rewrite <- Hinst, (inv_tables _ _ Hinv).
Qed.

(** When every slot below the number of configured slots is configured,
    the configured slots come first. *)
Lemma no_gap_prefix P :
  (forall i,
     (i < length (List.filter (configured P) (seq 0 BUS_COUNT_MAX)))%nat ->
     configured P i = true) ->
  prefix_config P.
Proof.
  intros Hall i j Hij Hj Hcj.
  pose proof (List.filter_length_le (configured P) (seq 0 BUS_COUNT_MAX))
    as Hle.
  rewrite length_seq in Hle.
  apply Hall.
  assert (Hin : j ∈ List.filter (configured P) (seq 0 BUS_COUNT_MAX)).
  { apply linked_elem, linked_filter. now split. }
  apply installed_below in Hin; [lia| |].
  - apply NoDup_ListNoDup, List.NoDup_filter, List.seq_NoDup.
  - intros t Ht. apply linked_elem, linked_filter. split; [lia|].
    now apply Hall.
Qed.

Lemma two_buses_prefix : prefix_config two_buses.
Proof.
  intros i j Hij Hj Hc. change BUS_COUNT_MAX with 4%nat in Hj.
  assert (Hcases : j = 0%nat \/ j = 1%nat \/ j = 2%nat \/ j = 3%nat) by lia.
  destruct Hcases as [-> | [-> | [-> | ->]]]; try discriminate Hc.
  - assert (i = 0%nat) as -> by lia. reflexivity.
  - assert (Hi : i = 0%nat \/ i = 1%nat) by lia.
    destruct Hi as [->| ->]; reflexivity.
Qed.

(** X5.  When [i2c_gpio_custom_probe] returns 0 at module load, whatever the
    kernel answered: the installed lookup tables are exactly those of the
    configured slots, in slot order; at least one slot is configured;
    [nr_devices] and the number of devices on the platform bus are the
    number of configured slots; the first [nr_devices] entries of [devices]
    are the devices on the bus in the order of registration; and every
    configured slot had its required fields and a chip for both lines. *)
Theorem probe_success_installs K P s' :
  i2c_gpio_custom_probe K P init_state = Done 0 s' ->
  gpio_lookup_list s' = List.filter (configured P) (seq 0 BUS_COUNT_MAX) /\
  (0 < configured_count P)%nat /\
  nr_devices s' = configured_count P /\
  length (platform_bus s') = configured_count P /\
  take (nr_devices s') (devices s') = Some <$> platform_bus s' /\
  (forall i, (i < BUS_COUNT_MAX)%nat -> configured P i = true ->
     BUS_PARAM_REQUIRED <= nth i (bus_nump P) 0 /\
     is_Some (chip_of_gpio K (param (slot_params P i) BUS_PARAM_SDA)) /\
     is_Some (chip_of_gpio K (param (slot_params P i) BUS_PARAM_SCL))).
Proof.
  intros Hrun. pose proof (probe_run K P) as H. rewrite Hrun in H.
  destruct H as [(_ & Hinv & Hres & Hinst & Hnr & Hus)|(He & _)];
    [|congruence].
  pose proof (installed_count P s' Hinv Hinst) as Hcount.
  conj.
  - exact Hinst.
  - lia.
  - exact Hcount.
  - now rewrite (inv_bus _ _ Hinv).
  - apply (inv_devices _ _ Hinv).
  - exact Hus.
Qed.

Lemma probe_success_installs_witness :
  exists s',
    i2c_gpio_custom_probe friendly two_buses init_state = Done 0 s' /\
    gpio_lookup_list s' = [0; 1]%nat /\
    nr_devices s' = 2%nat /\
    length (platform_bus s') = 2%nat.
Proof.
  pose (s' := final (i2c_gpio_custom_probe friendly two_buses init_state)).
  assert (Hrun : i2c_gpio_custom_probe friendly two_buses init_state =
                 Done 0 s') by (vm_compute; reflexivity).
  destruct (probe_success_installs friendly two_buses s' Hrun)
    as (Hl & _ & Hn & Hb & _).
  exists s'. split; [exact Hrun|]. split; [exact Hl|]. split; [exact Hn|].
  exact Hb.
Defined.

(** X6.  The memory after a successful [i2c_gpio_custom_probe]: every device
    on the platform bus is a live device block, no device is there twice;
    the table of every configured slot carries a live identity string of its
    own (no string is shared by two slots); and every live block is one of
    these, so nothing else stays allocated. *)
Theorem probe_success_memory K P s' :
  i2c_gpio_custom_probe K P init_state = Done 0 s' ->
  NoDup (platform_bus s') /\
  (forall p, p ∈ platform_bus s' ->
     exists d, heap s' !! p = Some (Some (Device d))) /\
  (forall t, (t < BUS_COUNT_MAX)%nat -> configured P t = true ->
     exists q c, dev_id <$> gpiod_tables s' !! t = Some (Some q) /\
                 heap s' !! q = Some (Some (Bytes c))) /\
  (forall t t' q,
     (t < BUS_COUNT_MAX)%nat -> configured P t = true ->
     (t' < BUS_COUNT_MAX)%nat -> configured P t' = true ->
     dev_id <$> gpiod_tables s' !! t = Some (Some q) ->
     dev_id <$> gpiod_tables s' !! t' = Some (Some q) -> t = t') /\
  (forall p b, heap s' !! p = Some (Some b) ->
     p ∈ platform_bus s' \/
     exists t, (t < BUS_COUNT_MAX)%nat /\ configured P t = true /\
               dev_id <$> gpiod_tables s' !! t = Some (Some p)).
Proof.
  intros Hrun. pose proof (probe_run K P) as H. rewrite Hrun in H.
  destruct H as [(_ & Hinv & Hres & Hinst & Hnr & Hus)|(He & _)];
    [|congruence].
  assert (Hlinked : forall t, linked t (gpio_lookup_list s') = true <->
                      (t < BUS_COUNT_MAX)%nat /\ configured P t = true).
  { intros t. rewrite Hinst. apply linked_filter. }
  conj.
  - apply (res_bus_nodup _ Hres).
  - apply (res_device _ Hres).
  - intros t Ht Hc. apply (res_name _ Hres), Hlinked. now split.
  - intros t t' q Ht Hc Ht' Hc'.
    apply (res_name_inj _ Hres); apply Hlinked; now split.
  - intros p b Hp.
    destruct (res_owned _ Hres p b Hp) as [Hin|(t & Ht & Hid)];
      [now left|right].
    apply Hlinked in Ht as [Ht Hc]. now exists t.
Qed.

Lemma probe_success_memory_witness :
  exists s',
    i2c_gpio_custom_probe friendly two_buses init_state = Done 0 s' /\
    NoDup (platform_bus s') /\
    forall p b, heap s' !! p = Some (Some b) ->
      p ∈ platform_bus s' \/
      exists t, (t < BUS_COUNT_MAX)%nat /\ configured two_buses t = true /\
                dev_id <$> gpiod_tables s' !! t = Some (Some p).
Proof.
  pose (s' := final (i2c_gpio_custom_probe friendly two_buses init_state)).
  assert (Hrun : i2c_gpio_custom_probe friendly two_buses init_state =
                 Done 0 s') by (vm_compute; reflexivity).
  destruct (probe_success_memory friendly two_buses s' Hrun)
    as (Hnd & _ & _ & _ & Hown).
  exists s'. split; [exact Hrun|]. split; [exact Hnd|exact Hown].
Defined.

(** X7.  When [i2c_gpio_custom_probe] returns an error at module load,
    nothing is left: no device on the platform bus, no table on the lookup
    list, no block allocated.  The error is [-ENODEV] with no slot
    configured, or it is the error of the first configured slot that failed
    ([-EINVAL], [-ENOMEM] or the kernel's code for
    [platform_device_add_data] or [platform_device_add]), the configured
    slots before it having been provisioned. *)
Theorem probe_error_leaves_nothing K P err s' :
  i2c_gpio_custom_probe K P init_state = Done err s' ->
  err <> 0 ->
  platform_bus s' = [] /\
  gpio_lookup_list s' = [] /\
  (forall p b, heap s' !! p <> Some (Some b)) /\
  ((err = - ENODEV /\
    forall i, (i < BUS_COUNT_MAX)%nat -> nth i (bus_nump P) 0 = 0) \/
   (exists j, (j < BUS_COUNT_MAX)%nat /\ nth j (bus_nump P) 0 <> 0 /\
      (err = - EINVAL \/ err = - ENOMEM \/
       err = add_data_rc K j \/ err = add_rc K j) /\
      forall i, (i < j)%nat -> configured P i = true ->
        BUS_PARAM_REQUIRED <= nth i (bus_nump P) 0 /\
        is_Some (chip_of_gpio K (param (slot_params P i) BUS_PARAM_SDA)) /\
        is_Some (chip_of_gpio K (param (slot_params P i) BUS_PARAM_SCL)))).
Proof.
  intros Hrun Herr. pose proof (probe_run K P) as H. rewrite Hrun in H.
  destruct H as [(He & _)|(_ & (Hbus & Hlist & Hheap) & Hcase)];
    [congruence|].
  conj; try assumption.
  destruct Hcase as [[-> Hnone]|(j & Hj & Hcj & Hcode & Hus)].
  - left. split; [reflexivity|]. intros i Hi.
    now apply configured_false, Hnone.
  - right. exists j. conj; try assumption. now apply configured_true.
Qed.

Lemma probe_error_leaves_nothing_witness :
  exists s',
    i2c_gpio_custom_probe rejects_bus1 two_buses init_state = Done (-17) s' /\
    platform_bus s' = [] /\
    gpio_lookup_list s' = [] /\
    (forall p b, heap s' !! p <> Some (Some b)).
Proof.
  pose (s' := final (i2c_gpio_custom_probe rejects_bus1 two_buses
                       init_state)).
  assert (Hrun : i2c_gpio_custom_probe rejects_bus1 two_buses init_state =
                 Done (-17) s') by (vm_compute; reflexivity).
  destruct (probe_error_leaves_nothing rejects_bus1 two_buses (-17) s' Hrun
              ltac:(lia)) as (Hb & Hl & Hh & _).
  exists s'. split; [exact Hrun|]. split; [exact Hb|]. split; [exact Hl|].
  exact Hh.
Defined.

(** X8.  The only ways [i2c_gpio_custom_probe] can go wrong at module load:
    [kmalloc] fails for a configured slot and [snprintf] writes through the
    [NULL] pointer; or a slot fails (or none registered a device) and
    teardown removes the table of a slot [t] that was left out while a later
    slot was configured, which is a [list_del] of a node that is on no list.
    In the second case all devices are off the platform bus and released by
    then.  It never stores behind the end of [devices], uses a released
    block or frees a block twice. *)
Theorem probe_faults K P f s' :
  i2c_gpio_custom_probe K P init_state = Oops f s' ->
  (f = NullDeref /\
   exists j, (j < BUS_COUNT_MAX)%nat /\ nth j (bus_nump P) 0 <> 0 /\
             kmalloc_ok K j = false)
  \/
  (exists t i, f = ListNotLinked t /\ (t < i < BUS_COUNT_MAX)%nat /\
     nth t (bus_nump P) 0 = 0 /\ nth i (bus_nump P) 0 <> 0 /\
     platform_bus s' = [] /\
     (forall p d, heap s' !! p <> Some (Some (Device d)))).
Proof.
  intros Hrun. pose proof (probe_run K P) as H. rewrite Hrun in H.
  destruct H as [(-> & j & Hj & Hcj & Hm)
                |(t & i & -> & Hti & Hct & Hci & Hbus & Hdev)].
  - left. split; [reflexivity|]. exists j. conj; try assumption.
    now apply configured_true.
  - right. exists t, i. conj; try assumption; try reflexivity; try lia.
    + now apply configured_false.
    + now apply configured_true.
Qed.

Lemma probe_faults_witness :
  exists s' t i,
    i2c_gpio_custom_probe friendly bus1_then_short init_state =
    Oops (ListNotLinked t) s' /\
    (t < i < BUS_COUNT_MAX)%nat /\
    nth t (bus_nump bus1_then_short) 0 = 0 /\
    nth i (bus_nump bus1_then_short) 0 <> 0 /\
    platform_bus s' = [].
Proof.
  pose (s' := final (i2c_gpio_custom_probe friendly bus1_then_short
                       init_state)).
  assert (Hrun : i2c_gpio_custom_probe friendly bus1_then_short init_state =
                 Oops (ListNotLinked 0) s') by (vm_compute; reflexivity).
  destruct (probe_faults friendly bus1_then_short (ListNotLinked 0) s' Hrun)
    as [(Hf & _)|(t & i & Hf & Hti & Ht & Hi & Hb & _)];
    [discriminate Hf|].
  exists s', t, i. injection Hf as <-.
  split; [exact Hrun|]. split; [exact Hti|]. split; [exact Ht|].
  split; [exact Hi|exact Hb].
Defined.

(** X9.  With the configured slots first (no slot left out before a
    configured one) and [kmalloc] never failing for a configured slot,
    [i2c_gpio_custom_probe] always returns at module load: whatever else
    the kernel refuses, the result is 0 or an error code, never a fault. *)
Theorem probe_returns K P :
  prefix_config P ->
  (forall j, (j < BUS_COUNT_MAX)%nat -> nth j (bus_nump P) 0 <> 0 ->
             kmalloc_ok K j = true) ->
  exists err s', i2c_gpio_custom_probe K P init_state = Done err s'.
Proof.
  intros Hpre Hmem. pose proof (probe_run K P) as H.
  destruct (i2c_gpio_custom_probe K P init_state) as [err s'|f s'].
  - now exists err, s'.
  - exfalso.
    destruct H as [(_ & j & Hj & Hcj & Hm)
                  |(t & i & _ & Hti & Hct & Hci & _)].
    + rewrite (Hmem j Hj) in Hm; [discriminate|now apply configured_true].
    + rewrite (Hpre t i) in Hct; [discriminate|lia|lia|exact Hci].
Qed.

Lemma probe_returns_witness :
  exists err s',
    i2c_gpio_custom_probe rejects_bus1 two_buses init_state = Done err s'.
Proof.
  exact (probe_returns rejects_bus1 two_buses two_buses_prefix
           (fun j _ _ => eq_refl)).
Defined.

(** X10.  Loading, then unloading.  After [i2c_gpio_custom_init] returned 0,
    [i2c_gpio_custom_exit] runs to its end exactly when the configured slots
    come first; it then leaves nothing: no device on the platform bus, no
    table on the lookup list, no block allocated.  Otherwise it stops at the
    table of a slot that was left out before a configured one, with all
    devices unregistered and released by then. *)
Theorem init_then_exit K P s1 :
  i2c_gpio_custom_init K P init_state = Done 0 s1 ->
  (prefix_config P <-> exists s2, i2c_gpio_custom_exit s1 = Done tt s2) /\
  (forall s2, i2c_gpio_custom_exit s1 = Done tt s2 ->
     platform_bus s2 = [] /\ gpio_lookup_list s2 = [] /\
     forall p b, heap s2 !! p <> Some (Some b)) /\
  (forall f s2, i2c_gpio_custom_exit s1 = Oops f s2 ->
     exists t i, f = ListNotLinked t /\ (t < i < BUS_COUNT_MAX)%nat /\
       nth t (bus_nump P) 0 = 0 /\ nth i (bus_nump P) 0 <> 0 /\
       platform_bus s2 = [] /\
       (forall p d, heap s2 !! p <> Some (Some (Device d)))).
Proof.
  unfold i2c_gpio_custom_init, i2c_gpio_custom_exit. intros Hrun.
  pose proof (probe_run K P) as H. rewrite Hrun in H.
  destruct H as [(_ & Hinv & Hres & Hinst & Hnr & Hus)|(He & _)];
    [|congruence].
  pose proof (cleanup_run _ s1 Hinv Hres) as Hclean.
  pose proof (probe_err_run P _ 0 s1 Hinv Hres Hinst) as Herr.
  unfold probe_err, bind in Herr.
  destruct (i2c_gpio_custom_cleanup s1) as [[] s2|f s2].
  - destruct Hclean as (Hall & Hnone & _). conj.
    + split; [intros _; now exists s2|intros _].
      apply no_gap_prefix. intros i Hi.
      unfold installed_exactly in Hinst.
      rewrite <- Hinst, (inv_tables _ _ Hinv) in Hi.
      apply Hall in Hi. rewrite Hinst in Hi.
      now apply linked_filter in Hi.
    + intros s2' Heq. injection Heq as <-. exact Hnone.
    + intros f s2' Heq. discriminate Heq.
  - destruct Herr as (t & i & -> & Hti & Hct & Hci & Hbus & Hdev). conj.
    + split.
      * intros Hpre. rewrite (Hpre t i) in Hct;
          [discriminate|lia|lia|exact Hci].
      * intros [s2' Heq]. discriminate Heq.
    + intros s2' Heq. discriminate Heq.
    + intros f s2' Heq. injection Heq as <- <-. exists t, i.
      conj; try assumption; try reflexivity; try lia.
      * now apply configured_false.
      * now apply configured_true.
Qed.

Lemma init_then_exit_witness :
  exists s1 s2,
    i2c_gpio_custom_init friendly two_buses init_state = Done 0 s1 /\
    i2c_gpio_custom_exit s1 = Done tt s2 /\
    platform_bus s2 = [] /\ gpio_lookup_list s2 = [] /\
    forall p b, heap s2 !! p <> Some (Some b).
Proof.
  pose (s1 := final (i2c_gpio_custom_init friendly two_buses init_state)).
  pose (s2 := final (i2c_gpio_custom_exit s1)).
  assert (Hrun : i2c_gpio_custom_init friendly two_buses init_state =
                 Done 0 s1) by (vm_compute; reflexivity).
  assert (Hexit : i2c_gpio_custom_exit s1 = Done tt s2)
    by (vm_compute; reflexivity).
  destruct (init_then_exit friendly two_buses s1 Hrun) as (_ & Hnone & _).
  exists s1, s2. split; [exact Hrun|]. split; [exact Hexit|].
  exact (Hnone s2 Hexit).
Defined.

(** X11.  The kernel calls of a successful [i2c_gpio_custom_add_one], in
    order: both lines are looked up, the identity string is allocated and
    formatted, the lookup table is installed, and only then the device is
    allocated, given its parameter block and added to the platform bus.  The
    table is on the lookup list before [platform_device_add] runs. *)
Theorem add_one_call_order K P id params chip_sda chip_scl s :
  (id < BUS_COUNT_MAX)%nat ->
  BUS_PARAM_REQUIRED <= nth id (bus_nump P) 0 ->
  chip_of_gpio K (param params BUS_PARAM_SDA) = Some chip_sda ->
  chip_of_gpio K (param params BUS_PARAM_SCL) = Some chip_scl ->
  kmalloc_ok K id = true -> pdev_alloc_ok K id = true ->
  add_data_rc K id = 0 -> add_rc K id = 0 ->
  linked id (gpio_lookup_list s) = false ->
  (nr_devices s < length (devices s))%nat ->
  let q := length (heap s) in
  let p := S (length (heap s)) in
  exists s',
    i2c_gpio_custom_add_one K P id params s = Done 0 s' /\
    klog s' = klog s ++
      [GpioToChip (param params BUS_PARAM_SDA);
       GpioToChip (param params BUS_PARAM_SCL);
       Kmalloc (BUS_NAME_MAX + 1) (Some q);
       Snprintf q (BUS_NAME_MAX + 1)
         (dev_id_text (param params BUS_PARAM_ID));
       GpiodAddLookupTable id;
       PlatformDeviceAlloc "i2c-gpio" (to_int (param params BUS_PARAM_ID))
         (Some p);
       PlatformDeviceAddData p 0;
       PlatformDeviceAdd p 0].
Proof.
  intros Hid Hreq Hsda Hscl Hk Ha Hd Hr Hfresh Hnr q p. subst q p.
  rewrite (add_one_ok K P id params chip_sda chip_scl s) by assumption.
  eexists. split; [reflexivity|]. cbn.
  rewrite length_app, Nat.add_1_r, <- app_assoc. reflexivity.
Qed.

Lemma add_one_call_order_witness :
  exists s',
    i2c_gpio_custom_add_one friendly one_bus 0 (bus0 one_bus) init_state =
    Done 0 s' /\
    klog s' =
      [GpioToChip 5; GpioToChip 6; Kmalloc 33 (Some 0%nat);
       Snprintf 0%nat 33 "i2c-gpio.0"; GpiodAddLookupTable 0;
       PlatformDeviceAlloc "i2c-gpio" 0 (Some 1%nat);
       PlatformDeviceAddData 1%nat 0; PlatformDeviceAdd 1%nat 0].
Proof.
  exact (add_one_call_order friendly one_bus 0%nat (bus0 one_bus)
           {| label := "gpio0"; base := 0 |} {| label := "gpio0"; base := 0 |}
           init_state
           ltac:(vm_compute; lia) ltac:(vm_compute; discriminate)
           eq_refl eq_refl eq_refl eq_refl eq_refl eq_refl eq_refl
           ltac:(vm_compute; lia)).
Defined.

(** X12.  The kernel calls of [i2c_gpio_custom_exit] after a successful
    [i2c_gpio_custom_init], when it runs to its end: first every device on
    the platform bus, in the order of registration, is deleted and then
    put; only after the last device the tables of the slots 0, 1, ...
    below [nr_devices] are uninstalled, each followed by the [kfree] of its
    identity string. *)
Theorem exit_call_order K P s1 s2 :
  i2c_gpio_custom_init K P init_state = Done 0 s1 ->
  i2c_gpio_custom_exit s1 = Done tt s2 ->
  klog s2 =
    klog s1 ++
    flat_map (fun p => [PlatformDeviceDel p; PlatformDevicePut p])
      (platform_bus s1) ++
    flat_map (fun t => [GpiodRemoveLookupTable t;
                        Kfree (name_of (gpiod_tables s1) t)])
      (seq 0 (configured_count P)).
Proof.
  unfold i2c_gpio_custom_init, i2c_gpio_custom_exit. intros Hrun Hexit.
  pose proof (probe_run K P) as H. rewrite Hrun in H.
  destruct H as [(_ & Hinv & Hres & Hinst & Hnr & Hus)|(He & _)];
    [|congruence].
  pose proof (cleanup_run _ s1 Hinv Hres) as Hclean.
  rewrite Hexit in Hclean. destruct Hclean as (_ & _ & _ & _ & Hlog).
  rewrite <- (installed_count P s1 Hinv Hinst). exact Hlog.
Qed.

Lemma exit_call_order_witness :
  exists s1 s2,
    i2c_gpio_custom_init friendly two_buses init_state = Done 0 s1 /\
    i2c_gpio_custom_exit s1 = Done tt s2 /\
    klog s2 =
      klog s1 ++
      flat_map (fun p => [PlatformDeviceDel p; PlatformDevicePut p])
        (platform_bus s1) ++
      flat_map (fun t => [GpiodRemoveLookupTable t;
                          Kfree (name_of (gpiod_tables s1) t)])
        (seq 0 (configured_count two_buses)).
Proof.
  pose (s1 := final (i2c_gpio_custom_init friendly two_buses init_state)).
  pose (s2 := final (i2c_gpio_custom_exit s1)).
  assert (Hrun : i2c_gpio_custom_init friendly two_buses init_state =
                 Done 0 s1) by (vm_compute; reflexivity).
  assert (Hexit : i2c_gpio_custom_exit s1 = Done tt s2)
    by (vm_compute; reflexivity).
  exists s1, s2. split; [exact Hrun|]. split; [exact Hexit|].
  exact (exit_call_order friendly two_buses s1 s2 Hrun Hexit).
Defined.
